(** * Verification cog: member reconciliation, confirmation gate, reminders

    A shallow embedding of [bot/cogs/verification.py] and the properties of
    its reconciliation and reminder logic.

    Conventions.
    - Discord snowflakes (member, role, channel and message ids) are [Z].
    - A naive UTC [datetime] is the number of microseconds since the Unix
      epoch, a [timedelta] a number of microseconds; both are [Z], so that
      differences and comparisons are exact, as they are in Python.
    - A Python [set] of members or roles is a [gset] of their ids:
      [discord.Member] and [discord.Role] hash and compare by id.
    - Coroutines are computations in a state-and-exception monad [M] whose
      state holds the trace of observable events and the Redis cache; the
      answers of Discord, of the clock and of the staff are read from an
      environment [Env] of oracles that may depend on the trace so far. *)

From Stdlib Require Import ZArith QArith Lia.
From stdpp Require Import base option list gmap sets strings.

Local Open Scope Z_scope.

(** ** Time *)

Definition datetime := Z.
Definition timedelta := Z.

(** [timedelta(days=d)] and [timedelta(hours=h)], in microseconds. *)
Definition timedelta_days (d : Z) : timedelta := d * 86400000000.
Definition timedelta_hours (h : Z) : timedelta := h * 3600000000.

(** ** Module constants *)

Definition UNVERIFIED_AFTER : Z := 3.
Definition KICKED_AFTER : Z := 30.
Definition KICK_CONFIRMATION_THRESHOLD : Q := 0%Q.
Definition REMINDER_FREQUENCY : Z := 28.

(** ** Members and guilds *)

Definition Snowflake := Z.

Record Member := {
  member_id : Snowflake;
  member_bot : bool;
  joined_at : option datetime;
  member_roles : list Snowflake
}.

#[global] Instance Member_eq_dec : EqDecision Member.
Proof. solve_decision. Defined.

Record Guild := {
  members : list Member;
  default_role : Snowflake
}.

(** The values of [bot.constants] the cog reads, taken as given. *)
Record Constants := {
  Roles_unverified : Snowflake;
  Roles_core_developers : Snowflake;
  Channels_dev_core : Snowflake;
  Channels_verification : Snowflake;
  Emojis_incident_actioned : string;
  Emojis_incident_unactioned : string
}.

(** ** The classification loop of [_check_members] *)

Section Classifier.
Variable unverified : Snowflake.    (* pydis.get_role(Roles.unverified) *)
Variable everyone : Snowflake.      (* pydis.default_role *)
Variable current_dt : datetime.     (* datetime.utcnow() *)

(** [unverified_roles = {unverified, pydis.default_role}] *)
Definition unverified_roles : gset Snowflake := {[ unverified; everyone ]}.

(** One iteration of [for member in pydis.members], on the pair
    [(for_role, for_kick)]. *)
Definition check_member (acc : gset Snowflake * gset Snowflake) (member : Member)
  : gset Snowflake * gset Snowflake :=
  let '(for_role, for_kick) := acc in
  match member_bot member, joined_at member with
  | true, _ | _, None => acc        (* continue *)
  | false, Some joined =>
    if bool_decide (list_to_set (member_roles member) ∖ unverified_roles ≠ ∅)
    then acc                        (* continue *)
    else
      let since_join := current_dt - joined in
      if since_join >? timedelta_days KICKED_AFTER
      then (for_role, for_kick ∪ {[ member_id member ]})
      else if (since_join >? timedelta_days UNVERIFIED_AFTER)
              && bool_decide (unverified ∉ member_roles member)
      then (for_role ∪ {[ member_id member ]}, for_kick)
      else acc
  end.

Definition check_members_loop (ms : list Member)
  : gset Snowflake * gset Snowflake :=
  foldl check_member (∅, ∅) ms.
End Classifier.

(** *** Reference classifier, after the specification *)

Inductive Action := NoAction | NeedsWarning | NeedsRemoval.

#[global] Instance Action_eq_dec : EqDecision Action.
Proof. solve_decision. Defined.

Record Policy := {
  warningAfter : timedelta;
  removalAfter : timedelta;
  pendingRoleId : Snowflake;
  baselineRoleIds : gset Snowflake
}.

(** A member is unverified when the role set is a subset of
    [baselineRoleIds ∪ {pendingRoleId}]. *)
Definition role_set (m : Member) : gset Snowflake := list_to_set (member_roles m).

Definition is_unverified (p : Policy) (m : Member) : Prop :=
  role_set m ⊆ baselineRoleIds p ∪ {[ pendingRoleId p ]}.

#[global] Instance is_unverified_dec p m : Decision (is_unverified p m).
Proof. unfold is_unverified. apply _. Defined.

Definition classify (p : Policy) (now : datetime) (m : Member) : Action :=
  if member_bot m then NoAction
  else match joined_at m with
       | None => NoAction
       | Some joinTime =>
         if decide (is_unverified p m) then
           let elapsed := now - joinTime in
           if decide (elapsed > removalAfter p) then NeedsRemoval
           else if decide (elapsed > warningAfter p ∧ pendingRoleId p ∉ member_roles m)
                then NeedsWarning
                else NoAction
         else NoAction
       end.

Definition batch_of (p : Policy) (now : datetime) (a : Action) (ms : list Member)
  : gset Snowflake :=
  list_to_set (member_id <$> filter (λ m, classify p now m = a) ms).

(** The policy the cog is configured with. *)
Definition cog_policy (unverified everyone : Snowflake) : Policy :=
  {| warningAfter := timedelta_days UNVERIFIED_AFTER;
     removalAfter := timedelta_days KICKED_AFTER;
     pendingRoleId := unverified;
     baselineRoleIds := {[ everyone ]} |}.

(** ** Observable events *)

Inductive LogLevel := TRACE | DEBUG | INFO.

(** The log lines of the cog, one constructor per format string. *)
Inductive LogMsg :=
  | CheckingSafeToKick (n_members : nat)
  | SeenAsSafe (percentage : Q)
  | RequestingConfirmation
  | PromptNotAnswered
  | ReceivedAnswer (choice : string) (result : bool)
  | KickingMembers (n : nat)
  | FailedToKick (n : nat) (bad_statuses : gset Z)
  | AssigningRole (role : Snowflake) (n : nat)
  | FailedToAssign (n : nat) (bad_statuses : gset Z)
  | CheckingStatus
  | FoundUsers (n_role n_kick : nat)
  | UpdatingUnverified
  | FoundReminder (last_reminder : Snowflake)
  | SendingReminder
  | ReminderNotCached
  | TimeSinceReminder (time_since : timedelta)
  | TimeToSleep (to_sleep : timedelta).

(** Message contents sent or edited by the cog. *)
Inductive Content :=
  | ConfirmationPrompt (n_members : nat) (percentage : Q)
  | RequestOutcome (n_members : nat) (authorized : bool)
  | REMINDER_MESSAGE.

Inductive RoleReport :=
  | FoundNoUsersForRole
  | AssignedRole (n_roles total : nat).

Inductive KickReport :=
  | FoundNoUsersToKick
  | NotAuthorized (n : nat)
  | Kicked (n_kicks total : nat).

(** Answer of a Discord HTTP call: done, or [discord.HTTPException] with
    its status. *)
Inductive http (A : Type) :=
  | Done (a : A)
  | Failed (status : Z).
Arguments Done {A} a.
Arguments Failed {A} status.

(** A dispatched [reaction_add] event, as seen by [check]. *)
Record ReactionAdd := {
  reaction_message : Snowflake;
  reaction_emoji : string;
  user_bot : bool
}.

Inductive Event :=
  | EvLog (level : LogLevel) (msg : LogMsg)
  | EvGuildAvailable
  | EvSend (channel : Snowflake) (content : Content) (answer : http Snowflake)
  | EvAddReaction (message : Snowflake) (emoji : string) (answer : http unit)
  | EvWaitFor (timeout : Z) (answer : option ReactionAdd)
  | EvClearReactions (message : Snowflake) (answer : http unit)
  | EvEdit (message : Snowflake) (content : Content) (answer : http unit)
  | EvKick (member : Snowflake) (answer : http unit)
  | EvAddRoles (member role : Snowflake) (answer : http unit)
  | EvDeleteMessage (channel message : Snowflake) (answer : http unit)
  | EvCacheSet (key : string) (value : Snowflake)
  | EvSleep (secs : Q)
  | EvModLog (kick_report : KickReport) (role_report : RoleReport).

(** ** The environment *)

(** What the outside world answers, given the events so far. *)
Record Env := {
  env_guild : list Event → Guild;
  env_utcnow : list Event → datetime;
  env_send : list Event → Snowflake → Content → http Snowflake;
  env_add_reaction : list Event → Snowflake → string → http unit;
  env_clear_reactions : list Event → Snowflake → http unit;
  env_edit : list Event → Snowflake → Content → http unit;
  (* the [reaction_add] events dispatched, in order, before [timeout]
     seconds have passed *)
  env_reactions : list Event → Z → list ReactionAdd;
  env_kick : list Event → Snowflake → http unit;
  env_add_roles : list Event → Snowflake → Snowflake → http unit;
  env_delete_message : list Event → Snowflake → Snowflake → http unit
}.

(** ** The monad of coroutines *)

Inductive exn :=
  | HTTPException (status : Z)
  | TimeoutError
  | ZeroDivisionError.

Inductive result (A : Type) :=
  | Ok (a : A)
  | Raise (e : exn).
Arguments Ok {A} a.
Arguments Raise {A} e.

Record State := {
  trace : list Event;
  reminder_cache : gmap string Snowflake
}.

(** The state after one more event. *)
Definition push (s : State) (e : Event) : State :=
  {| trace := trace s ++ [e]; reminder_cache := reminder_cache s |}.

Definition M (A : Type) : Type := State → result A * State.

#[global] Instance M_ret : MRet M := λ A a s, (Ok a, s).
#[global] Instance M_bind : MBind M := λ A B f m s,
  match m s with
  | (Ok a, s') => f a s'
  | (Raise e, s') => (Raise e, s')
  end.

Definition raise {A} (e : exn) : M A := λ s, (Raise e, s).

Definition emit (e : Event) : M unit := λ s, (Ok (), push s e).

(** An awaited Discord call: the answer is read from the environment, the
    call and its answer are recorded, a failure is raised. *)
Definition call {A} (answer : list Event → http A) (ev : http A → Event) : M A := λ s,
  match answer (trace s) with
  | Done a => (Ok a, push s (ev (Done a)))
  | Failed status => (Raise (HTTPException status), push s (ev (Failed status)))
  end.

(** [try: body / except discord.HTTPException as e: handler / else: orelse] *)
Definition try_http {A B} (body : M A) (handler : Z → M B) (orelse : A → M B) : M B := λ s,
  match body s with
  | (Ok a, s') => orelse a s'
  | (Raise (HTTPException status), s') => handler status s'
  | (Raise e, s') => (Raise e, s')
  end.

(** [try: body / except asyncio.TimeoutError: handler] *)
Definition try_timeout {A} (body : M A) (handler : M A) : M A := λ s,
  match body s with
  | (Raise TimeoutError, s') => handler s'
  | r => r
  end.

(** [try: body / finally: final] *)
Definition try_finally {A} (body : M A) (final : M unit) : M A := λ s,
  match body s with
  | (r, s') =>
    match final s' with
    | (Ok _, s'') => (r, s'')
    | (Raise e, s'') => (Raise e, s'')
    end
  end.

(** [for x in l: acc = body(acc, x)], the locals the loop updates being
    threaded as [acc]. *)
Fixpoint for_fold {A S} (l : list A) (acc : S) (body : S → A → M S) : M S :=
  match l with
  | [] => mret acc
  | x :: l' => acc' ← body acc x; for_fold l' acc' body
  end.

Definition for_each {A} (l : list A) (body : A → M unit) : M unit :=
  for_fold l () (λ _ x, body x).

(** [a / b] on Python integers: true division, [ZeroDivisionError] when
    the divisor is zero. Python rounds the quotient to the nearest float;
    the rounding is monotone and keeps 0 and the sign, so the test against
    the constant 0 is the test on the quotient itself. The quotient is
    kept exact here. *)
Definition py_truediv (a b : nat) : M Q :=
  if decide (b = 0%nat) then raise ZeroDivisionError
  else mret (inject_Z (Z.of_nat a) / inject_Z (Z.of_nat b))%Q.

(** [timedelta.total_seconds()], kept exact. *)
Definition total_seconds (td : timedelta) : Q := (inject_Z td / 1000000)%Q.

(** [max(x, 0)] on a number of seconds. *)
Definition py_max0 (x : Q) : Q := if Qlt_le_dec x 0 then 0%Q else x.

(** [discord.utils.snowflake_time]: the creation time held in the upper
    bits of an id, in milliseconds since the Discord epoch. *)
Definition DISCORD_EPOCH : Z := 1420070400000.
Definition snowflake_time (id : Snowflake) : datetime :=
  (Z.shiftr id 22 + DISCORD_EPOCH) * 1000.

(** The body of the two [for member in members] loops of [_kick_members]
    and [_give_role], for a call answered by [answer] and recorded by [ev]. *)
Definition attempt {A} (answer : list Event → Snowflake → http A)
    (ev : Snowflake → http A → Event)
  : nat * gset Z → Snowflake → M (nat * gset Z) :=
  λ '(n_success, bad_statuses) member,
    try_http (call (λ tr, answer tr member) (ev member))
      (λ status, mret (n_success, bad_statuses ∪ {[ status ]}))
      (λ _, mret (S n_success, bad_statuses)).

(** ** The cog *)

Section Cog.
Variable constants : Constants.
Variable env : Env.
(** [KICK_CONFIRMATION_THRESHOLD], a module constant, kept as a variable
    so that values other than the default can be studied. *)
Variable threshold : Q.

Definition log (level : LogLevel) (msg : LogMsg) : M unit := emit (EvLog level msg).

(** [await self.bot.wait_until_guild_available()]: a point at which the
    coroutine is suspended; what the environment answers may change there. *)
Definition wait_until_guild_available : M unit := emit EvGuildAvailable.

Definition get_guild : M Guild := λ s, (Ok (env_guild env (trace s)), s).

Definition utcnow : M datetime := λ s, (Ok (env_utcnow env (trace s)), s).

Definition channel_send (channel : Snowflake) (content : Content) : M Snowflake :=
  call (λ tr, env_send env tr channel content) (EvSend channel content).

Definition add_reaction (message : Snowflake) (emoji : string) : M unit :=
  call (λ tr, env_add_reaction env tr message emoji) (EvAddReaction message emoji).

Definition clear_reactions (message : Snowflake) : M unit :=
  call (λ tr, env_clear_reactions env tr message) (EvClearReactions message).

Definition message_edit (message : Snowflake) (content : Content) : M unit :=
  call (λ tr, env_edit env tr message content) (EvEdit message content).

Definition member_kick (member : Snowflake) : M unit :=
  call (λ tr, env_kick env tr member) (EvKick member).

Definition member_add_roles (member role : Snowflake) : M unit :=
  call (λ tr, env_add_roles env tr member role) (EvAddRoles member role).

Definition delete_message (channel message : Snowflake) : M unit :=
  call (λ tr, env_delete_message env tr channel message) (EvDeleteMessage channel message).

(** [bot.wait_for("reaction_add", check=check, timeout=timeout)]: the first
    dispatched event accepted by [check], [asyncio.TimeoutError] if there
    is none before the timeout. *)
Definition wait_for (check : ReactionAdd → bool) (timeout : Z) : M ReactionAdd := λ s,
  match List.find check (env_reactions env (trace s) timeout) with
  | Some reaction => (Ok reaction, push s (EvWaitFor timeout (Some reaction)))
  | None => (Raise TimeoutError, push s (EvWaitFor timeout None))
  end.

Definition asyncio_sleep (secs : Q) : M unit := emit (EvSleep secs).

(** Modelled from the spec: [ModLog.send_log_message] (bot/cogs/moderation)
    is the audit sink [report(title, text, severity)]; the text
    [kick_report] and [role_report] is recorded. *)
Definition send_log_message (kick_report : KickReport) (role_report : RoleReport) : M unit :=
  emit (EvModLog kick_report role_report).

(** Modelled from the spec: [RedisCache] (bot/utils/redis_cache) is the
    key-value store with [get(key)], absent or the value, and
    [set(key, value)]; here on [reminder_cache]. *)
Definition cache_get (key : string) : M (option Snowflake) := λ s,
  (Ok (reminder_cache s !! key), s).

Definition cache_set (key : string) (value : Snowflake) : M unit := λ s,
  (Ok (), {| trace := trace s ++ [EvCacheSet key value];
             reminder_cache := <[key := value]> (reminder_cache s) |}).

(** *** [_verify_kick] *)

Definition options : list string :=
  [Emojis_incident_actioned constants; Emojis_incident_unactioned constants].

Definition check (confirmation_msg : Snowflake) (r : ReactionAdd) : bool :=
  bool_decide (reaction_message r = confirmation_msg)
  && bool_decide (reaction_emoji r ∈ options)
  && negb (user_bot r).

Definition _verify_kick (n_members : nat) : M bool :=
  log DEBUG (CheckingSafeToKick n_members) ;;
  wait_until_guild_available ;;
  pydis ← get_guild;
  percentage ← py_truediv n_members (length (members pydis));
  if Qlt_le_dec percentage threshold then
    log DEBUG (SeenAsSafe percentage) ;;
    mret true
  else
    log DEBUG RequestingConfirmation ;;
    let core_devs := Channels_dev_core constants in
    confirmation_msg ← channel_send core_devs (ConfirmationPrompt n_members percentage);
    for_each options (λ option, add_reaction confirmation_msg option) ;;
    let timeout := 60 * 5 in
    (* [inl b]: the [try] statement returned [b]; [inr choice]: it fell through *)
    r ← try_finally
          (try_timeout
             (choice ← wait_for (check confirmation_msg) timeout; mret (inr choice))
             (log DEBUG PromptNotAnswered ;; mret (inl false)))
          (clear_reactions confirmation_msg);
    match r with
    | inl b => mret b
    | inr choice =>
      let result :=
        bool_decide (reaction_emoji choice = Emojis_incident_actioned constants) in
      log DEBUG (ReceivedAnswer (reaction_emoji choice) result) ;;
      message_edit confirmation_msg (RequestOutcome n_members result) ;;
      mret result
    end.

(** *** [_kick_members] and [_give_role] *)

Definition _kick_members (batch : gset Snowflake) : M nat :=
  log INFO (KickingMembers (size batch)) ;;
  '(n_kicked, bad_statuses) ←
    for_fold (elements batch) (0%nat, (∅ : gset Z))
      (λ '(n_kicked, bad_statuses) member,
         try_http (member_kick member)
           (λ status, mret (n_kicked, bad_statuses ∪ {[ status ]}))
           (λ _, mret (S n_kicked, bad_statuses)));
  (if bool_decide (bad_statuses ≠ ∅)
   then log INFO (FailedToKick (size batch - n_kicked) bad_statuses)
   else mret ()) ;;
  mret n_kicked.

Definition _give_role (batch : gset Snowflake) (role : Snowflake) : M nat :=
  log INFO (AssigningRole role (size batch)) ;;
  '(n_success, bad_statuses) ←
    for_fold (elements batch) (0%nat, (∅ : gset Z))
      (λ '(n_success, bad_statuses) member,
         try_http (member_add_roles member role)
           (λ status, mret (n_success, bad_statuses ∪ {[ status ]}))
           (λ _, mret (S n_success, bad_statuses)));
  (if bool_decide (bad_statuses ≠ ∅)
   then log INFO (FailedToAssign (size batch - n_success) bad_statuses)
   else mret ()) ;;
  mret n_success.

(** *** [_check_members] *)

Definition _check_members : M (gset Snowflake * gset Snowflake) :=
  wait_until_guild_available ;;
  pydis ← get_guild;
  let unverified := Roles_unverified constants in
  current_dt ← utcnow;
  log DEBUG CheckingStatus ;;
  let '(for_role, for_kick) :=
    check_members_loop unverified (default_role pydis) current_dt (members pydis) in
  log DEBUG (FoundUsers (size for_role) (size for_kick)) ;;
  mret (for_role, for_kick).

(** *** [update_unverified_members], one iteration of the task *)

Definition update_unverified_members : M unit :=
  log INFO UpdatingUnverified ;;
  wait_until_guild_available ;;
  let unverified := Roles_unverified constants in
  '(for_role, for_kick) ← _check_members;
  role_report ←
    (if bool_decide (for_role = ∅) then mret FoundNoUsersForRole
     else n_roles ← _give_role for_role unverified;
          mret (AssignedRole n_roles (size for_role)));
  kick_report ←
    (if bool_decide (for_kick = ∅) then mret FoundNoUsersToKick
     else authorized ← _verify_kick (size for_kick);
          if negb authorized then mret (NotAuthorized (size for_kick))
          else n_kicks ← _kick_members for_kick;
               mret (Kicked n_kicks (size for_kick)));
  send_log_message kick_report role_report.

(** *** [ping_unverified], one iteration of the task *)

Definition ping_unverified : M unit :=
  wait_until_guild_available ;;
  let verification := Channels_verification constants in
  last_reminder ← cache_get "last_reminder";
  match last_reminder with
  | Some last_reminder =>
    log TRACE (FoundReminder last_reminder) ;;
    (* with suppress(discord.HTTPException) *)
    try_http (delete_message verification last_reminder) (λ _, mret ()) mret
  | None => mret ()
  end ;;
  log TRACE SendingReminder ;;
  new_reminder ← channel_send verification REMINDER_MESSAGE;
  cache_set "last_reminder" new_reminder.

(** *** [_before_first_ping] *)

Definition _before_first_ping : M unit :=
  last_reminder ← cache_get "last_reminder";
  match last_reminder with
  | None => log TRACE ReminderNotCached ;; mret ()
  | Some last_reminder =>
    now ← utcnow;
    let time_since := now - snowflake_time last_reminder in
    log TRACE (TimeSinceReminder time_since) ;;
    let to_sleep := timedelta_hours REMINDER_FREQUENCY - time_since in
    log TRACE (TimeToSleep to_sleep) ;;
    let secs := py_max0 (total_seconds to_sleep) in
    asyncio_sleep secs
  end.
End Cog.

(** ** The two halves of a cycle *)

(** [update_unverified_members] up to the role report, and from there on:
    the state between the two is the one in which the removal batch is
    looked at. *)
Definition role_phase (constants : Constants) (env : Env)
  : M (gset Snowflake * RoleReport) :=
  log INFO UpdatingUnverified ;;
  wait_until_guild_available ;;
  let unverified := Roles_unverified constants in
  '(for_role, for_kick) ← _check_members constants env;
  role_report ←
    (if bool_decide (for_role = ∅) then mret FoundNoUsersForRole
     else n_roles ← _give_role env for_role unverified;
          mret (AssignedRole n_roles (size for_role)));
  mret (for_kick, role_report).

Definition kick_phase (constants : Constants) (env : Env) (threshold : Q)
    (for_kick : gset Snowflake) (role_report : RoleReport) : M unit :=
  kick_report ←
    (if bool_decide (for_kick = ∅) then mret FoundNoUsersToKick
     else authorized ← _verify_kick constants env threshold (size for_kick);
          if negb authorized then mret (NotAuthorized (size for_kick))
          else n_kicks ← _kick_members env for_kick;
               mret (Kicked n_kicks (size for_kick)));
  send_log_message kick_report role_report.

(** The removal batch of a cycle started in state [s]. *)
Definition cycle_batches (constants : Constants) (env : Env) (s : State)
  : gset Snowflake * gset Snowflake :=
  let tr := trace s ++ [EvLog INFO UpdatingUnverified; EvGuildAvailable;
                        EvGuildAvailable] in
  let pydis := env_guild env tr in
  check_members_loop (Roles_unverified constants) (default_role pydis)
    (env_utcnow env tr) (members pydis).

(** ** Reading a run *)

(** The events a computation appended to the trace. *)
Definition events_of {A} (m : M A) (s : State) : list Event :=
  drop (length (trace s)) (trace (m s).2).

Definition sends (evs : list Event) : list (Snowflake * Content * http Snowflake) :=
  omap (λ e, match e with EvSend ch c a => Some (ch, c, a) | _ => None end) evs.

Definition waits (evs : list Event) : list (Z * option ReactionAdd) :=
  omap (λ e, match e with EvWaitFor t a => Some (t, a) | _ => None end) evs.

Definition cleared (evs : list Event) : list Snowflake :=
  omap (λ e, match e with EvClearReactions m _ => Some m | _ => None end) evs.

Definition edits (evs : list Event) : list (Snowflake * Content) :=
  omap (λ e, match e with EvEdit m c _ => Some (m, c) | _ => None end) evs.

Definition kicks (evs : list Event) : list (Snowflake * http unit) :=
  omap (λ e, match e with EvKick m a => Some (m, a) | _ => None end) evs.

Definition role_grants (evs : list Event) : list (Snowflake * Snowflake * http unit) :=
  omap (λ e, match e with EvAddRoles m r a => Some (m, r, a) | _ => None end) evs.

Definition gate_calls (evs : list Event) : list nat :=
  omap (λ e, match e with
             | EvLog DEBUG (CheckingSafeToKick n) => Some n
             | _ => None
             end) evs.

Definition reports (evs : list Event) : list (KickReport * RoleReport) :=
  omap (λ e, match e with EvModLog k r => Some (k, r) | _ => None end) evs.

Definition sleeps (evs : list Event) : list Q :=
  omap (λ e, match e with EvSleep secs => Some secs | _ => None end) evs.

(** The cache after the writes recorded in [evs]. *)
Definition cache_replay (cache : gmap string Snowflake) (evs : list Event)
  : gmap string Snowflake :=
  foldl (λ c e, match e with EvCacheSet k v => <[k := v]> c | _ => c end) cache evs.

(** Successes and failure statuses among the answers of a batch. *)
Definition is_done {A} (a : http A) : bool :=
  match a with Done _ => true | Failed _ => false end.

Definition successes {A} (answers : list (http A)) : nat :=
  length (filter (λ a, is_done a) answers).

Definition failed_statuses {A} (answers : list (http A)) : list Z :=
  omap (λ a, match a with Done _ => None | Failed st => Some st end) answers.

Definition failure_codes {A} (answers : list (http A)) : gset Z :=
  list_to_set (failed_statuses answers).

(** The answers the environment gives to a batch of calls made one after
    the other, each call and its answer being recorded before the next. *)
Fixpoint batch_answers {A} (answer : list Event → Snowflake → http A)
    (ev : Snowflake → http A → Event) (tr : list Event) (batch : list Snowflake)
  : list (http A) :=
  match batch with
  | [] => []
  | member :: rest =>
    let a := answer tr member in
    a :: batch_answers answer ev (tr ++ [ev member a]) rest
  end.

(** All the Discord calls of the confirmation prompt go through. *)
Definition prompt_calls_succeed (env : Env) : Prop :=
  (∀ tr ch c, ∃ msg, env_send env tr ch c = Done msg)
  ∧ (∀ tr msg e, env_add_reaction env tr msg e = Done ())
  ∧ (∀ tr msg, env_clear_reactions env tr msg = Done ())
  ∧ (∀ tr msg c, env_edit env tr msg c = Done ()).

(** Time spent asleep. *)
Definition slept (evs : list Event) : Q := foldr Qplus 0%Q (sleeps evs).

Definition is_cache_set (e : Event) : bool :=
  match e with EvCacheSet _ _ => true | _ => false end.

(** The events with which [_verify_kick] starts, the size of the guild it
    then reads, and the fraction of it that [n_members] is. *)
Definition gate_entry (n_members : nat) : list Event :=
  [EvLog DEBUG (CheckingSafeToKick n_members); EvGuildAvailable].

Definition guild_size (env : Env) (s : State) (n_members : nat) : nat :=
  length (members (env_guild env (trace s ++ gate_entry n_members))).

Definition gate_fraction (env : Env) (s : State) (n_members : nat) : Q :=
  (inject_Z (Z.of_nat n_members) / inject_Z (Z.of_nat (guild_size env s n_members)))%Q.

(** The events of a prompt posted as message [msg], up to the wait. *)
Definition gate_prompt (constants : Constants) (n_members : nat) (percentage : Q)
    (msg : Snowflake) : list Event :=
  [EvLog DEBUG RequestingConfirmation;
   EvSend (Channels_dev_core constants) (ConfirmationPrompt n_members percentage) (Done msg);
   EvAddReaction msg (Emojis_incident_actioned constants) (Done ());
   EvAddReaction msg (Emojis_incident_unactioned constants) (Done ())].

(** The state [s] after the events [evs]. *)
Definition extend (s : State) (evs : list Event) : State :=
  {| trace := trace s ++ evs; reminder_cache := reminder_cache s |}.

(** The ways through [_verify_kick]: what it returns or raises, and the
    events it leaves, for [n_members] candidates in a guild of [size]
    members. *)
Inductive gate_path (constants : Constants) (threshold : Q) (n_members size : nat)
  : result bool → list Event → Prop :=
  | path_empty_guild :
      size = 0%nat →
      gate_path constants threshold n_members size
        (Raise ZeroDivisionError) (gate_entry n_members)
  | path_auto percentage :
      size ≠ 0%nat →
      percentage = (inject_Z (Z.of_nat n_members) / inject_Z (Z.of_nat size))%Q →
      (percentage < threshold)%Q →
      gate_path constants threshold n_members size
        (Ok true) (gate_entry n_members ++ [EvLog DEBUG (SeenAsSafe percentage)])
  | path_send_failed percentage status :
      size ≠ 0%nat →
      percentage = (inject_Z (Z.of_nat n_members) / inject_Z (Z.of_nat size))%Q →
      (threshold <= percentage)%Q →
      gate_path constants threshold n_members size
        (Raise (HTTPException status))
        (gate_entry n_members
         ++ [EvLog DEBUG RequestingConfirmation;
             EvSend (Channels_dev_core constants)
               (ConfirmationPrompt n_members percentage) (Failed status)])
  | path_first_reaction_failed percentage msg status :
      size ≠ 0%nat →
      percentage = (inject_Z (Z.of_nat n_members) / inject_Z (Z.of_nat size))%Q →
      (threshold <= percentage)%Q →
      gate_path constants threshold n_members size
        (Raise (HTTPException status))
        (gate_entry n_members
         ++ [EvLog DEBUG RequestingConfirmation;
             EvSend (Channels_dev_core constants)
               (ConfirmationPrompt n_members percentage) (Done msg);
             EvAddReaction msg (Emojis_incident_actioned constants) (Failed status)])
  | path_second_reaction_failed percentage msg status :
      size ≠ 0%nat →
      percentage = (inject_Z (Z.of_nat n_members) / inject_Z (Z.of_nat size))%Q →
      (threshold <= percentage)%Q →
      gate_path constants threshold n_members size
        (Raise (HTTPException status))
        (gate_entry n_members
         ++ [EvLog DEBUG RequestingConfirmation;
             EvSend (Channels_dev_core constants)
               (ConfirmationPrompt n_members percentage) (Done msg);
             EvAddReaction msg (Emojis_incident_actioned constants) (Done ());
             EvAddReaction msg (Emojis_incident_unactioned constants) (Failed status)])
  | path_timeout percentage msg cleared :
      size ≠ 0%nat →
      percentage = (inject_Z (Z.of_nat n_members) / inject_Z (Z.of_nat size))%Q →
      (threshold <= percentage)%Q →
      gate_path constants threshold n_members size
        (match cleared with
         | Done _ => Ok false
         | Failed status => Raise (HTTPException status)
         end)
        (gate_entry n_members
         ++ gate_prompt constants n_members percentage msg
         ++ [EvWaitFor (60 * 5) None; EvLog DEBUG PromptNotAnswered;
             EvClearReactions msg cleared])
  | path_answered_clear_failed percentage msg choice status :
      size ≠ 0%nat →
      percentage = (inject_Z (Z.of_nat n_members) / inject_Z (Z.of_nat size))%Q →
      (threshold <= percentage)%Q →
      check constants msg choice = true →
      gate_path constants threshold n_members size
        (Raise (HTTPException status))
        (gate_entry n_members
         ++ gate_prompt constants n_members percentage msg
         ++ [EvWaitFor (60 * 5) (Some choice);
             EvClearReactions msg (Failed status)])
  | path_answered percentage msg choice edited :
      size ≠ 0%nat →
      percentage = (inject_Z (Z.of_nat n_members) / inject_Z (Z.of_nat size))%Q →
      (threshold <= percentage)%Q →
      check constants msg choice = true →
      let outcome :=
        bool_decide (reaction_emoji choice = Emojis_incident_actioned constants) in
      gate_path constants threshold n_members size
        (match edited with
         | Done _ => Ok outcome
         | Failed status => Raise (HTTPException status)
         end)
        (gate_entry n_members
         ++ gate_prompt constants n_members percentage msg
         ++ [EvWaitFor (60 * 5) (Some choice);
             EvClearReactions msg (Done ());
             EvLog DEBUG (ReceivedAnswer (reaction_emoji choice) outcome);
             EvEdit msg (RequestOutcome n_members outcome) edited]).

(** ** Reference definitions, after the specification *)

Inductive ConfirmationDecision :=
  | AutoApproved
  | HumanApproved
  | HumanDenied
  | TimedOut.

(** Only [AutoApproved] and [HumanApproved] permit execution. *)
Definition permits (d : ConfirmationDecision) : bool :=
  match d with
  | AutoApproved | HumanApproved => true
  | HumanDenied | TimedOut => false
  end.

Inductive Token := Approve | Deny.

(** [authorize]: below the threshold the batch is approved at once;
    otherwise the qualifying response decides, and its absence is a
    timeout. *)
Definition authorize (candidateCount totalMemberCount : nat) (threshold : Q)
    (response : option Token) : ConfirmationDecision :=
  let fraction := (inject_Z (Z.of_nat candidateCount)
                   / inject_Z (Z.of_nat totalMemberCount))%Q in
  if Qlt_le_dec fraction threshold then AutoApproved
  else match response with
       | Some Approve => HumanApproved
       | Some Deny => HumanDenied
       | None => TimedOut
       end.

(** The decision a finished run of [_verify_kick] stands for: the value it
    returned, told apart by whether it waited and what the wait gave. *)
Definition decision_of (r : result bool) (evs : list Event)
  : option ConfirmationDecision :=
  match r, waits evs with
  | Ok true, [] => Some AutoApproved
  | Ok true, [(_, Some _)] => Some HumanApproved
  | Ok false, [(_, Some _)] => Some HumanDenied
  | Ok false, [(_, None)] => Some TimedOut
  | _, _ => None
  end.

(** The token a reaction stands for. *)
Definition token_of (constants : Constants) (r : ReactionAdd) : option Token :=
  if decide (reaction_emoji r = Emojis_incident_actioned constants) then Some Approve
  else if decide (reaction_emoji r = Emojis_incident_unactioned constants) then Some Deny
  else None.

(** A qualifying response to the prompt [msg]: a reaction to that message,
    with the approval or the denial emoji, by a user who is not a bot. *)
Definition qualifying (constants : Constants) (msg : Snowflake) (r : ReactionAdd) : Prop :=
  reaction_message r = msg
  ∧ (reaction_emoji r = Emojis_incident_actioned constants
     ∨ reaction_emoji r = Emojis_incident_unactioned constants)
  ∧ user_bot r = false.

(** [answer] is the response awaited among the [reactions] dispatched in
    time: the first qualifying one, nothing when none qualifies. *)
Definition first_qualifying (constants : Constants) (msg : Snowflake)
    (reactions : list ReactionAdd) (answer : option ReactionAdd) : Prop :=
  match answer with
  | None => ∀ r, r ∈ reactions → ¬ qualifying constants msg r
  | Some choice =>
    ∃ before after,
      reactions = before ++ choice :: after
      ∧ (∀ r, r ∈ before → ¬ qualifying constants msg r)
      ∧ qualifying constants msg choice
  end.

(** [computeInitialDelay]: nothing stored, no delay; otherwise what is left
    of [frequency] since the stored id was created. *)
Definition computeInitialDelay (lastReminderId : option Snowflake)
    (frequency : timedelta) (now : datetime) : timedelta :=
  match lastReminderId with
  | None => 0
  | Some id =>
    let elapsed := now - snowflake_time id in
    Z.max (frequency - elapsed) 0
  end.

(** ** Sample environments *)

Definition sample_constants : Constants :=
  {| Roles_unverified := 1;
     Roles_core_developers := 3;
     Channels_dev_core := 50;
     Channels_verification := 51;
     Emojis_incident_actioned := "actioned";
     Emojis_incident_unactioned := "unactioned" |}.

Definition sample_member (id : Snowflake) (joined : Z) (roles : list Snowflake) : Member :=
  {| member_id := id; member_bot := false;
     joined_at := Some (timedelta_days joined); member_roles := roles |}.

(** Day 100: member 10 joined on day 0, member 11 on day 96, member 12 on
    day 99; role 2 is the default role. *)
Definition sample_guild : Guild :=
  {| members := [sample_member 10 0 [2]; sample_member 11 96 [2];
                 sample_member 12 99 [2]];
     default_role := 2 |}.

(** An environment in which every call succeeds, the prompt gets message
    id 700, the staff reacts as given, and the members of [refused] cannot
    be kicked or given a role (status 403). *)
Definition sample_env (reactions : list ReactionAdd) (refused : list Snowflake) : Env :=
  {| env_guild := λ _, sample_guild;
     env_utcnow := λ _, timedelta_days 100;
     env_send := λ _ _ _, Done 700;
     env_add_reaction := λ _ _ _, Done ();
     env_clear_reactions := λ _ _, Done ();
     env_edit := λ _ _ _, Done ();
     env_reactions := λ _ _, reactions;
     env_kick := λ _ m, if bool_decide (m ∈ refused) then Failed 403 else Done ();
     env_add_roles := λ _ m _, if bool_decide (m ∈ refused) then Failed 403 else Done ();
     env_delete_message := λ _ _ _, Done () |}.

Definition initial_state : State := {| trace := []; reminder_cache := ∅ |}.

Definition with_delete_failure (status : Z) (env : Env) : Env :=
  {| env_guild := env_guild env;
     env_utcnow := env_utcnow env;
     env_send := env_send env;
     env_add_reaction := env_add_reaction env;
     env_clear_reactions := env_clear_reactions env;
     env_edit := env_edit env;
     env_reactions := env_reactions env;
     env_kick := env_kick env;
     env_add_roles := env_add_roles env;
     env_delete_message := λ _ _ _, Failed status |}.

Definition with_send_failure (status : Z) (env : Env) : Env :=
  {| env_guild := env_guild env;
     env_utcnow := env_utcnow env;
     env_send := λ _ _ _, Failed status;
     env_add_reaction := env_add_reaction env;
     env_clear_reactions := env_clear_reactions env;
     env_edit := env_edit env;
     env_reactions := env_reactions env;
     env_kick := env_kick env;
     env_add_roles := env_add_roles env;
     env_delete_message := env_delete_message env |}.

Definition with_guild (pydis : Guild) (env : Env) : Env :=
  {| env_guild := λ _, pydis;
     env_utcnow := env_utcnow env;
     env_send := env_send env;
     env_add_reaction := env_add_reaction env;
     env_clear_reactions := env_clear_reactions env;
     env_edit := env_edit env;
     env_reactions := env_reactions env;
     env_kick := env_kick env;
     env_add_roles := env_add_roles env;
     env_delete_message := env_delete_message env |}.

Definition with_clock (now : datetime) (env : Env) : Env :=
  {| env_guild := env_guild env;
     env_utcnow := λ _, now;
     env_send := env_send env;
     env_add_reaction := env_add_reaction env;
     env_clear_reactions := env_clear_reactions env;
     env_edit := env_edit env;
     env_reactions := env_reactions env;
     env_kick := env_kick env;
     env_add_roles := env_add_roles env;
     env_delete_message := env_delete_message env |}.

Definition empty_guild : Guild := {| members := []; default_role := 2 |}.

(** A guild of 1000 members who joined the day before. *)
Definition crowd : Guild :=
  {| members := (λ i, sample_member (Z.of_nat i) 99 [2]) <$> seq 0 1000;
     default_role := 2 |}.

(** A staff member approving, or denying, the prompt posted as message 700. *)
Definition approval : ReactionAdd :=
  {| reaction_message := 700; reaction_emoji := "actioned"; user_bot := false |}.
Definition denial : ReactionAdd :=
  {| reaction_message := 700; reaction_emoji := "unactioned"; user_bot := false |}.

(** A cache in which [last_reminder] is the given id. *)
Definition reminded (last_reminder : Snowflake) : State :=
  {| trace := []; reminder_cache := {[ "last_reminder" := last_reminder ]} |}.

(** ** Further readings of a run *)

(** The failure lines of the executor: how many requests failed, and with
    which statuses. *)
Definition failure_lines (evs : list Event) : list (nat * gset Z) :=
  omap (λ e, match e with
             | EvLog INFO (FailedToKick n bad) => Some (n, bad)
             | EvLog INFO (FailedToAssign n bad) => Some (n, bad)
             | _ => None
             end) evs.

(** The messages whose deletion was requested, with their channel. *)
Definition deletions (evs : list Event) : list (Snowflake * Snowflake) :=
  omap (λ e, match e with EvDeleteMessage ch m _ => Some (ch, m) | _ => None end) evs.

(** The writes to the cache. *)
Definition cache_writes (evs : list Event) : list (string * Snowflake) :=
  omap (λ e, match e with EvCacheSet k v => Some (k, v) | _ => None end) evs.

(** The status with which a recorded call failed, if it did. *)
Definition call_failed (e : Event) : option Z :=
  match e with
  | EvSend _ _ (Failed status)
  | EvAddReaction _ _ (Failed status)
  | EvClearReactions _ (Failed status)
  | EvEdit _ _ (Failed status)
  | EvKick _ (Failed status)
  | EvAddRoles _ _ (Failed status)
  | EvDeleteMessage _ _ (Failed status) => Some status
  | _ => None
  end.

(** The reactions the bot added, with the message they were added to. *)
Definition reactions_added (evs : list Event) : list (Snowflake * string) :=
  omap (λ e, match e with EvAddReaction m r _ => Some (m, r) | _ => None end) evs.

(** ** Listeners and commands *)

Definition BOT_MESSAGE_DELETE_DELAY : Z := 10.

(** The further values of [bot.constants] the listeners and commands read,
    taken as given, with the text of [REMINDER_MESSAGE.strip()]. *)
Record CommandConstants := {
  Guild_id : Snowflake;
  Roles_verified : Snowflake;
  Roles_announcements : Snowflake;
  Channels_mod_alerts : Snowflake;
  REMINDER_MESSAGE_stripped : string
}.

Record Message := {
  message_id : Snowflake;
  message_channel : Snowflake;
  message_content : string;
  message_author : Member;
  message_mentions : list Snowflake;
  message_role_mentions : list Snowflake
}.

(** The invocation context of a message: the message and the name of the
    command it invokes, if any. *)
Record Context := {
  ctx_message : Message;
  ctx_command : option string
}.

Definition ctx_author (ctx : Context) : Member := message_author (ctx_message ctx).
Definition ctx_channel (ctx : Context) : Snowflake := message_channel (ctx_message ctx).

(** Texts sent by the listeners and commands. *)
Inductive Text :=
  | ON_JOIN_MESSAGE
  | VERIFIED_MESSAGE
  | PleaseAccept (author : Snowflake)
  | AlreadySubscribed (author : Snowflake)
  | SubscribedNotice (author : Snowflake)
  | AlreadyUnsubscribed (author : Snowflake)
  | UnsubscribedNotice (author : Snowflake).

(** Their log lines. *)
Inductive CommandLog :=
  | SendingOnJoin (member : Snowflake)
  | MentionedInChannel (author channel : Snowflake)
  | AlreadyVerified (author : Snowflake) (content : string)
  | ProvidingInstructions (author : Snowflake) (content : string)
  | DeletingPosted (author : Snowflake)
  | CalledAccept (author : Snowflake)
  | RemovingUnverified (author : Snowflake)
  | WelcomeFailed (author : Snowflake)
  | DeletingAccept (author : Snowflake)
  | CalledSubscribe (author : Snowflake)
  | CalledUnsubscribe (author : Snowflake).

(** What a listener or command does, as seen from outside. *)
Inductive Effect :=
  | FxLog (level : LogLevel) (msg : CommandLog)
  | FxDirectMessage (member : Snowflake) (text : Text) (answer : http unit)
  | FxReply (channel : Snowflake) (text : Text) (delete_after : option Z)
      (answer : http unit)
  | FxDelete (message : Snowflake) (answer : http unit)
  | FxDeleteLater (message : Snowflake) (delay : Z)
  | FxAddRoles (member role : Snowflake) (answer : http unit)
  | FxRemoveRoles (member role : Snowflake) (answer : http unit)
  | FxModAlert (author channel : Snowflake) (content : string)
  | FxIgnoreDelete (message : Snowflake).

(** What Discord answers to them, given the effects so far, and the
    command [bot.get_context] finds in a message. *)
Record Discord := {
  answer_dm : list Effect → Snowflake → Text → http unit;
  answer_reply : list Effect → Snowflake → Text → http unit;
  answer_delete : list Effect → Snowflake → http unit;
  answer_add_roles : list Effect → Snowflake → Snowflake → http unit;
  answer_remove_roles : list Effect → Snowflake → Snowflake → http unit;
  get_context : list Effect → Message → option string
}.

(** Listeners and commands keep no state of their own: a computation maps
    the effects so far to a result and the effects after it. *)
Definition L (A : Type) : Type := list Effect → result A * list Effect.

#[global] Instance L_ret : MRet L := λ A a tr, (Ok a, tr).
#[global] Instance L_bind : MBind L := λ A B f m tr,
  match m tr with
  | (Ok a, tr') => f a tr'
  | (Raise e, tr') => (Raise e, tr')
  end.

Definition effect (e : Effect) : L unit := λ tr, (Ok (), tr ++ [e]).

Definition request {A} (answer : list Effect → http A) (fx : http A → Effect) : L A := λ tr,
  match answer tr with
  | Done a => (Ok a, tr ++ [fx (Done a)])
  | Failed status => (Raise (HTTPException status), tr ++ [fx (Failed status)])
  end.

(** discord.py raises [Forbidden] for the status 403 and [NotFound] for
    404; both are [HTTPException]s. *)
Definition Forbidden (status : Z) : bool := bool_decide (status = 403).
Definition NotFound (status : Z) : bool := bool_decide (status = 404).

(** [try: body / except <class>: handler] *)
Definition try_except (class : Z → bool) (body handler : L unit) : L unit := λ tr,
  match body tr with
  | (Raise (HTTPException status), tr') =>
    if class status then handler tr' else (Raise (HTTPException status), tr')
  | r => r
  end.

(** [with suppress(<class>): body] *)
Definition suppress (class : Z → bool) (body : L unit) : L unit :=
  try_except class body (mret ()).

(** [try: body / finally: final] *)
Definition finally {A} (body : L A) (final : L unit) : L A := λ tr,
  match body tr with
  | (r, tr') =>
    match final tr' with
    | (Ok _, tr'') => (r, tr'')
    | (Raise e, tr'') => (Raise e, tr'')
    end
  end.

(** [has_role = False; for role in roles: if role.id == wanted:
    has_role = True; break] *)
Fixpoint find_role (wanted : Snowflake) (roles : list Snowflake) (has_role : bool) : bool :=
  match roles with
  | [] => has_role
  | role :: rest =>
    if bool_decide (role = wanted) then true else find_role wanted rest has_role
  end.

Section Commands.
Variable constants : Constants.
Variable more : CommandConstants.
Variable discord : Discord.

Definition note (level : LogLevel) (msg : CommandLog) : L unit := effect (FxLog level msg).

Definition member_send (member : Member) (text : Text) : L unit :=
  request (λ tr, answer_dm discord tr (member_id member) text)
    (FxDirectMessage (member_id member) text).

Definition ctx_send (channel : Snowflake) (text : Text) (delete_after : option Z) : L unit :=
  request (λ tr, answer_reply discord tr channel text) (FxReply channel text delete_after).

Definition message_delete (message : Message) : L unit :=
  request (λ tr, answer_delete discord tr (message_id message))
    (FxDelete (message_id message)).

(** [message.delete(delay=d)]: the deletion is left to a task of its own,
    which ignores its failure; the call itself returns at once. *)
Definition message_delete_later (message : Message) (delay : Z) : L unit :=
  effect (FxDeleteLater (message_id message) delay).

Definition add_roles (member : Member) (role : Snowflake) : L unit :=
  request (λ tr, answer_add_roles discord tr (member_id member) role)
    (FxAddRoles (member_id member) role).

Definition remove_roles (member : Member) (role : Snowflake) : L unit :=
  request (λ tr, answer_remove_roles discord tr (member_id member) role)
    (FxRemoveRoles (member_id member) role).

(** Modelled from the spec: [ModLog.send_log_message] with a [channel_id]
    is the audit sink's report to that channel. *)
Definition send_mod_alert (message : Message) : L unit :=
  effect (FxModAlert (member_id (message_author message)) (message_channel message)
            (message_content message)).

(** [ModLog.ignore(Event.message_delete, id)], taken as a recorded effect. *)
Definition mod_log_ignore (message : Message) : L unit :=
  effect (FxIgnoreDelete (message_id message)).

Definition bot_get_context (message : Message) : L Context := λ tr,
  (Ok {| ctx_message := message; ctx_command := get_context discord tr message |}, tr).

(** *** [on_member_join] *)

Definition on_member_join (guild : Snowflake) (member : Member) : L unit :=
  if bool_decide (guild ≠ Guild_id more) then mret ()
  else
    note TRACE (SendingOnJoin (member_id member)) ;;
    suppress Forbidden (member_send member ON_JOIN_MESSAGE).

(** *** [on_message] *)

Definition on_message (message : Message) : L unit :=
  if bool_decide (message_channel message ≠ Channels_verification constants) then mret ()
  else if bool_decide (message_content message = REMINDER_MESSAGE_stripped more) then mret ()
  else if member_bot (message_author message) then
    message_delete_later message BOT_MESSAGE_DELETE_DELAY
  else
    (if bool_decide (message_mentions message ≠ [] ∨ message_role_mentions message ≠ [])
     then note DEBUG (MentionedInChannel (member_id (message_author message))
                        (message_channel message)) ;;
          send_mod_alert message
     else mret ()) ;;
    ctx ← bot_get_context message;
    if bool_decide (ctx_command ctx = Some "accept") then mret ()
    else if existsb (λ r, bool_decide (r = Roles_verified more))
              (member_roles (ctx_author ctx))
    then note INFO (AlreadyVerified (member_id (ctx_author ctx))
                      (message_content (ctx_message ctx)))
    else
      note DEBUG (ProvidingInstructions (member_id (ctx_author ctx))
                    (message_content (ctx_message ctx))) ;;
      ctx_send (ctx_channel ctx) (PleaseAccept (member_id (ctx_author ctx))) (Some 20) ;;
      note TRACE (DeletingPosted (member_id (ctx_author ctx))) ;;
      suppress NotFound (message_delete (ctx_message ctx)).

(** *** [accept_command], once the checks of its decorators have passed *)

Definition accept_command (ctx : Context) : L unit :=
  note DEBUG (CalledAccept (member_id (ctx_author ctx))) ;;
  add_roles (ctx_author ctx) (Roles_verified more) ;;
  (if bool_decide (Roles_unverified constants ∈ member_roles (ctx_author ctx))
   then note DEBUG (RemovingUnverified (member_id (ctx_author ctx))) ;;
        remove_roles (ctx_author ctx) (Roles_unverified constants)
   else mret ()) ;;
  finally
    (try_except Forbidden
       (member_send (ctx_author ctx) VERIFIED_MESSAGE)
       (note INFO (WelcomeFailed (member_id (ctx_author ctx)))))
    (note TRACE (DeletingAccept (member_id (ctx_author ctx))) ;;
     suppress NotFound
       (mod_log_ignore (ctx_message ctx) ;;
        message_delete (ctx_message ctx))).

(** *** [subscribe_command] and [unsubscribe_command], likewise *)

Definition subscribe_command (ctx : Context) : L unit :=
  let has_role :=
    find_role (Roles_announcements more) (member_roles (ctx_author ctx)) false in
  if has_role then
    ctx_send (ctx_channel ctx) (AlreadySubscribed (member_id (ctx_author ctx))) None
  else
    note DEBUG (CalledSubscribe (member_id (ctx_author ctx))) ;;
    add_roles (ctx_author ctx) (Roles_announcements more) ;;
    note TRACE (DeletingPosted (member_id (ctx_author ctx))) ;;
    ctx_send (ctx_channel ctx) (SubscribedNotice (member_id (ctx_author ctx))) None.

Definition unsubscribe_command (ctx : Context) : L unit :=
  let has_role :=
    find_role (Roles_announcements more) (member_roles (ctx_author ctx)) false in
  if negb has_role then
    ctx_send (ctx_channel ctx) (AlreadyUnsubscribed (member_id (ctx_author ctx))) None
  else
    note DEBUG (CalledUnsubscribe (member_id (ctx_author ctx))) ;;
    remove_roles (ctx_author ctx) (Roles_announcements more) ;;
    note TRACE (DeletingPosted (member_id (ctx_author ctx))) ;;
    ctx_send (ctx_channel ctx) (UnsubscribedNotice (member_id (ctx_author ctx))) None.
End Commands.

(** The effects a listener or command added. *)
Definition effects_of {A} (m : L A) (tr : list Effect) : list Effect :=
  drop (length tr) (m tr).2.

Definition direct_messages (fx : list Effect) : list (Snowflake * Text * http unit) :=
  omap (λ e, match e with FxDirectMessage m t a => Some (m, t, a) | _ => None end) fx.

Definition replies (fx : list Effect) : list (Snowflake * Text * http unit) :=
  omap (λ e, match e with FxReply c t _ a => Some (c, t, a) | _ => None end) fx.

Definition deletes (fx : list Effect) : list (Snowflake * http unit) :=
  omap (λ e, match e with FxDelete m a => Some (m, a) | _ => None end) fx.

Definition later_deletes (fx : list Effect) : list (Snowflake * Z) :=
  omap (λ e, match e with FxDeleteLater m d => Some (m, d) | _ => None end) fx.

Definition mod_alerts (fx : list Effect) : list (Snowflake * Snowflake * string) :=
  omap (λ e, match e with FxModAlert a c t => Some (a, c, t) | _ => None end) fx.

(** The role changes asked for: [true] for [add_roles], [false] for
    [remove_roles]. *)
Definition role_changes (fx : list Effect) : list (bool * Snowflake * Snowflake * http unit) :=
  omap (λ e, match e with
             | FxAddRoles m r a => Some (true, m, r, a)
             | FxRemoveRoles m r a => Some (false, m, r, a)
             | _ => None
             end) fx.

(** The alert a message with mentions raises. *)
Definition mention_alert (message : Message) : list Effect :=
  if bool_decide (message_mentions message ≠ [] ∨ message_role_mentions message ≠ [])
  then [FxLog DEBUG (MentionedInChannel (member_id (message_author message))
                       (message_channel message));
        FxModAlert (member_id (message_author message)) (message_channel message)
          (message_content message)]
  else [].

(** The instructions and what follows them. *)
Definition instructions (message : Message) (reply : http unit)
    (deleted : option (http unit)) : list Effect :=
  [FxLog DEBUG (ProvidingInstructions (member_id (message_author message))
                  (message_content message));
   FxReply (message_channel message) (PleaseAccept (member_id (message_author message)))
     (Some 20) reply]
  ++ match deleted with
     | Some answer =>
       [FxLog TRACE (DeletingPosted (member_id (message_author message)));
        FxDelete (message_id message) answer]
     | None => []
     end.

(** Sample values for the listeners and commands. *)
Definition sample_more : CommandConstants :=
  {| Guild_id := 9; Roles_verified := 4; Roles_announcements := 5;
     Channels_mod_alerts := 52; REMINDER_MESSAGE_stripped := "reminder" |}.

(** Discord answering every request but the direct messages, refused with
    [dm_status], and finding the command [command] in every message. *)
Definition sample_discord (dm_status : Z) (command : option string) : Discord :=
  {| answer_dm := λ _ _ _, Failed dm_status;
     answer_reply := λ _ _ _, Done ();
     answer_delete := λ _ _, Done ();
     answer_add_roles := λ _ _ _, Done ();
     answer_remove_roles := λ _ _ _, Done ();
     get_context := λ _ _, command |}.

Definition sample_message (channel : Snowflake) (content : string) (author : Member)
  : Message :=
  {| message_id := 800; message_channel := channel; message_content := content;
     message_author := author; message_mentions := []; message_role_mentions := [] |}.

(** ** The guild between two cycles *)

(** The members whose kick went through. *)
Definition kicked (evs : list Event) : gset Snowflake :=
  list_to_set
    (omap (λ e, match e with EvKick m (Done _) => Some m | _ => None end) evs).


(** [m'], in a later snapshot, is the member [m] of an earlier one: nothing
    has changed but the Unverified role, now held if [m] was in the
    warning batch [for_role]. *)
Definition carried_over (unverified : Snowflake) (for_role : gset Snowflake)
    (m m' : Member) : Prop :=
  member_id m' = member_id m
  ∧ member_bot m' = member_bot m
  ∧ joined_at m' = joined_at m
  ∧ role_set m' = (if decide (member_id m ∈ for_role)
                   then role_set m ∪ {[ unverified ]}
                   else role_set m).

#[global] Instance carried_over_dec unverified for_role m m' :
  Decision (carried_over unverified for_role m m').
Proof. unfold carried_over. apply _. Defined.




(** * Properties *)

(** ** The classifier *)

Lemma batch_of_cons (p : Policy) (now : datetime) (a : Action)
    (m : Member) (ms : list Member) :
  batch_of p now a (m :: ms) =
  (if decide (classify p now m = a) then {[ member_id m ]} else ∅)
  ∪ batch_of p now a ms.
Proof.
  unfold batch_of. rewrite filter_cons.
  destruct (decide (classify p now m = a)); simpl; set_solver.
Qed.

Lemma elem_of_batch_of (p : Policy) (now : datetime) (a : Action)
    (ms : list Member) (id : Snowflake) :
  id ∈ batch_of p now a ms ↔
  ∃ m, m ∈ ms ∧ member_id m = id ∧ classify p now m = a.
Proof.
  unfold batch_of. rewrite elem_of_list_to_set, list_elem_of_fmap.
  split.
  - intros (m & -> & Hm). apply list_elem_of_filter in Hm as [? ?]. eauto.
  - intros (m & ? & <- & ?). exists m. split; [done|].
    by apply list_elem_of_filter.
Qed.

Section ClassifierFacts.
Variables (unverified everyone : Snowflake) (now : datetime).
Let p := cog_policy unverified everyone.

Lemma unverified_roles_subset (m : Member) :
  list_to_set (member_roles m) ∖ unverified_roles unverified everyone = ∅
  ↔ is_unverified p m.
Proof.
  unfold is_unverified, role_set, unverified_roles; subst p; simpl.
  rewrite <- leibniz_equiv_iff. set_unfold.
  split.
  - intros H r Hr. destruct (decide (r = unverified)) as [->|]; [by right|].
    destruct (decide (r = everyone)) as [->|]; [by left|].
    exfalso. apply (H r). split; [done|]. intros [?|?]; done.
  - intros H r [Hr Hn]. apply Hn. destruct (H r Hr); [by right|by left].
Qed.

(** One iteration of the loop adds the member to the batch [classify]
    names, and to no other. *)
Lemma check_member_classify (for_role for_kick : gset Snowflake) (m : Member) :
  check_member unverified everyone now (for_role, for_kick) m =
  match classify p now m with
  | NoAction => (for_role, for_kick)
  | NeedsWarning => (for_role ∪ {[ member_id m ]}, for_kick)
  | NeedsRemoval => (for_role, for_kick ∪ {[ member_id m ]})
  end.
Proof.
  unfold check_member, classify.
  destruct (member_bot m); [done|].
  destruct (joined_at m) as [joined|]; [|done].
  case_bool_decide as Hroles.
  - rewrite decide_False; [done|].
    intros Hu. apply Hroles. by apply unverified_roles_subset.
  - rewrite decide_True by (by apply unverified_roles_subset).
    subst p; simpl.
    destruct (Z.gtb_spec (now - joined) (timedelta_days KICKED_AFTER));
      destruct (Z.gtb_spec (now - joined) (timedelta_days UNVERIFIED_AFTER));
      repeat case_decide; repeat case_bool_decide; simpl;
      try done; try lia; try tauto; exfalso;
      repeat match goal with
             | H : ¬ (_ ∧ _) |- _ => apply H; split; [lia|done]
             | H : _ ∧ _ |- _ => destruct H
             end; lia.
Qed.

Lemma check_members_fold (ms : list Member) (for_role for_kick : gset Snowflake) :
  foldl (check_member unverified everyone now) (for_role, for_kick) ms =
  (for_role ∪ batch_of p now NeedsWarning ms,
   for_kick ∪ batch_of p now NeedsRemoval ms).
Proof.
  revert for_role for_kick.
  induction ms as [|m ms IH]; intros for_role for_kick; cbn [foldl].
  - unfold batch_of; simpl. f_equal; set_solver.
  - rewrite check_member_classify, !batch_of_cons.
    destruct (classify p now m) eqn:Hc; rewrite IH;
      repeat (case_decide; try discriminate); f_equal; set_solver.
Qed.

Lemma check_members_batches (ms : list Member) :
  check_members_loop unverified everyone now ms =
  (batch_of p now NeedsWarning ms, batch_of p now NeedsRemoval ms).
Proof.
  unfold check_members_loop. rewrite check_members_fold.
  f_equal; set_solver.
Qed.

Lemma classify_removal (m : Member) :
  classify p now m = NeedsRemoval ↔
  member_bot m = false ∧
  ∃ joinTime, joined_at m = Some joinTime ∧ is_unverified p m
              ∧ now - joinTime > timedelta_days KICKED_AFTER.
Proof.
  unfold classify.
  destruct (member_bot m); [naive_solver|].
  destruct (joined_at m) as [j|]; [|naive_solver].
  repeat case_decide; simpl in *; naive_solver.
Qed.

Lemma classify_warning (m : Member) :
  classify p now m = NeedsWarning ↔
  member_bot m = false ∧
  ∃ joinTime, joined_at m = Some joinTime ∧ is_unverified p m
              ∧ now - joinTime <= timedelta_days KICKED_AFTER
              ∧ now - joinTime > timedelta_days UNVERIFIED_AFTER
              ∧ unverified ∉ member_roles m.
Proof.
  unfold classify.
  destruct (member_bot m); [naive_solver|].
  destruct (joined_at m) as [j|]; [|naive_solver].
  subst p; simpl.
  repeat case_decide; split; try done; try naive_solver.
  all: try (intros (_ & j' & [= <-] & ? & ? & ? & ?); exfalso; tauto || lia).
  all: try (intros _; split; [done|]; exists j; repeat split; tauto || lia).
Qed.
End ClassifierFacts.

(** C1. The two sets built by the loop of [_check_members] are the batches
    of the reference classifier under the cog's policy (3 and 30 days,
    the Unverified role pending, the default role baseline). A member id
    is in a batch exactly when a member of the snapshot with that id is
    classified so; a member is classified for removal iff it is not a bot,
    its join time is known, it holds no role beyond the default and
    Unverified roles and [now - joinTime > 30 days]; for a warning iff,
    likewise eligible, [now - joinTime <= 30 days], [now - joinTime > 3 days]
    and it does not hold the Unverified role. The comparisons are strict:
    a member who joined exactly 3 days ago gets no action. *)
Theorem check_members_refines_classify
    (unverified everyone : Snowflake) (now : datetime) (ms : list Member) :
  let p := cog_policy unverified everyone in
  check_members_loop unverified everyone now ms
  = (batch_of p now NeedsWarning ms, batch_of p now NeedsRemoval ms)
  ∧ (∀ a id, id ∈ batch_of p now a ms ↔
             ∃ m, m ∈ ms ∧ member_id m = id ∧ classify p now m = a)
  ∧ (∀ m, classify p now m = NeedsRemoval ↔
          member_bot m = false ∧
          ∃ joinTime, joined_at m = Some joinTime
                      ∧ role_set m ⊆ {[ everyone ]} ∪ {[ unverified ]}
                      ∧ now - joinTime > 30 * 86400000000)
  ∧ (∀ m, classify p now m = NeedsWarning ↔
          member_bot m = false ∧
          ∃ joinTime, joined_at m = Some joinTime
                      ∧ role_set m ⊆ {[ everyone ]} ∪ {[ unverified ]}
                      ∧ now - joinTime <= 30 * 86400000000
                      ∧ now - joinTime > 3 * 86400000000
                      ∧ unverified ∉ member_roles m)
  ∧ (∀ id bot roles,
       classify p now {| member_id := id; member_bot := bot;
                         joined_at := Some (now - 3 * 86400000000);
                         member_roles := roles |} = NoAction).
Proof.
  intros p. split; [apply check_members_batches|].
  split; [intros a id; apply elem_of_batch_of|].
  split; [intros m; apply classify_removal|].
  split; [intros m; apply classify_warning|].
  intros id bot roles. unfold classify; simpl.
  destruct bot; [done|]. repeat case_decide; try done; simpl in *.
  - exfalso. unfold timedelta_days, KICKED_AFTER in *. lia.
  - exfalso. unfold timedelta_days, UNVERIFIED_AFTER in *. lia.
Qed.

(** Distinct members of a snapshot have distinct ids, so a batch holds the
    id of one member only. *)
Lemma batch_of_inj (p : Policy) (now : datetime) (ms : list Member)
    (a b : Action) (id : Snowflake) :
  NoDup (member_id <$> ms) →
  id ∈ batch_of p now a ms → id ∈ batch_of p now b ms → a = b.
Proof.
  intros Hnd Ha Hb.
  apply elem_of_batch_of in Ha as (m1 & Hm1 & Hid1 & Hc1).
  apply elem_of_batch_of in Hb as (m2 & Hm2 & Hid2 & Hc2).
  assert (m1 = m2) as ->; [|congruence].
  clear Hc1 Hc2. subst id.
  induction ms as [|m ms IH]; [by apply elem_of_nil in Hm1|].
  rewrite fmap_cons in Hnd. apply NoDup_cons in Hnd as [Hnotin Hnd].
  apply elem_of_cons in Hm1 as [->|Hm1];
    apply elem_of_cons in Hm2 as [->|Hm2]; try done.
  - exfalso. apply Hnotin. rewrite <- Hid2. by apply list_elem_of_fmap_2.
  - exfalso. apply Hnotin. rewrite Hid2. by apply list_elem_of_fmap_2.
  - by apply IH.
Qed.

(** C2. On a snapshot (members with pairwise distinct ids), the set of
    members to be given the role and the set of members to be kicked that
    [_check_members] builds share no id. *)
Theorem check_members_disjoint
    (unverified everyone : Snowflake) (now : datetime) (ms : list Member) :
  NoDup (member_id <$> ms) →
  fst (check_members_loop unverified everyone now ms)
  ∩ snd (check_members_loop unverified everyone now ms) = ∅.
Proof.
  intros Hnd. rewrite check_members_batches; simpl.
  apply leibniz_equiv. apply elem_of_equiv_empty. intros id Hid.
  apply elem_of_intersection in Hid as [Hw Hr].
  by pose proof (batch_of_inj _ _ _ _ _ _ Hnd Hw Hr).
Qed.

Lemma check_members_disjoint_witness :
  let ms := [ {| member_id := 10; member_bot := false;
                 joined_at := Some 0; member_roles := [2] |};
              {| member_id := 11; member_bot := false;
                 joined_at := Some (timedelta_days 96); member_roles := [2] |} ] in
  NoDup (member_id <$> ms)
  ∧ fst (check_members_loop 1 2 (timedelta_days 100) ms)
    ∩ snd (check_members_loop 1 2 (timedelta_days 100) ms) = ∅.
Proof.
  intros ms.
  assert (NoDup (member_id <$> ms)) as Hnd.
  { apply (bool_decide_unpack _). vm_compute. exact I. }
  split; [exact Hnd|].
  exact (check_members_disjoint 1 2 (timedelta_days 100) ms Hnd).
Defined.

(** ** A snapshot carried over *)



Section CarriedOver.
Variables (unverified everyone : Snowflake) (now : datetime).
Let p := cog_policy unverified everyone.


End CarriedOver.

(** ** Running computations *)

Lemma events_of_app {A} (m : M A) (s : State) (evs : list Event) :
  trace (m s).2 = trace s ++ evs → events_of m s = evs.
Proof. intros H. unfold events_of. rewrite H. by rewrite drop_app_length. Qed.

(** ** The executor *)

Lemma successes_done {A} (a : A) (answers : list (http A)) :
  successes (Done a :: answers) = S (successes answers).
Proof. unfold successes. by rewrite filter_cons_True. Qed.

Lemma successes_failed {A} (status : Z) (answers : list (http A)) :
  successes (Failed status :: answers) = successes answers.
Proof. unfold successes. by rewrite filter_cons_False by (simpl; tauto). Qed.

Lemma failure_codes_done {A} (a : A) (answers : list (http A)) :
  failure_codes (Done a :: answers) = failure_codes answers.
Proof. done. Qed.

Lemma failure_codes_failed {A} (status : Z) (answers : list (http A)) :
  failure_codes (Failed status :: answers) = {[ status ]} ∪ failure_codes answers.
Proof. done. Qed.

Section BatchLoop.
Context {A : Type}.
Variable answer : list Event → Snowflake → http A.
Variable ev : Snowflake → http A → Event.

Lemma batch_loop_run (batch : list Snowflake) (n : nat) (bad : gset Z) (s : State) :
  let answers := batch_answers answer ev (trace s) batch in
  for_fold batch (n, bad) (attempt answer ev) s
  = (Ok ((n + successes answers)%nat, bad ∪ failure_codes answers),
     {| trace := trace s ++ zip_with ev batch answers;
        reminder_cache := reminder_cache s |}).
Proof.
  revert n bad s. induction batch as [|member rest IH]; intros n bad s;
    cbn [batch_answers for_fold zip_with].
  - unfold mret, M_ret, successes, failure_codes; simpl.
    rewrite Nat.add_0_r, app_nil_r, right_id_L by apply _. by destruct s.
  - unfold mbind, M_bind, attempt at 1, try_http, call.
    destruct (answer (trace s) member) as [a|status] eqn:Ha; cbn [mret M_ret].
    + rewrite IH. cbn [push trace reminder_cache].
      rewrite successes_done, failure_codes_done, <- app_assoc.
      do 3 f_equal. lia.
    + rewrite IH. cbn [push trace reminder_cache].
      rewrite successes_failed, failure_codes_failed, <- app_assoc.
      do 3 f_equal. set_solver.
Qed.

Lemma batch_answers_length (tr : list Event) (batch : list Snowflake) :
  length (batch_answers answer ev tr batch) = length batch.
Proof.
  revert tr. induction batch as [|m rest IH]; intros tr; simpl; [done|].
  by rewrite IH.
Qed.
End BatchLoop.

Lemma successes_failed_length {A} (answers : list (http A)) :
  (successes answers + length (failed_statuses answers))%nat = length answers.
Proof.
  induction answers as [|[a|st] answers IH]; [done| |].
  - rewrite successes_done. change (failed_statuses (Done a :: answers))
      with (failed_statuses answers). simpl. by rewrite IH.
  - rewrite successes_failed. change (failed_statuses (Failed st :: answers))
      with (st :: failed_statuses answers). simpl.
    by rewrite Nat.add_succ_r, IH.
Qed.

Lemma kick_members_loop (env : Env) (batch : gset Snowflake) :
  _kick_members env batch =
  (log INFO (KickingMembers (size batch)) ;;
   '(n_kicked, bad_statuses) ←
     for_fold (elements batch) (0%nat, ∅) (attempt (env_kick env) EvKick);
   (if bool_decide (bad_statuses ≠ ∅)
    then log INFO (FailedToKick (size batch - n_kicked) bad_statuses)
    else mret ()) ;;
   mret n_kicked).
Proof. reflexivity. Qed.

Lemma give_role_loop (env : Env) (batch : gset Snowflake) (role : Snowflake) :
  _give_role env batch role =
  (log INFO (AssigningRole role (size batch)) ;;
   '(n_success, bad_statuses) ←
     for_fold (elements batch) (0%nat, ∅)
       (attempt (λ tr m, env_add_roles env tr m role) (λ m, EvAddRoles m role));
   (if bool_decide (bad_statuses ≠ ∅)
    then log INFO (FailedToAssign (size batch - n_success) bad_statuses)
    else mret ()) ;;
   mret n_success).
Proof. reflexivity. Qed.

(** What [_kick_members] does: it never raises, and appends its log line,
    one [kick] per member of the batch, and the line of failures if any. *)
Lemma kick_members_run (env : Env) (batch : gset Snowflake) (s : State) :
  let answers :=
    batch_answers (env_kick env) EvKick
      (trace s ++ [EvLog INFO (KickingMembers (size batch))]) (elements batch) in
  _kick_members env batch s =
  (Ok (successes answers),
   {| trace := trace s
               ++ EvLog INFO (KickingMembers (size batch))
                  :: zip_with EvKick (elements batch) answers
               ++ (if bool_decide (failure_codes answers ≠ ∅)
                   then [EvLog INFO (FailedToKick (size batch - successes answers)
                                       (failure_codes answers))]
                   else []);
      reminder_cache := reminder_cache s |}).
Proof.
  intros answers. rewrite kick_members_loop.
  unfold mbind, M_bind, log, emit at 1.
  rewrite batch_loop_run. cbn [push trace reminder_cache]. fold answers.
  rewrite (left_id_L ∅ (∪)). simpl.
  case_bool_decide; unfold emit, push, mret, M_ret; simpl;
    repeat rewrite <- app_assoc; simpl; [done|].
  by rewrite app_nil_r.
Qed.

Lemma give_role_run (env : Env) (batch : gset Snowflake) (role : Snowflake) (s : State) :
  let answers :=
    batch_answers (λ tr m, env_add_roles env tr m role) (λ m, EvAddRoles m role)
      (trace s ++ [EvLog INFO (AssigningRole role (size batch))]) (elements batch) in
  _give_role env batch role s =
  (Ok (successes answers),
   {| trace := trace s
               ++ EvLog INFO (AssigningRole role (size batch))
                  :: zip_with (λ m, EvAddRoles m role) (elements batch) answers
               ++ (if bool_decide (failure_codes answers ≠ ∅)
                   then [EvLog INFO (FailedToAssign (size batch - successes answers)
                                       (failure_codes answers))]
                   else []);
      reminder_cache := reminder_cache s |}).
Proof.
  intros answers. rewrite give_role_loop.
  unfold mbind, M_bind, log, emit at 1.
  rewrite batch_loop_run. cbn [push trace reminder_cache]. fold answers.
  rewrite (left_id_L ∅ (∪)). simpl.
  case_bool_decide; unfold emit, push, mret, M_ret; simpl;
    repeat rewrite <- app_assoc; simpl; [done|].
  by rewrite app_nil_r.
Qed.

(** C5. [_kick_members] and [_give_role] never raise: whatever the answers
    of Discord, every member of the batch is attempted once, in turn, and
    a failed request does not stop the loop. The value returned is the
    number of requests that succeeded; the set of the distinct statuses of
    the failed ones is what the closing log line carries (there is no such
    line when nothing failed). In a batch of 5 where 2 requests fail with
    the same status, 3 is returned and the set of statuses has size 1. *)
Theorem executor_partial_failures
    (env : Env) (role : Snowflake) (batch : gset Snowflake) (s : State) :
  let kicked :=
    batch_answers (env_kick env) EvKick
      (trace s ++ [EvLog INFO (KickingMembers (size batch))]) (elements batch) in
  let granted :=
    batch_answers (λ tr m, env_add_roles env tr m role) (λ m, EvAddRoles m role)
      (trace s ++ [EvLog INFO (AssigningRole role (size batch))]) (elements batch) in
  (fst (_kick_members env batch s) = Ok (successes kicked)
   ∧ events_of (_kick_members env batch) s =
       EvLog INFO (KickingMembers (size batch))
       :: zip_with EvKick (elements batch) kicked
       ++ (if bool_decide (failure_codes kicked ≠ ∅)
           then [EvLog INFO (FailedToKick (size batch - successes kicked)
                               (failure_codes kicked))]
           else [])
   ∧ length kicked = size batch)
  ∧ (fst (_give_role env batch role s) = Ok (successes granted)
     ∧ events_of (_give_role env batch role) s =
         EvLog INFO (AssigningRole role (size batch))
         :: zip_with (λ m, EvAddRoles m role) (elements batch) granted
         ++ (if bool_decide (failure_codes granted ≠ ∅)
             then [EvLog INFO (FailedToAssign (size batch - successes granted)
                                 (failure_codes granted))]
             else [])
     ∧ length granted = size batch)
  ∧ (∀ code, size batch = 5%nat → failed_statuses kicked = [code; code] →
       successes kicked = 3%nat ∧ size (failure_codes kicked) = 1%nat)
  ∧ (∀ code, size batch = 5%nat → failed_statuses granted = [code; code] →
       successes granted = 3%nat ∧ size (failure_codes granted) = 1%nat).
Proof.
  intros kicked granted.
  assert (∀ (answers : list (http unit)) code,
            length answers = 5%nat → failed_statuses answers = [code; code] →
            successes answers = 3%nat ∧ size (failure_codes answers) = 1%nat) as Hfive.
  { intros answers code Hlen Hfailed.
    pose proof (successes_failed_length answers) as Hsum.
    rewrite Hfailed, Hlen in Hsum. simpl in Hsum.
    split; [lia|]. unfold failure_codes. rewrite Hfailed.
    assert ((list_to_set [code; code] : gset Z) = {[ code ]}) as -> by set_solver.
    apply size_singleton. }
  assert (length kicked = size batch) as Hk by apply batch_answers_length.
  assert (length granted = size batch) as Hg by apply batch_answers_length.
  repeat split; try done.
  - by rewrite kick_members_run.
  - apply events_of_app. by rewrite kick_members_run.
  - by rewrite give_role_run.
  - apply events_of_app. by rewrite give_role_run.
  - apply (Hfive kicked code); congruence.
  - apply (Hfive kicked code); congruence.
  - apply (Hfive granted code); congruence.
  - apply (Hfive granted code); congruence.
Qed.

Lemma executor_partial_failures_witness :
  let env := sample_env [] [2; 4] in
  let batch : gset Snowflake := {[ 1; 2; 3; 4; 5 ]} in
  size batch = 5%nat
  ∧ fst (_kick_members env batch initial_state) = Ok 3%nat
  ∧ fst (_give_role env batch 1 initial_state) = Ok 3%nat
  ∧ successes (batch_answers (env_kick env) EvKick
                 [EvLog INFO (KickingMembers (size batch))] (elements batch)) = 3%nat
  ∧ size (failure_codes (batch_answers (env_kick env) EvKick
                 [EvLog INFO (KickingMembers (size batch))] (elements batch))) = 1%nat.
Proof.
  intros env batch.
  split; [vm_compute; reflexivity|].
  split; [vm_compute; reflexivity|].
  split; [vm_compute; reflexivity|].
  destruct (executor_partial_failures env 1 batch initial_state)
    as (_ & _ & Hkick & _).
  apply (Hkick 403); vm_compute; reflexivity.
Defined.

(** ** The reminder *)

Ltac unfold_ops :=
  unfold log, wait_until_guild_available, get_guild, utcnow, channel_send,
    add_reaction, clear_reactions, message_edit, member_kick, member_add_roles,
    delete_message, wait_for, asyncio_sleep, send_log_message, cache_get,
    cache_set, try_http, try_timeout, try_finally, call, raise, emit,
    mbind, M_bind, mret, M_ret, push in *.

Ltac tidy :=
  repeat (cbn beta iota zeta delta [trace reminder_cache fst snd app];
          rewrite <- ?app_assoc).

(** Case analysis on the answer of the next call to the oracle [f]. *)
Ltac case_answer f pat :=
  match goal with
  | |- context [match f ?a ?b ?c with _ => _ end] => destruct (f a b c) as pat eqn:?
  | |- context [match f ?a ?b with _ => _ end] => destruct (f a b) as pat eqn:?
  end.

Lemma cache_replay_app (c : gmap string Snowflake) (l k : list Event) :
  cache_replay c (l ++ k) = cache_replay (cache_replay c l) k.
Proof. apply foldl_app. Qed.

Lemma cache_replay_unwritten (c : gmap string Snowflake) (l : list Event) :
  Forall (λ e, is_cache_set e = false) l → cache_replay c l = c.
Proof.
  induction 1 as [|e l He _ IH]; [done|].
  destruct e; try discriminate; exact IH.
Qed.

(** What one iteration of [ping_unverified] does. *)
Lemma ping_unverified_run (constants : Constants) (env : Env) (s : State) :
  let verification := Channels_verification constants in
  let cleanup :=
    match reminder_cache s !! "last_reminder" with
    | None => []
    | Some last_reminder =>
      [EvLog TRACE (FoundReminder last_reminder);
       EvDeleteMessage verification last_reminder
         (env_delete_message env
            (trace s ++ [EvGuildAvailable; EvLog TRACE (FoundReminder last_reminder)])
            verification last_reminder)]
    end in
  let before_send := EvGuildAvailable :: cleanup ++ [EvLog TRACE SendingReminder] in
  ping_unverified constants env s =
  match env_send env (trace s ++ before_send) verification REMINDER_MESSAGE with
  | Done new_reminder =>
    (Ok (),
     {| trace := trace s ++ before_send
                 ++ [EvSend verification REMINDER_MESSAGE (Done new_reminder);
                     EvCacheSet "last_reminder" new_reminder];
        reminder_cache := <["last_reminder" := new_reminder]> (reminder_cache s) |})
  | Failed status =>
    (Raise (HTTPException status),
     {| trace := trace s ++ before_send
                 ++ [EvSend verification REMINDER_MESSAGE (Failed status)];
        reminder_cache := reminder_cache s |})
  end.
Proof.
  intros verification cleanup before_send. subst before_send cleanup verification.
  unfold ping_unverified. unfold_ops. simpl.
  destruct (reminder_cache s !! "last_reminder") as [last|]; simpl.
  - rewrite <- !app_assoc; simpl.
    destruct (env_delete_message env _ _ _) as [[]|status]; simpl;
      rewrite <- !app_assoc; simpl;
      destruct (env_send env _ _ _) as [new|status']; simpl;
      rewrite <- ?app_assoc; simpl; reflexivity.
  - rewrite <- !app_assoc; simpl.
    destruct (env_send env _ _ _) as [new|status']; simpl;
      rewrite <- ?app_assoc; simpl; reflexivity.
Qed.

(** C6. One iteration of [ping_unverified], in order: if an id is stored,
    the old notice is deleted, and whatever Discord answers to that (a
    failure included) the iteration goes on; the new notice is sent; if the
    send succeeds, and only then, the id of the new notice is stored. If
    the send fails the iteration raises and the cache is what it was. At
    no point before the send has succeeded has the cache been written. *)
Theorem reminder_stored_after_send (constants : Constants) (env : Env) (s : State) :
  let verification := Channels_verification constants in
  let cleanup :=
    match reminder_cache s !! "last_reminder" with
    | None => []
    | Some last_reminder =>
      [EvLog TRACE (FoundReminder last_reminder);
       EvDeleteMessage verification last_reminder
         (env_delete_message env
            (trace s ++ [EvGuildAvailable; EvLog TRACE (FoundReminder last_reminder)])
            verification last_reminder)]
    end in
  let before_send := EvGuildAvailable :: cleanup ++ [EvLog TRACE SendingReminder] in
  let sent := env_send env (trace s ++ before_send) verification REMINDER_MESSAGE in
  let run := ping_unverified constants env s in
  let evs := events_of (ping_unverified constants env) s in
  match sent with
  | Done new_reminder =>
    run.1 = Ok ()
    ∧ evs = before_send ++ [EvSend verification REMINDER_MESSAGE sent;
                            EvCacheSet "last_reminder" new_reminder]
    ∧ reminder_cache run.2 = <["last_reminder" := new_reminder]> (reminder_cache s)
  | Failed status =>
    run.1 = Raise (HTTPException status)
    ∧ evs = before_send ++ [EvSend verification REMINDER_MESSAGE sent]
    ∧ reminder_cache run.2 = reminder_cache s
  end
  ∧ reminder_cache run.2 = cache_replay (reminder_cache s) evs
  ∧ (∀ pre, pre `prefix_of` evs →
       (∀ new_reminder,
          EvSend verification REMINDER_MESSAGE (Done new_reminder) ∉ pre) →
       cache_replay (reminder_cache s) pre = reminder_cache s).
Proof.
  intros verification cleanup before_send sent run evs.
  pose proof (ping_unverified_run constants env s) as Hrun.
  cbv zeta in Hrun. fold verification cleanup before_send sent run in Hrun.
  assert (cache_replay (reminder_cache s) before_send = reminder_cache s
          ∧ ∀ pre, pre `prefix_of` before_send →
                   cache_replay (reminder_cache s) pre = reminder_cache s)
    as [Hbefore Hpre].
  { assert (Forall (λ e, is_cache_set e = false) before_send) as Hall.
    { subst before_send cleanup.
      destruct (reminder_cache s !! "last_reminder"); repeat constructor. }
    split; [by apply cache_replay_unwritten|].
    intros pre [k Hk]. rewrite Hk in Hall. apply Forall_app in Hall as [Hall _].
    by apply cache_replay_unwritten. }
  assert (∀ pre k e, pre ++ k = before_send ++ [e] →
            pre `prefix_of` before_send ∨ pre = before_send ++ [e]) as Hsnoc.
  { intros pre k e Hk. destruct k as [|x k _] using rev_ind.
    - right. by rewrite app_nil_r in Hk.
    - left. rewrite app_assoc in Hk. apply app_inj_tail in Hk as [<- _].
      by exists k. }
  destruct sent as [new|status] eqn:Hsent.
  - assert (evs = before_send ++ [EvSend verification REMINDER_MESSAGE (Done new);
                                  EvCacheSet "last_reminder" new]) as Hevs.
    { apply events_of_app. fold run. by rewrite Hrun. }
    split; [by rewrite Hrun|].
    split; [by rewrite Hevs, cache_replay_app, Hbefore, Hrun|].
    intros pre [k Hk] Hnot. rewrite Hevs in Hk.
    change [EvSend verification REMINDER_MESSAGE (Done new);
            EvCacheSet "last_reminder" new]
      with ([EvSend verification REMINDER_MESSAGE (Done new)]
            ++ [EvCacheSet "last_reminder" new]) in Hk.
    rewrite app_assoc in Hk. symmetry in Hk.
    destruct k as [|x k _] using rev_ind.
    + exfalso. rewrite app_nil_r in Hk. subst pre.
      apply (Hnot new). set_solver.
    + rewrite app_assoc in Hk. apply app_inj_tail in Hk as [Hk _].
      destruct (Hsnoc pre k _ Hk) as [?| ->]; [by apply Hpre|].
      exfalso. apply (Hnot new). set_solver.
  - assert (evs = before_send ++ [EvSend verification REMINDER_MESSAGE (Failed status)])
      as Hevs.
    { apply events_of_app. fold run. by rewrite Hrun. }
    split; [by rewrite Hrun|].
    split; [by rewrite Hevs, cache_replay_app, Hbefore, Hrun|].
    intros pre [k Hk] Hnot. rewrite Hevs in Hk. symmetry in Hk.
    destruct (Hsnoc pre k _ Hk) as [?| ->]; [by apply Hpre|].
    by rewrite cache_replay_app, Hbefore.
Qed.

Lemma reminder_stored_after_send_witness :
  let env := with_delete_failure 404 (sample_env [] []) in
  let run := ping_unverified sample_constants env (reminded 600) in
  let down := with_send_failure 503 (sample_env [] []) in
  let failed := ping_unverified sample_constants down (reminded 600) in
  (run.1 = Ok ()
   ∧ events_of (ping_unverified sample_constants env) (reminded 600)
     = [EvGuildAvailable; EvLog TRACE (FoundReminder 600);
        EvDeleteMessage 51 600 (Failed 404); EvLog TRACE SendingReminder;
        EvSend 51 REMINDER_MESSAGE (Done 700); EvCacheSet "last_reminder" 700]
   ∧ reminder_cache run.2 = <["last_reminder" := 700]> (reminder_cache (reminded 600)))
  ∧ (failed.1 = Raise (HTTPException 503)
     ∧ events_of (ping_unverified sample_constants down) (reminded 600)
       = [EvGuildAvailable; EvLog TRACE (FoundReminder 600);
          EvDeleteMessage 51 600 (Done ()); EvLog TRACE SendingReminder;
          EvSend 51 REMINDER_MESSAGE (Failed 503)]
     ∧ reminder_cache failed.2 = reminder_cache (reminded 600)).
Proof.
  intros env run down failed.
  pose proof (reminder_stored_after_send sample_constants env (reminded 600)) as H.
  pose proof (reminder_stored_after_send sample_constants down (reminded 600)) as H'.
  cbv zeta in H, H'. simpl in H, H'.
  destruct H as [H _]. destruct H' as [H' _]. split; [exact H|exact H'].
Defined.

(** ** The delay before the first reminder *)

Lemma total_seconds_neg (td : timedelta) :
  (total_seconds td < 0)%Q ↔ td < 0.
Proof.
  unfold total_seconds, Qdiv, Qmult, Qinv, inject_Z, Qlt; simpl.
  split; intros; lia.
Qed.

Lemma py_max0_total_seconds (td : timedelta) :
  (py_max0 (total_seconds td) == total_seconds (Z.max td 0))%Q.
Proof.
  unfold py_max0. destruct (Qlt_le_dec (total_seconds td) 0) as [Hlt|Hle].
  - pose proof (proj1 (total_seconds_neg td) Hlt).
    rewrite Z.max_r by lia. reflexivity.
  - assert (¬ td < 0) as Hge.
    { intros Hlt. apply (proj2 (total_seconds_neg td)) in Hlt.
      by apply Qlt_not_le in Hlt. }
    rewrite Z.max_l by lia. reflexivity.
Qed.

Lemma before_first_ping_run (env : Env) (s : State) :
  _before_first_ping env s =
  match reminder_cache s !! "last_reminder" with
  | None => (Ok (), push s (EvLog TRACE ReminderNotCached))
  | Some last_reminder =>
    let time_since := env_utcnow env (trace s) - snowflake_time last_reminder in
    let to_sleep := timedelta_hours REMINDER_FREQUENCY - time_since in
    (Ok (),
     {| trace := trace s ++ [EvLog TRACE (TimeSinceReminder time_since);
                             EvLog TRACE (TimeToSleep to_sleep);
                             EvSleep (py_max0 (total_seconds to_sleep))];
        reminder_cache := reminder_cache s |})
  end.
Proof.
  unfold _before_first_ping. unfold_ops. simpl.
  destruct (reminder_cache s !! "last_reminder") as [last|]; simpl; [|done].
  by rewrite <- !app_assoc.
Qed.

(** C7. [_before_first_ping] never fails and leaves the cache alone. With
    no id stored it returns without sleeping. With an id stored it sleeps
    once, for [max(frequency - (now - snowflake_time(id)), 0)], the
    frequency being 28 hours: the time asleep is [computeInitialDelay] in
    every case. A notice created 27 hours ago gives 3600 seconds, one at
    least 28 hours old gives none. *)
Theorem first_ping_delay (env : Env) (s : State) :
  let last := reminder_cache s !! "last_reminder" in
  let now := env_utcnow env (trace s) in
  let frequency := timedelta_hours REMINDER_FREQUENCY in
  let run := _before_first_ping env s in
  let evs := events_of (_before_first_ping env) s in
  run.1 = Ok ()
  ∧ reminder_cache run.2 = reminder_cache s
  ∧ match last with
    | None => sleeps evs = []
    | Some id =>
      sleeps evs = [py_max0 (total_seconds (frequency - (now - snowflake_time id)))]
    end
  ∧ (slept evs == total_seconds (computeInitialDelay last frequency now))%Q
  ∧ (∀ id, last = Some id →
           now - snowflake_time id = frequency - timedelta_hours 1 →
           (slept evs == 3600)%Q)
  ∧ (∀ id, last = Some id →
           now - snowflake_time id >= frequency →
           (slept evs == 0)%Q).
Proof.
  intros last now frequency run evs.
  pose proof (before_first_ping_run env s) as Hrun. fold last run in Hrun.
  assert (match last with
          | None => sleeps evs = []
          | Some id =>
            sleeps evs = [py_max0 (total_seconds (frequency - (now - snowflake_time id)))]
          end) as Hsleeps.
  { subst evs. destruct last as [id|].
    - erewrite events_of_app; [|fold run; rewrite Hrun; reflexivity]. done.
    - erewrite events_of_app; [|fold run; rewrite Hrun; reflexivity]. done. }
  assert (slept evs == total_seconds (computeInitialDelay last frequency now))%Q
    as Hslept.
  { unfold slept. destruct last as [id|]; rewrite Hsleeps; simpl.
    - rewrite Qplus_0_r. apply py_max0_total_seconds.
    - reflexivity. }
  split; [rewrite Hrun; by destruct last|].
  split; [rewrite Hrun; by destruct last|].
  split; [done|]. split; [done|]. split.
  - intros id Hid Hage. rewrite Hslept, Hid. simpl. rewrite Hage.
    replace (frequency - (frequency - timedelta_hours 1)) with (timedelta_hours 1) by lia.
    reflexivity.
  - intros id Hid Hage. rewrite Hslept, Hid. simpl.
    rewrite Z.max_r by lia. reflexivity.
Qed.

(** ** The confirmation gate *)

Section Gate.
Variables (constants : Constants) (env : Env) (threshold : Q).
Variables (n : nat) (s : State).

Let N := guild_size env s n.
Let fraction := gate_fraction env s n.
Let gate := _verify_kick constants env threshold n.

(** An empty guild: the division raises. *)
Lemma verify_kick_empty_guild :
  N = 0%nat →
  gate s = (Raise ZeroDivisionError,
            {| trace := trace s ++ gate_entry n;
               reminder_cache := reminder_cache s |}).
Proof.
  subst N gate. unfold guild_size, gate_entry. intros HN.
  unfold _verify_kick, py_truediv. unfold_ops. simpl.
  rewrite <- !app_assoc; simpl. rewrite HN. simpl. reflexivity.
Qed.

(** Below the threshold: approved at once. *)
Lemma verify_kick_auto :
  N ≠ 0%nat → (fraction < threshold)%Q →
  gate s = (Ok true,
            {| trace := trace s ++ gate_entry n ++ [EvLog DEBUG (SeenAsSafe fraction)];
               reminder_cache := reminder_cache s |}).
Proof.
  subst N fraction gate. unfold gate_fraction, guild_size, gate_entry.
  intros HN Hlt.
  unfold _verify_kick, py_truediv. unfold_ops. simpl.
  rewrite <- !app_assoc; simpl.
  destruct (decide _) as [|_]; [done|]. simpl.
  destruct (Qlt_le_dec _ _) as [_|Hle]; simpl.
  - by rewrite <- !app_assoc.
  - by apply Qlt_not_le in Hlt.
Qed.
End Gate.

(** Every run of [_verify_kick] follows one of the paths. *)
Lemma verify_kick_path (constants : Constants) (env : Env) (threshold : Q)
    (n : nat) (s : State) :
  ∃ r evs,
    _verify_kick constants env threshold n s = (r, extend s evs)
    ∧ gate_path constants threshold n (guild_size env s n) r evs.
Proof.
  unfold guild_size, gate_entry, extend.
  unfold _verify_kick, py_truediv, for_each, options.
  cbn [for_fold]. unfold_ops. tidy.
  set (N := length (members (env_guild env
                 (trace s ++ [EvLog DEBUG (CheckingSafeToKick n); EvGuildAvailable])))).
  destruct (decide (N = 0%nat)) as [HN|HN].
  { eexists _, _. split; [reflexivity|by apply path_empty_guild]. }
  tidy.
  set (pct := (inject_Z (Z.of_nat n) / inject_Z (Z.of_nat N))%Q).
  destruct (Qlt_le_dec pct threshold) as [Hlt|Hle]; tidy.
  { eexists _, _. split; [reflexivity|by eapply path_auto]. }
  case_answer (env_send env) ipattern:([msg|status]); tidy.
  2:{ eexists _, _. split; [reflexivity|by eapply path_send_failed]. }
  case_answer (env_add_reaction env) ipattern:([[]|status]); tidy.
  2:{ eexists _, _. split; [reflexivity|by eapply path_first_reaction_failed]. }
  case_answer (env_add_reaction env) ipattern:([[]|status]); tidy.
  2:{ eexists _, _. split; [reflexivity|by eapply path_second_reaction_failed]. }
  destruct (find _ _) as [choice|] eqn:Hfind; tidy.
  - apply find_some in Hfind as [_ Hcheck].
    case_answer (env_clear_reactions env) ipattern:([[]|status]); tidy.
    2:{ eexists _, _. split; [reflexivity|by eapply path_answered_clear_failed]. }
    case_answer (env_edit env) ipattern:([[]|status]); tidy.
    + eexists _, _. split;
        [reflexivity|by eapply (path_answered _ _ _ _ _ msg choice (Done ()))].
    + eexists _, _. split;
        [reflexivity|by eapply (path_answered _ _ _ _ _ msg choice (Failed status))].
  - case_answer (env_clear_reactions env) ipattern:([[]|status]); tidy.
    + eexists _, _. split;
        [reflexivity|by eapply (path_timeout _ _ _ _ _ msg (Done ()))].
    + eexists _, _. split;
        [reflexivity|by eapply (path_timeout _ _ _ _ _ msg (Failed status))].
Qed.

Lemma events_of_extend {A} (m : M A) (s : State) (r : result A) (evs : list Event) :
  m s = (r, extend s evs) → events_of m s = evs.
Proof. intros H. apply events_of_app. by rewrite H. Qed.

(** The fraction of a guild is never negative. *)
Lemma fraction_nonneg (n size : nat) :
  (0 <= inject_Z (Z.of_nat n) / inject_Z (Z.of_nat size))%Q.
Proof.
  apply Qmult_le_0_compat.
  - change 0%Q with (inject_Z 0). rewrite <- Zle_Qle. lia.
  - apply Qinv_le_0_compat.
    change 0%Q with (inject_Z 0). rewrite <- Zle_Qle. lia.
Qed.

(** A path that returns stands for a decision, and returns whether that
    decision permits the kick. *)
Lemma gate_path_decision (constants : Constants) (threshold : Q) (n size : nat)
    (r : result bool) (evs : list Event) (b : bool) :
  gate_path constants threshold n size r evs →
  r = Ok b →
  ∃ d, decision_of r evs = Some d ∧ permits d = b.
Proof.
  intros Hpath Hr.
  destruct Hpath as [ | | | | |pct msg [[]|st] | |pct msg choice [[]|st] ];
    try discriminate; simplify_eq.
  - by exists AutoApproved.
  - by exists TimedOut.
  - destruct (bool_decide (reaction_emoji choice = Emojis_incident_actioned constants));
      [by exists HumanApproved|by exists HumanDenied].
Qed.

(** The approval at once is the path below the threshold. *)
Lemma gate_path_auto (constants : Constants) (threshold : Q) (n size : nat)
    (r : result bool) (evs : list Event) :
  gate_path constants threshold n size r evs →
  decision_of r evs = Some AutoApproved ↔
  size ≠ 0%nat
  ∧ (inject_Z (Z.of_nat n) / inject_Z (Z.of_nat size) < threshold)%Q.
Proof.
  intros Hpath.
  destruct Hpath as [ | | | | |pct msg [[]|st] | |pct msg choice [[]|st] ];
    simplify_eq; simpl.
  all: try (split; [done|]; intros [? Hlt]; try done;
            exfalso; by apply Qlt_not_le in Hlt).
  destruct (bool_decide _); simpl;
    (split; [done|]; intros [? Hlt]; exfalso; by apply Qlt_not_le in Hlt).
Qed.

(** No member is kicked, no role given and nothing reported on the way
    through the gate, which is entered once. *)
Lemma gate_path_quiet (constants : Constants) (threshold : Q) (n size : nat)
    (r : result bool) (evs : list Event) :
  gate_path constants threshold n size r evs →
  kicks evs = [] ∧ role_grants evs = [] ∧ reports evs = [] ∧ gate_calls evs = [n].
Proof.
  intros Hpath.
  destruct Hpath as [ | | | | |pct msg [[]|st] | |pct msg choice [[]|st] ];
    done.
Qed.

(** At or above the threshold, when the calls of the prompt go through:
    the prompt is posted with its two reactions, the first reaction
    accepted by [check] is awaited, and the outcome follows from it. *)
Lemma verify_kick_prompted (constants : Constants) (env : Env) (threshold : Q)
    (n : nat) (s : State) :
  guild_size env s n ≠ 0%nat →
  (threshold <= gate_fraction env s n)%Q →
  prompt_calls_succeed env →
  ∃ msg,
    let prompt := gate_entry n ++ gate_prompt constants n (gate_fraction env s n) msg in
    _verify_kick constants env threshold n s =
    match find (check constants msg) (env_reactions env (trace s ++ prompt) (60 * 5)) with
    | None =>
      (Ok false,
       extend s (prompt ++ [EvWaitFor (60 * 5) None; EvLog DEBUG PromptNotAnswered;
                            EvClearReactions msg (Done ())]))
    | Some choice =>
      let outcome :=
        bool_decide (reaction_emoji choice = Emojis_incident_actioned constants) in
      (Ok outcome,
       extend s (prompt ++ [EvWaitFor (60 * 5) (Some choice);
                            EvClearReactions msg (Done ());
                            EvLog DEBUG (ReceivedAnswer (reaction_emoji choice) outcome);
                            EvEdit msg (RequestOutcome n outcome) (Done ())]))
    end.
Proof.
  unfold gate_fraction, guild_size, gate_entry, gate_prompt, extend.
  intros HN Hle (Hsend & Hreact & Hclear & Hedit).
  unfold _verify_kick, py_truediv, for_each, options.
  cbn [for_fold]. unfold_ops. tidy.
  destruct (decide _) as [|_]; [done|]. tidy.
  destruct (Qlt_le_dec _ _) as [Hlt|_]; [by apply Qlt_not_le in Hlt|]. tidy.
  match goal with
  | |- context [env_send env ?tr ?ch ?c] => destruct (Hsend tr ch c) as [msg ->]
  end.
  exists msg. tidy. rewrite !Hreact. tidy.
  destruct (find _ _) as [choice|]; tidy; rewrite Hclear; tidy.
  - rewrite Hedit. tidy. reflexivity.
  - reflexivity.
Qed.

Lemma authorize_prompted (n size : nat) (threshold : Q) (response : option Token) :
  (threshold <= inject_Z (Z.of_nat n) / inject_Z (Z.of_nat size))%Q →
  authorize n size threshold response =
  match response with
  | Some Approve => HumanApproved
  | Some Deny => HumanDenied
  | None => TimedOut
  end.
Proof.
  intros Hle. unfold authorize.
  destruct (Qlt_le_dec _ _) as [Hlt|_]; [|done].
  by apply Qlt_not_le in Hlt.
Qed.

(** What [check] accepts. *)
Lemma check_accepts (constants : Constants) (msg : Snowflake) (r : ReactionAdd) :
  check constants msg r = true ↔
  reaction_message r = msg
  ∧ (reaction_emoji r = Emojis_incident_actioned constants
     ∨ reaction_emoji r = Emojis_incident_unactioned constants)
  ∧ user_bot r = false.
Proof.
  unfold check, options.
  rewrite !andb_true_iff, !bool_decide_eq_true, negb_true_iff.
  rewrite elem_of_cons, list_elem_of_singleton. tauto.
Qed.

(** The outcome of a prompt, read as a decision. *)
Lemma verify_kick_human (constants : Constants) (env : Env) (threshold : Q)
    (n : nat) (s : State) :
  let N := guild_size env s n in
  let fraction := (inject_Z (Z.of_nat n) / inject_Z (Z.of_nat N))%Q in
  let run := _verify_kick constants env threshold n s in
  let evs := events_of (_verify_kick constants env threshold n) s in
  N ≠ 0%nat → (threshold <= fraction)%Q → prompt_calls_succeed env →
  ∃ msg,
    let prompt := gate_entry n ++ gate_prompt constants n fraction msg in
    let answer :=
      find (check constants msg) (env_reactions env (trace s ++ prompt) 300) in
    let d := authorize n N threshold (answer ≫= token_of constants) in
    sends evs = [(Channels_dev_core constants, ConfirmationPrompt n fraction, Done msg)]
    ∧ waits evs = [(300, answer)]
    ∧ decision_of run.1 evs = Some d
    ∧ run.1 = Ok (permits d)
    ∧ match answer with
      | None => d = TimedOut
      | Some choice =>
        reaction_message choice = msg ∧ user_bot choice = false
        ∧ ((reaction_emoji choice = Emojis_incident_actioned constants
            ∧ d = HumanApproved)
           ∨ (reaction_emoji choice = Emojis_incident_unactioned constants
              ∧ reaction_emoji choice ≠ Emojis_incident_actioned constants
              ∧ d = HumanDenied))
      end.
Proof.
  intros N fraction run evs HN Hle Hcalls.
  destruct (verify_kick_prompted constants env threshold n s) as [msg Hrun];
    [done..|].
  cbv zeta in Hrun. unfold gate_fraction in Hrun. fold N fraction in Hrun.
  change (60 * 5) with 300 in Hrun.
  exists msg. intros prompt answer d. fold prompt answer in Hrun.
  pose proof (authorize_prompted n N threshold (answer ≫= token_of constants) Hle)
    as Hd. fold d in Hd. clearbody d.
  destruct answer as [choice|] eqn:Hanswer.
  - apply find_some in Hanswer as [_ Hcheck].
    apply check_accepts in Hcheck as (Hmsg & Hemoji & Hbot).
    assert (evs = prompt ++ [EvWaitFor 300 (Some choice);
              EvClearReactions msg (Done ());
              EvLog DEBUG (ReceivedAnswer (reaction_emoji choice)
                (bool_decide (reaction_emoji choice = Emojis_incident_actioned constants)));
              EvEdit msg (RequestOutcome n
                (bool_decide (reaction_emoji choice = Emojis_incident_actioned constants)))
                (Done ())]) as Hevs by (by eapply events_of_extend).
    subst run. rewrite Hrun, Hevs. clear Hrun Hevs.
    simpl in Hd. unfold token_of in Hd.
    split; [done|]. split; [done|].
    destruct (decide (reaction_emoji choice = Emojis_incident_actioned constants))
      as [Hyes|Hno].
    + rewrite bool_decide_eq_true_2 by done. subst d. simpl.
      repeat split; try done. by left.
    + rewrite bool_decide_eq_false_2 by done.
      destruct Hemoji as [?|Hden]; [done|].
      rewrite decide_True in Hd by done. subst d. simpl.
      repeat split; try done. by right.
  - assert (evs = prompt ++ [EvWaitFor 300 None; EvLog DEBUG PromptNotAnswered;
                             EvClearReactions msg (Done ())]) as Hevs
      by (by eapply events_of_extend).
    subst run. rewrite Hrun, Hevs. clear Hrun Hevs.
    simpl in Hd. subst d. done.
Qed.

(** The wait gives the first qualifying response. *)
Lemma find_first_qualifying (constants : Constants) (msg : Snowflake)
    (reactions : list ReactionAdd) :
  first_qualifying constants msg reactions (find (check constants msg) reactions).
Proof.
  induction reactions as [|r rest IH]; simpl.
  - intros r Hin. by apply elem_of_nil in Hin.
  - destruct (check constants msg r) eqn:Hcheck.
    + exists [], rest. split; [done|].
      split; [intros r' Hin; by apply elem_of_nil in Hin|].
      by apply check_accepts.
    + assert (¬ qualifying constants msg r) as Hnot.
      { intros Hq. apply check_accepts in Hq. congruence. }
      destruct (find (check constants msg) rest) as [choice|]; simpl in IH |- *.
      * destruct IH as (before & after & -> & Hbefore & Hchoice).
        exists (r :: before), after. split; [done|]. split; [|done].
        intros r' [->|Hin]%elem_of_cons; [done|by apply Hbefore].
      * intros r' [->|Hin]%elem_of_cons; [done|by apply IH].
Qed.

(** C3. In a guild of [N > 0] members, [_verify_kick n] approves at once
    (it returns [True] having sent nothing and waited for nothing) exactly
    when [n / N < threshold]. Otherwise, the calls to Discord going
    through, it posts one prompt in the core developers' channel and waits
    once, with a timeout of 300 seconds. What the wait gives is the first
    qualifying response among the reactions dispatched in that time: the
    first reaction to the prompt, by a user who is not a bot, with the
    approval or the denial emoji; every such reaction is accepted, and no
    other. It returns [True] when that response has the approval emoji
    (human approval), [False] when it has the denial emoji (human denial),
    and [False] when no qualifying response came in time (timeout). With
    the default threshold of 0 nothing is ever approved at once. *)
Theorem verify_kick_authorize (constants : Constants) (env : Env) (threshold : Q)
    (n : nat) (s : State) :
  let N := guild_size env s n in
  let fraction := (inject_Z (Z.of_nat n) / inject_Z (Z.of_nat N))%Q in
  let run := _verify_kick constants env threshold n s in
  let evs := events_of (_verify_kick constants env threshold n) s in
  (0 < N)%nat →
  (decision_of run.1 evs = Some AutoApproved ↔ (fraction < threshold)%Q)
  ∧ ((fraction < threshold)%Q →
       run.1 = Ok true ∧ sends evs = [] ∧ waits evs = [])
  ∧ (¬ (fraction < threshold)%Q → prompt_calls_succeed env →
       ∃ msg answer,
         let prompt := gate_entry n ++ gate_prompt constants n fraction msg in
         let d := authorize n N threshold (answer ≫= token_of constants) in
         first_qualifying constants msg (env_reactions env (trace s ++ prompt) 300) answer
         ∧ sends evs = [(Channels_dev_core constants, ConfirmationPrompt n fraction, Done msg)]
         ∧ waits evs = [(300, answer)]
         ∧ decision_of run.1 evs = Some d
         ∧ run.1 = Ok (permits d)
         ∧ match answer with
           | None => d = TimedOut
           | Some choice =>
             (reaction_emoji choice = Emojis_incident_actioned constants
              ∧ d = HumanApproved)
             ∨ (reaction_emoji choice = Emojis_incident_unactioned constants
                ∧ reaction_emoji choice ≠ Emojis_incident_actioned constants
                ∧ d = HumanDenied)
           end)
  ∧ (threshold = KICK_CONFIRMATION_THRESHOLD →
       ¬ (fraction < threshold)%Q ∧ decision_of run.1 evs ≠ Some AutoApproved).
Proof.
  intros N fraction run evs HN.
  destruct (verify_kick_path constants env threshold n s) as (r & evs' & Hrun & Hpath).
  fold N in Hpath.
  assert (evs = evs') as <- by (by eapply events_of_extend).
  assert (run.1 = r) as Hr by (subst run; by rewrite Hrun).
  assert (decision_of run.1 evs = Some AutoApproved ↔ (fraction < threshold)%Q) as Hauto.
  { rewrite Hr. rewrite (gate_path_auto _ _ _ _ _ _ Hpath).
    split; [by intros [_ ?]|]. intros ?. split; [lia|done]. }
  split; [done|]. split; [|split].
  - intros Hlt.
    pose proof (verify_kick_auto constants env threshold n s) as Hrun'.
    unfold gate_fraction in Hrun'. fold N fraction in Hrun'.
    specialize (Hrun' ltac:(lia) Hlt).
    assert (evs = gate_entry n ++ [EvLog DEBUG (SeenAsSafe fraction)]) as ->
      by (by eapply events_of_app; rewrite Hrun').
    subst run. rewrite Hrun'. done.
  - intros Hnlt Hcalls. apply Qnot_lt_le in Hnlt.
    destruct (verify_kick_human constants env threshold n s)
      as (msg & Hsends & Hwaits & Hd & Hres & Hanswer); [fold N; lia|done|done|].
    exists msg, (find (check constants msg)
                   (env_reactions env
                      (trace s ++ gate_entry n ++ gate_prompt constants n fraction msg) 300)).
    split; [apply find_first_qualifying|].
    do 4 (split; [done|]).
    destruct (find _ _) as [choice|]; [|done].
    destruct Hanswer as (_ & _ & Hemoji). exact Hemoji.
  - intros ->. assert (¬ (fraction < KICK_CONFIRMATION_THRESHOLD)%Q) as Hn.
    { apply Qle_not_lt. apply fraction_nonneg. }
    split; [done|]. by rewrite Hauto.
Qed.

Lemma sample_calls_succeed (reactions : list ReactionAdd) (refused : list Snowflake) :
  prompt_calls_succeed (sample_env reactions refused).
Proof.
  split; [intros tr ch c; exists 700; reflexivity|].
  split; [intros tr msg e; reflexivity|].
  split; [intros tr msg; reflexivity|intros tr msg c; reflexivity].
Defined.

Lemma verify_kick_authorize_witness :
  let env := sample_env [approval] [] in
  let gate := _verify_kick sample_constants env KICK_CONFIRMATION_THRESHOLD 1 in
  (0 < guild_size env initial_state 1)%nat
  ∧ prompt_calls_succeed env
  ∧ waits (events_of gate initial_state) = [(300, Some approval)]
  ∧ decision_of (gate initial_state).1 (events_of gate initial_state) = Some HumanApproved
  ∧ (gate initial_state).1 = Ok true.
Proof.
  intros env gate.
  assert (0 < guild_size env initial_state 1)%nat as HN by (vm_compute; lia).
  pose proof (sample_calls_succeed [approval] [] : prompt_calls_succeed env) as Hcalls.
  assert (waits (events_of gate initial_state) = [(300, Some approval)]) as Hwaited
    by (vm_compute; reflexivity).
  destruct (verify_kick_authorize sample_constants env KICK_CONFIRMATION_THRESHOLD 1
              initial_state HN) as (_ & _ & Hhuman & Hdefault).
  destruct (Hdefault eq_refl) as [Hnlt _].
  destruct (Hhuman Hnlt Hcalls) as (msg & answer & _ & _ & Hwaits & Hd & Hres & Hanswer).
  fold gate in Hwaits, Hd, Hres.
  rewrite Hwaited in Hwaits. injection Hwaits as <-.
  split; [exact HN|]. split; [exact Hcalls|]. split; [exact Hwaited|].
  destruct Hanswer as [[_ Happroved]|[Hdenial _]]; [|discriminate Hdenial].
  rewrite Happroved in Hd, Hres. split; [exact Hd|exact Hres].
Defined.

(** C8, as amended. A run of [_verify_kick] that returned after waiting
    (approval, denial or timeout) has cleared the reactions of its prompt,
    once; it has edited the prompt, once, to the outcome when a reaction
    decided (approval or denial), and not at all when the wait timed
    out. *)
Theorem verify_kick_cleanup (constants : Constants) (env : Env) (threshold : Q)
    (n : nat) (s : State) (d : ConfirmationDecision) :
  let run := _verify_kick constants env threshold n s in
  let evs := events_of (_verify_kick constants env threshold n) s in
  decision_of run.1 evs = Some d → d ≠ AutoApproved →
  ∃ msg percentage,
    sends evs = [(Channels_dev_core constants, ConfirmationPrompt n percentage, Done msg)]
    ∧ cleared evs = [msg]
    ∧ edits evs = match d with
                  | HumanApproved => [(msg, RequestOutcome n true)]
                  | HumanDenied => [(msg, RequestOutcome n false)]
                  | _ => []
                  end.
Proof.
  intros run evs Hd Hnauto.
  destruct (verify_kick_path constants env threshold n s) as (r & evs' & Hrun & Hpath).
  assert (evs = evs') as <- by (by eapply events_of_extend).
  assert (run.1 = r) as Hr by (subst run; by rewrite Hrun).
  rewrite Hr in Hd. clear Hr Hrun. clearbody evs. clear run.
  destruct Hpath as [ | | | | |pct msg [[]|st] | |pct msg choice [[]|st] ];
    try discriminate; simpl in Hd; simplify_eq.
  - by eexists msg, _.
  - eexists msg, _.
    match goal with x := bool_decide _ |- _ => destruct x end; by simplify_eq.
Qed.

Lemma verify_kick_cleanup_witness :
  let env := sample_env [denial] [] in
  let gate := _verify_kick sample_constants env KICK_CONFIRMATION_THRESHOLD 1 in
  decision_of (gate initial_state).1 (events_of gate initial_state) = Some HumanDenied
  ∧ ∃ msg percentage,
      sends (events_of gate initial_state)
      = [(50, ConfirmationPrompt 1 percentage, Done msg)]
      ∧ cleared (events_of gate initial_state) = [msg]
      ∧ edits (events_of gate initial_state) = [(msg, RequestOutcome 1 false)].
Proof.
  intros env gate.
  assert (decision_of (gate initial_state).1 (events_of gate initial_state)
          = Some HumanDenied) as Hd by (vm_compute; reflexivity).
  split; [exact Hd|].
  apply (verify_kick_cleanup sample_constants env KICK_CONFIRMATION_THRESHOLD 1
           initial_state HumanDenied Hd).
  discriminate.
Defined.

(** C8, as stated, fails on a timeout: with no reaction from the staff the
    run stands for [TimedOut], the reactions of prompt 700 are cleared, and
    the prompt is not edited. *)
Lemma verify_kick_timeout_unedited :
  let env := sample_env [] [] in
  let gate := _verify_kick sample_constants env KICK_CONFIRMATION_THRESHOLD 1 in
  decision_of (gate initial_state).1 (events_of gate initial_state) = Some TimedOut
  ∧ waits (events_of gate initial_state) = [(300, None)]
  ∧ cleared (events_of gate initial_state) = [700]
  ∧ edits (events_of gate initial_state) = [].
Proof. vm_compute. done. Qed.

(** C10. [_verify_kick] divides by the number of members of the guild as
    it finds it: the run raises [ZeroDivisionError] exactly when the guild
    has no member, and then it has posted no prompt and stands for no
    decision; with at least one member it never raises that error. *)
Theorem verify_kick_division (constants : Constants) (env : Env) (threshold : Q)
    (n : nat) (s : State) :
  let N := guild_size env s n in
  let run := _verify_kick constants env threshold n s in
  let evs := events_of (_verify_kick constants env threshold n) s in
  (run.1 = Raise ZeroDivisionError ↔ N = 0%nat)
  ∧ (N = 0%nat →
       evs = gate_entry n ∧ sends evs = [] ∧ decision_of run.1 evs = None)
  ∧ ((1 <= N)%nat → run.1 ≠ Raise ZeroDivisionError).
Proof.
  intros N run evs.
  assert (N = 0%nat → run = (Raise ZeroDivisionError, extend s (gate_entry n))) as Hzero.
  { intros HN. by apply verify_kick_empty_guild. }
  assert (run.1 = Raise ZeroDivisionError → N = 0%nat) as Hraise.
  { destruct (verify_kick_path constants env threshold n s)
      as (r & evs' & Hrun & Hpath).
    subst run. rewrite Hrun. simpl. intros ->.
    inversion Hpath as [ | | | | |? ? [[]|?] | |? ? ? [[]|?] ]; done. }
  split; [split; [done|]|split].
  - intros HN. by rewrite (Hzero HN).
  - intros HN. specialize (Hzero HN).
    assert (evs = gate_entry n) as -> by (by eapply events_of_extend).
    by rewrite Hzero.
  - intros HN Hr. apply Hraise in Hr. lia.
Qed.

Lemma verify_kick_division_witness :
  let env := with_guild empty_guild (sample_env [] []) in
  let gate := _verify_kick sample_constants env KICK_CONFIRMATION_THRESHOLD 0 in
  guild_size env initial_state 0 = 0%nat
  ∧ (gate initial_state).1 = Raise ZeroDivisionError
  ∧ events_of gate initial_state = gate_entry 0
  ∧ (1 <= guild_size (sample_env [] []) initial_state 1)%nat
  ∧ (_verify_kick sample_constants (sample_env [] []) KICK_CONFIRMATION_THRESHOLD 1
       initial_state).1 ≠ Raise ZeroDivisionError.
Proof.
  intros env gate.
  assert (guild_size env initial_state 0 = 0%nat) as HN by reflexivity.
  assert (1 <= guild_size (sample_env [] []) initial_state 1)%nat as HN'
    by (vm_compute; lia).
  destruct (verify_kick_division sample_constants env KICK_CONFIRMATION_THRESHOLD 0
              initial_state) as (Hiff & Hzero & _).
  destruct (verify_kick_division sample_constants (sample_env [] [])
              KICK_CONFIRMATION_THRESHOLD 1 initial_state) as (_ & _ & Hpos).
  split; [exact HN|]. split; [exact (proj2 Hiff HN)|].
  split; [exact (proj1 (Hzero HN))|]. split; [exact HN'|exact (Hpos HN')].
Defined.

(** ** The cycle *)

Lemma update_unverified_members_phases (constants : Constants) (env : Env)
    (threshold : Q) (s : State) :
  update_unverified_members constants env threshold s =
  ('(for_kick, role_report) ← role_phase constants env;
   kick_phase constants env threshold for_kick role_report) s.
Proof.
  unfold update_unverified_members, role_phase, kick_phase.
  unfold mbind, M_bind.
  destruct (log INFO UpdatingUnverified s) as [[[]|e] s1]; [|done].
  destruct (wait_until_guild_available s1) as [[[]|e] s2]; [|done].
  destruct (_check_members constants env s2) as [[[for_role for_kick]|e] s3]; [|done].
  match goal with
  | |- context [match ?m s3 with _ => _ end] =>
    destruct (m s3) as [[role_report|e] s4]; [|done]
  end.
  reflexivity.
Qed.

Lemma omap_zip_with_none {A B C} (f : Event → option C) (g : A → B → Event)
    (l : list A) (k : list B) :
  (∀ x y, f (g x y) = None) → omap f (zip_with g l k) = [].
Proof.
  intros Hnone. revert k. induction l as [|x l IH]; intros [|y k]; simpl; try done.
  by rewrite Hnone, IH.
Qed.

Lemma omap_cons_event {C} (f : Event → option C) (e : Event) (l : list Event) :
  omap f (e :: l) = match f e with Some c => c :: omap f l | None => omap f l end.
Proof. done. Qed.

Lemma kicks_zip_with (l : list Snowflake) (k : list (http unit)) :
  kicks (zip_with EvKick l k) = zip l k.
Proof.
  revert k. induction l as [|x l IH]; intros [|y k]; simpl; try done.
  unfold kicks in IH. by rewrite IH.
Qed.

(** The batches of a cycle are those [_check_members] returns in it. *)
Lemma check_members_in_cycle (constants : Constants) (env : Env) (s : State) :
  (_check_members constants env
     (extend s [EvLog INFO UpdatingUnverified; EvGuildAvailable])).1
  = Ok (cycle_batches constants env s).
Proof.
  unfold cycle_batches, _check_members, extend. unfold_ops. tidy.
  by destruct (check_members_loop _ _ _ _) as [for_role for_kick].
Qed.

(** The first half of a cycle never fails; it kicks nobody, does not enter
    the gate and reports nothing. *)
Lemma role_phase_run (constants : Constants) (env : Env) (s : State) :
  ∃ role_report evs,
    role_phase constants env s
    = (Ok (snd (cycle_batches constants env s), role_report), extend s evs)
    ∧ kicks evs = [] ∧ gate_calls evs = [] ∧ reports evs = [].
Proof.
  unfold cycle_batches, role_phase, _check_members, extend. unfold_ops. tidy.
  destruct (check_members_loop _ _ _ _) as [for_role for_kick]. tidy.
  case_bool_decide as Hrole; tidy.
  - eexists _, _. split; [reflexivity|]. done.
  - rewrite give_role_run. tidy.
    eexists _, _. split; [reflexivity|].
    unfold kicks, gate_calls, reports.
    rewrite !omap_cons_event, !omap_app, !omap_zip_with_none by done.
    case_bool_decide; done.
Qed.

Lemma extend_extend (s : State) (l k : list Event) :
  extend (extend s l) k = extend s (l ++ k).
Proof. unfold extend; simpl. by rewrite app_assoc. Qed.

Lemma push_extend (s : State) (l : list Event) (e : Event) :
  push (extend s l) e = extend s (l ++ [e]).
Proof. unfold push, extend; simpl. by rewrite app_assoc. Qed.

Lemma kick_phase_run (constants : Constants) (env : Env) (threshold : Q)
    (for_kick : gset Snowflake) (role_report : RoleReport) (s : State) :
  kick_phase constants env threshold for_kick role_report s =
  if bool_decide (for_kick = ∅)
  then (Ok (), push s (EvModLog FoundNoUsersToKick role_report))
  else match _verify_kick constants env threshold (size for_kick) s with
       | (Ok true, s') =>
         match _kick_members env for_kick s' with
         | (Ok n_kicks, s'') =>
           (Ok (), push s'' (EvModLog (Kicked n_kicks (size for_kick)) role_report))
         | (Raise e, s'') => (Raise e, s'')
         end
       | (Ok false, s') =>
         (Ok (), push s' (EvModLog (NotAuthorized (size for_kick)) role_report))
       | (Raise e, s') => (Raise e, s')
       end.
Proof.
  unfold kick_phase, mbind, M_bind, send_log_message, emit, mret, M_ret.
  case_bool_decide; [done|].
  destruct (_verify_kick _ _ _ _ s) as [[[]|e] s']; simpl; [|done..].
  by destruct (_kick_members env for_kick s') as [[n|e] s''].
Qed.

(** A cycle, by what its gate did. *)
Lemma cycle_run (constants : Constants) (env : Env) (threshold : Q) (s : State) :
  let for_kick := snd (cycle_batches constants env s) in
  let s1 := (role_phase constants env s).2 in
  let gate := _verify_kick constants env threshold (size for_kick) in
  let cycle := update_unverified_members constants env threshold in
  ∃ role_report evs_role,
    s1 = extend s evs_role
    ∧ kicks evs_role = [] ∧ gate_calls evs_role = [] ∧ reports evs_role = []
    ∧ if decide (for_kick = ∅)
      then cycle s = (Ok (), extend s (evs_role ++ [EvModLog FoundNoUsersToKick role_report]))
      else ∃ evs_gate,
          gate s1 = ((gate s1).1, extend s1 evs_gate)
          ∧ kicks evs_gate = [] ∧ gate_calls evs_gate = [size for_kick]
          ∧ reports evs_gate = []
          ∧ match (gate s1).1 with
            | Ok true =>
              ∃ answers,
                length answers = size for_kick
                ∧ cycle s =
                  (Ok (),
                   extend s (evs_role ++ evs_gate
                             ++ EvLog INFO (KickingMembers (size for_kick))
                                :: zip_with EvKick (elements for_kick) answers
                             ++ (if bool_decide (failure_codes answers ≠ ∅)
                                 then [EvLog INFO
                                         (FailedToKick (size for_kick - successes answers)
                                            (failure_codes answers))]
                                 else [])
                             ++ [EvModLog (Kicked (successes answers) (size for_kick))
                                   role_report]))
            | Ok false =>
              cycle s =
              (Ok (),
               extend s (evs_role ++ evs_gate
                         ++ [EvModLog (NotAuthorized (size for_kick)) role_report]))
            | Raise e => cycle s = (Raise e, extend s (evs_role ++ evs_gate))
            end.
Proof.
  intros for_kick s1 gate cycle.
  destruct (role_phase_run constants env s)
    as (role_report & evs_role & Hrole & Hk & Hg & Hr).
  fold for_kick in Hrole.
  exists role_report, evs_role.
  assert (s1 = extend s evs_role) as Hs1 by (subst s1; by rewrite Hrole).
  split; [done|]. do 3 (split; [done|]).
  assert (cycle s = kick_phase constants env threshold for_kick role_report s1) as Hcycle.
  { subst cycle. rewrite update_unverified_members_phases.
    unfold mbind, M_bind. rewrite Hrole. by rewrite Hs1. }
  rewrite Hcycle, kick_phase_run. clear Hcycle.
  case_decide as Hempty.
  - rewrite bool_decide_eq_true_2 by done. by rewrite Hs1, push_extend.
  - rewrite bool_decide_eq_false_2 by done.
    destruct (verify_kick_path constants env threshold (size for_kick) s1)
      as (r & evs_gate & Hgate & Hpath).
    fold gate in Hgate |- *. rewrite Hgate. simpl.
    destruct (gate_path_quiet _ _ _ _ _ _ Hpath) as (Hkg & Hrg & Hrepg & Hcg).
    exists evs_gate. split; [done|]. do 3 (split; [done|]).
    destruct r as [[]|e].
    + rewrite kick_members_run. simpl.
      rewrite Hs1. unfold push, extend; simpl.
      repeat (rewrite <- ?app_assoc; simpl).
      eexists. split; [apply batch_answers_length|reflexivity].
    + by rewrite Hs1, push_extend, extend_extend, <- ?app_assoc.
    + by rewrite Hs1, extend_extend.
Qed.

Lemma elements_nonempty (X : gset Snowflake) : X ≠ ∅ → elements X ≠ [].
Proof. intros HX Hnil. apply HX. by apply elements_empty_inv, leibniz_equiv in Hnil. Qed.

(** C4. In a cycle of [update_unverified_members], [for_kick] being the
    removal batch [_check_members] returns in it, the gate is entered
    exactly when the removal batch is not empty, in the state the first
    half of the cycle leaves, and with the size of the batch. Members are
    kicked exactly when the batch is not empty and the gate's run stands
    for an approval, at once or by a human: then every member of the batch
    is sent a kick and the report counts the kicked. When the gate's run
    stands for a denial or a timeout the cycle still returns normally,
    nobody is kicked, and the report says "not authorized". *)
Theorem cycle_gate_and_kicks (constants : Constants) (env : Env) (threshold : Q)
    (s : State) :
  let for_kick := snd (cycle_batches constants env s) in
  let s1 := (role_phase constants env s).2 in
  let gate := _verify_kick constants env threshold (size for_kick) in
  let decision := decision_of (gate s1).1 (events_of gate s1) in
  let cycle := update_unverified_members constants env threshold in
  let evs := events_of cycle s in
  (_check_members constants env
     (extend s [EvLog INFO UpdatingUnverified; EvGuildAvailable])).1
  = Ok (cycle_batches constants env s)
  ∧ gate_calls evs = (if decide (for_kick = ∅) then [] else [size for_kick])
  ∧ (for_kick ≠ ∅ →
       ∃ rest, evs = events_of (role_phase constants env) s
                     ++ events_of gate s1 ++ rest)
  ∧ (kicks evs ≠ [] ↔
     for_kick ≠ ∅ ∧ (decision = Some AutoApproved ∨ decision = Some HumanApproved))
  ∧ (for_kick ≠ ∅ →
     decision = Some AutoApproved ∨ decision = Some HumanApproved →
       (cycle s).1 = Ok ()
       ∧ (kicks evs).*1 = elements for_kick
       ∧ ∃ n_kicks role_report,
           reports evs = [(Kicked n_kicks (size for_kick), role_report)])
  ∧ (for_kick ≠ ∅ →
     decision = Some HumanDenied ∨ decision = Some TimedOut →
       (cycle s).1 = Ok ()
       ∧ kicks evs = []
       ∧ ∃ role_report,
           reports evs = [(NotAuthorized (size for_kick), role_report)])
  ∧ (for_kick = ∅ →
       (cycle s).1 = Ok ()
       ∧ kicks evs = []
       ∧ ∃ role_report, reports evs = [(FoundNoUsersToKick, role_report)]).
Proof.
  intros for_kick s1 gate decision cycle evs.
  split; [apply check_members_in_cycle|].
  destruct (cycle_run constants env threshold s)
    as (role_report & evs_role & Hs1 & Hk & Hg & Hr & Hcycle).
  fold for_kick s1 gate cycle in Hs1, Hcycle.
  assert (events_of (role_phase constants env) s = evs_role) as Hevs_role.
  { apply events_of_app. fold s1. by rewrite Hs1. }
  unfold kicks, gate_calls, reports in Hk, Hg, Hr.
  case_decide as Hempty.
  { (* nothing to kick *)
    assert (evs = evs_role ++ [EvModLog FoundNoUsersToKick role_report]) as Hevs
      by (by eapply events_of_extend).
    assert (kicks evs = []) as Hkicks.
    { rewrite Hevs. unfold kicks. by rewrite omap_app, Hk. }
    split; [rewrite Hevs; unfold gate_calls; by rewrite omap_app, Hg|].
    split; [done|].
    split; [rewrite Hkicks; split; [done|by intros [? _]]|].
    split; [done|]. split; [done|].
    intros _. rewrite Hcycle. split; [done|]. split; [done|].
    exists role_report. rewrite Hevs. unfold reports. by rewrite omap_app, Hr. }
  destruct Hcycle as (evs_gate & Hgate & Hkg & Hgg & Hrg & Hcycle).
  assert (events_of gate s1 = evs_gate) as Hevs_gate by (by eapply events_of_extend).
  unfold kicks, gate_calls, reports in Hkg, Hgg, Hrg.
  assert (∀ b, (gate s1).1 = Ok b →
            ∃ d, decision = Some d ∧ permits d = b) as Hdec.
  { intros b Hb.
    destruct (verify_kick_path constants env threshold (size for_kick) s1)
      as (r & evs' & Hrun & Hpath).
    fold gate in Hrun.
    assert (events_of gate s1 = evs') as Hevs' by (by eapply events_of_extend).
    subst decision. rewrite Hevs', Hrun in *. simpl in *.
    by eapply gate_path_decision. }
  assert (∀ e, (gate s1).1 = Raise e → decision = None) as Hnone.
  { intros e He. subst decision. by rewrite He. }
  destruct (gate s1).1 as [[]|e] eqn:Hres.
  - (* approved *)
    destruct Hcycle as (answers & Hlen & Hcycle).
    destruct (Hdec true eq_refl) as (d & Hd & Hp).
    assert (evs = evs_role ++ evs_gate
                  ++ EvLog INFO (KickingMembers (size for_kick))
                     :: zip_with EvKick (elements for_kick) answers
                  ++ (if bool_decide (failure_codes answers ≠ ∅)
                      then [EvLog INFO (FailedToKick (size for_kick - successes answers)
                                          (failure_codes answers))]
                      else [])
                  ++ [EvModLog (Kicked (successes answers) (size for_kick)) role_report])
      as Hevs by (by eapply events_of_extend).
    assert (kicks evs = zip (elements for_kick) answers) as Hkicks.
    { rewrite Hevs. unfold kicks.
      rewrite !omap_app, Hk, Hkg, omap_cons_event, !omap_app.
      fold (kicks (zip_with EvKick (elements for_kick) answers)).
      rewrite kicks_zip_with. case_bool_decide; simpl; by rewrite app_nil_r. }
    assert ((kicks evs).*1 = elements for_kick) as Hfst.
    { rewrite Hkicks. apply fst_zip. unfold size, set_size in Hlen. simpl in Hlen.
      by rewrite Hlen. }
    split.
    { rewrite Hevs. unfold gate_calls.
      rewrite !omap_app, Hg, Hgg, omap_cons_event, !omap_app.
      rewrite omap_zip_with_none by done. by case_bool_decide. }
    split; [intros _; eexists; by rewrite Hevs_role, Hevs_gate, Hevs|].
    split.
    { split; [intros _; split; [done|]; destruct d; try done; eauto|].
      intros _ Hnil. rewrite Hnil in Hfst.
      by apply (elements_nonempty for_kick). }
    split.
    { intros _ _. rewrite Hcycle. split; [done|]. split; [done|].
      exists (successes answers), role_report. rewrite Hevs. unfold reports.
      rewrite !omap_app, Hr, Hrg, omap_cons_event, !omap_app.
      rewrite omap_zip_with_none by done. by case_bool_decide. }
    split; [|done].
    intros _ [Hden|Hto]; rewrite Hd in *; simplify_eq; done.
  - (* denied or timed out *)
    destruct (Hdec false eq_refl) as (d & Hd & Hp).
    assert (evs = evs_role ++ evs_gate
                  ++ [EvModLog (NotAuthorized (size for_kick)) role_report]) as Hevs
      by (by eapply events_of_extend).
    assert (kicks evs = []) as Hkicks.
    { rewrite Hevs. unfold kicks. by rewrite !omap_app, Hk, Hkg. }
    split; [rewrite Hevs; unfold gate_calls; by rewrite !omap_app, Hg, Hgg|].
    split; [intros _; eexists; by rewrite Hevs_role, Hevs_gate, Hevs|].
    split.
    { rewrite Hkicks. split; [done|].
      intros [_ [Ha|Ha]]; rewrite Hd in Ha; simplify_eq; done. }
    split; [intros _ [Ha|Ha]; rewrite Hd in Ha; simplify_eq; done|].
    split; [|done].
    intros _ _. rewrite Hcycle. split; [done|]. split; [done|].
    exists role_report. rewrite Hevs. unfold reports.
    by rewrite !omap_app, Hr, Hrg.
  - (* the gate raised *)
    pose proof (Hnone e eq_refl) as Hd.
    assert (evs = evs_role ++ evs_gate) as Hevs by (by eapply events_of_extend).
    assert (kicks evs = []) as Hkicks.
    { rewrite Hevs. unfold kicks. by rewrite !omap_app, Hk, Hkg. }
    split; [rewrite Hevs; unfold gate_calls; by rewrite !omap_app, Hg, Hgg|].
    split; [intros _; exists []; by rewrite Hevs_role, Hevs_gate, Hevs, app_nil_r|].
    split.
    { rewrite Hkicks, Hd. split; [done|]. by intros [_ [?|?]]. }
    rewrite Hd. split; [by intros _ [?|?]|].
    split; [by intros _ [?|?]|done].
Qed.

Lemma cycle_gate_and_kicks_witness :
  let env := sample_env [denial] [] in
  let for_kick := snd (cycle_batches sample_constants env initial_state) in
  let s1 := (role_phase sample_constants env initial_state).2 in
  let gate := _verify_kick sample_constants env KICK_CONFIRMATION_THRESHOLD (size for_kick) in
  let cycle := update_unverified_members sample_constants env KICK_CONFIRMATION_THRESHOLD in
  for_kick ≠ ∅
  ∧ (decision_of (gate s1).1 (events_of gate s1) = Some HumanDenied
     ∨ decision_of (gate s1).1 (events_of gate s1) = Some TimedOut)
  ∧ (cycle initial_state).1 = Ok ()
  ∧ kicks (events_of cycle initial_state) = []
  ∧ ∃ role_report,
      reports (events_of cycle initial_state)
      = [(NotAuthorized (size for_kick), role_report)].
Proof.
  intros env for_kick s1 gate cycle.
  assert (for_kick ≠ ∅) as Hbatch.
  { apply (bool_decide_unpack _). vm_compute. exact I. }
  assert (decision_of (gate s1).1 (events_of gate s1) = Some HumanDenied
          ∨ decision_of (gate s1).1 (events_of gate s1) = Some TimedOut) as Hd.
  { left. vm_compute. reflexivity. }
  split; [exact Hbatch|]. split; [exact Hd|].
  destruct (cycle_gate_and_kicks sample_constants env KICK_CONFIRMATION_THRESHOLD
              initial_state) as (_ & _ & _ & _ & _ & Hveto & _).
  exact (Hveto Hbatch Hd).
Defined.

Lemma first_ping_delay_witness :
  let id := Z.shiftl 1000 22 in
  let env := with_clock 1420167601000000 (sample_env [] []) in
  reminder_cache (reminded id) !! "last_reminder" = Some id
  ∧ env_utcnow env (trace (reminded id)) - snowflake_time id
    = timedelta_hours REMINDER_FREQUENCY - timedelta_hours 1
  ∧ (slept (events_of (_before_first_ping env) (reminded id)) == 3600)%Q.
Proof.
  intros id env.
  assert (reminder_cache (reminded id) !! "last_reminder" = Some id) as Hid
    by (vm_compute; reflexivity).
  assert (env_utcnow env (trace (reminded id)) - snowflake_time id
          = timedelta_hours REMINDER_FREQUENCY - timedelta_hours 1) as Hage
    by (vm_compute; reflexivity).
  split; [exact Hid|]. split; [exact Hage|].
  destruct (first_ping_delay env (reminded id)) as (_ & _ & _ & _ & Hhour & _).
  exact (Hhour id Hid Hage).
Defined.

(** ** Worked examples *)

(** 5 of 1000 members at a threshold of one tenth: approved at once. *)
Example small_batch_auto_approved :
  let env := with_guild crowd (sample_env [] []) in
  let gate := _verify_kick sample_constants env (1 # 10) 5 in
  (gate initial_state).1 = Ok true
  ∧ decision_of (gate initial_state).1 (events_of gate initial_state) = Some AutoApproved
  ∧ sends (events_of gate initial_state) = []
  ∧ waits (events_of gate initial_state) = [].
Proof. vm_compute. done. Qed.

(** 200 of 1000 members at the same threshold, and nobody answers. *)
Example large_batch_timed_out :
  let env := with_guild crowd (sample_env [] []) in
  let gate := _verify_kick sample_constants env (1 # 10) 200 in
  (gate initial_state).1 = Ok false
  ∧ decision_of (gate initial_state).1 (events_of gate initial_state) = Some TimedOut
  ∧ waits (events_of gate initial_state) = [(300, None)].
Proof. vm_compute. done. Qed.

(** A reaction by a bot, or to another message, does not answer the prompt. *)
Example bot_reactions_ignored :
  let noise :=
    [ {| reaction_message := 700; reaction_emoji := "actioned"; user_bot := true |};
      {| reaction_message := 701; reaction_emoji := "actioned"; user_bot := false |};
      denial; approval ] in
  let gate :=
    _verify_kick sample_constants (sample_env noise []) KICK_CONFIRMATION_THRESHOLD 1 in
  (gate initial_state).1 = Ok false
  ∧ decision_of (gate initial_state).1 (events_of gate initial_state) = Some HumanDenied
  ∧ waits (events_of gate initial_state) = [(300, Some denial)].
Proof. vm_compute. done. Qed.

(** One cycle on the sample guild with an approving staff: member 11 gets
    the role, member 10 is kicked, and the report says so. *)
Example approved_cycle :
  let cycle :=
    update_unverified_members sample_constants (sample_env [approval] [])
      KICK_CONFIRMATION_THRESHOLD in
  (cycle initial_state).1 = Ok ()
  ∧ role_grants (events_of cycle initial_state) = [(11, 1, Done ())]
  ∧ kicks (events_of cycle initial_state) = [(10, Done ())]
  ∧ reports (events_of cycle initial_state) = [(Kicked 1 1, AssignedRole 1 1)].
Proof. vm_compute. done. Qed.

(** * Further properties *)

(** ** The executor's count *)

Lemma failure_codes_empty {A} (answers : list (http A)) :
  failure_codes answers = ∅ ↔ successes answers = length answers.
Proof.
  pose proof (successes_failed_length answers) as Hsum.
  unfold failure_codes. split.
  - intros Hempty.
    destruct (failed_statuses answers) as [|st l] eqn:Hf.
    + simpl in Hsum. by rewrite Nat.add_0_r in Hsum.
    + exfalso. assert (st ∈ (∅ : gset Z)) as Hin; [|set_solver].
      rewrite <- Hempty. apply elem_of_list_to_set. by left.
  - intros Hall. rewrite Hall in Hsum.
    destruct (failed_statuses answers) as [|st l]; [done|].
    simpl in Hsum. lia.
Qed.

Lemma successes_le_length {A} (answers : list (http A)) :
  (successes answers ≤ length answers)%nat.
Proof. pose proof (successes_failed_length answers). lia. Qed.

Lemma role_grants_zip_with (role : Snowflake) (l : list Snowflake) (k : list (http unit)) :
  role_grants (zip_with (λ m, EvAddRoles m role) l k) = (λ p, (p.1, role, p.2)) <$> zip l k.
Proof.
  revert k. induction l as [|x l IH]; intros [|y k]; simpl; try done.
  unfold role_grants in IH. by rewrite IH.
Qed.

(** X1. The number [_kick_members] and [_give_role] return counts the
    requests that were answered without error, one request having been
    made per member of the batch; it never exceeds the size of the batch.
    The line of failures is logged exactly when it is below that size,
    and then tells how many requests failed and with which statuses. *)
Theorem executor_count_bounds
    (env : Env) (role : Snowflake) (batch : gset Snowflake) (s : State) :
  let kick := _kick_members env batch in
  let give := _give_role env batch role in
  (∃ n, (kick s).1 = Ok n
        ∧ (n ≤ size batch)%nat
        ∧ (kicks (events_of kick s)).*1 = elements batch
        ∧ n = successes (kicks (events_of kick s)).*2
        ∧ failure_lines (events_of kick s)
          = if decide (n = size batch) then []
            else [((size batch - n)%nat,
                   failure_codes (kicks (events_of kick s)).*2)])
  ∧ (∃ n, (give s).1 = Ok n
          ∧ (n ≤ size batch)%nat
          ∧ (role_grants (events_of give s)).*1 = (λ m, (m, role)) <$> elements batch
          ∧ n = successes (role_grants (events_of give s)).*2
          ∧ failure_lines (events_of give s)
            = if decide (n = size batch) then []
              else [((size batch - n)%nat,
                     failure_codes (role_grants (events_of give s)).*2)]).
Proof.
  intros kick give. split.
  - pose proof (kick_members_run env batch s) as Hrun. cbv zeta in Hrun.
    set (answers := batch_answers _ _ _ _) in Hrun.
    assert (length answers = size batch) as Hlen by apply batch_answers_length.
    assert (length (elements batch) = length answers) as Hlen' by done.
    assert ((kick s).1 = Ok (successes answers)) as Hres
      by (subst kick; by rewrite Hrun).
    rewrite (events_of_app kick s _ ltac:(subst kick; rewrite Hrun; reflexivity)).
    rewrite Hres. clear Hres Hrun.
    assert (kicks (EvLog INFO (KickingMembers (size batch))
                   :: zip_with EvKick (elements batch) answers
                   ++ (if bool_decide (failure_codes answers ≠ ∅)
                       then [EvLog INFO (FailedToKick (size batch - successes answers)
                                           (failure_codes answers))]
                       else []))
            = zip (elements batch) answers) as ->.
    { unfold kicks. rewrite omap_cons_event, omap_app. simpl.
      fold (kicks (zip_with EvKick (elements batch) answers)).
      rewrite kicks_zip_with. case_bool_decide; by rewrite app_nil_r. }
    rewrite fst_zip, snd_zip by lia.
    exists (successes answers).
    pose proof (successes_le_length answers).
    split; [done|]. split; [lia|]. split; [done|]. split; [done|].
    unfold failure_lines. rewrite omap_cons_event, omap_app. simpl.
    rewrite omap_zip_with_none by done. simpl.
    pose proof (failure_codes_empty answers) as Hempty.
    case_bool_decide as Hbad; case_decide as Hall; try done.
    + exfalso. apply Hbad, Hempty. lia.
    + exfalso. apply Hall. rewrite <- Hlen. by apply Hempty.
  - pose proof (give_role_run env batch role s) as Hrun. cbv zeta in Hrun.
    set (answers := batch_answers _ _ _ _) in Hrun.
    assert (length answers = size batch) as Hlen by apply batch_answers_length.
    assert (length (elements batch) = length answers) as Hlen' by done.
    assert ((give s).1 = Ok (successes answers)) as Hres
      by (subst give; by rewrite Hrun).
    rewrite (events_of_app give s _ ltac:(subst give; rewrite Hrun; reflexivity)).
    rewrite Hres. clear Hres Hrun.
    assert (role_grants (EvLog INFO (AssigningRole role (size batch))
                   :: zip_with (λ m, EvAddRoles m role) (elements batch) answers
                   ++ (if bool_decide (failure_codes answers ≠ ∅)
                       then [EvLog INFO (FailedToAssign (size batch - successes answers)
                                           (failure_codes answers))]
                       else []))
            = (λ p, (p.1, role, p.2)) <$> zip (elements batch) answers) as ->.
    { unfold role_grants. rewrite omap_cons_event, omap_app. simpl.
      fold (role_grants (zip_with (λ m, EvAddRoles m role) (elements batch) answers)).
      rewrite role_grants_zip_with. case_bool_decide; by rewrite app_nil_r. }
    assert (((λ p : Snowflake * http (), (p.1, role, p.2)) <$> zip (elements batch) answers).*1
            = (λ m, (m, role)) <$> elements batch) as ->.
    { rewrite <- list_fmap_compose.
      rewrite <- (fst_zip (elements batch) answers) at 2 by lia.
      by rewrite <- list_fmap_compose. }
    assert (((λ p : Snowflake * http (), (p.1, role, p.2)) <$> zip (elements batch) answers).*2
            = answers) as ->.
    { rewrite <- list_fmap_compose.
      rewrite <- (snd_zip (elements batch) answers) at 2 by lia. done. }
    exists (successes answers).
    pose proof (successes_le_length answers).
    split; [done|]. split; [lia|]. split; [done|]. split; [done|].
    unfold failure_lines. rewrite omap_cons_event, omap_app. simpl.
    rewrite omap_zip_with_none by done. simpl.
    pose proof (failure_codes_empty answers) as Hempty.
    case_bool_decide as Hbad; case_decide as Hall; try done.
    + exfalso. apply Hbad, Hempty. lia.
    + exfalso. apply Hall. rewrite <- Hlen. by apply Hempty.
Qed.

(** ** The classifier over time and over the snapshot *)

(** X2. On the same snapshot, a later clock never takes a member out of
    the removal batch, and a member of the warning batch is, later, in
    the warning batch still or in the removal batch. *)
Theorem check_members_later
    (unverified everyone : Snowflake) (now now' : datetime) (ms : list Member) :
  now <= now' →
  snd (check_members_loop unverified everyone now ms)
  ⊆ snd (check_members_loop unverified everyone now' ms)
  ∧ fst (check_members_loop unverified everyone now ms)
    ⊆ fst (check_members_loop unverified everyone now' ms)
      ∪ snd (check_members_loop unverified everyone now' ms).
Proof.
  intros Hlater. rewrite !check_members_batches. simpl.
  set (p := cog_policy unverified everyone).
  split.
  - intros id Hid. apply elem_of_batch_of in Hid as (m & Hm & Hidm & Hc).
    apply elem_of_batch_of. exists m. split; [done|]. split; [done|].
    apply classify_removal in Hc as (Hbot & j & Hj & Hu & Hgt).
    apply classify_removal. split; [done|]. exists j. repeat split; try done. lia.
  - intros id Hid. apply elem_of_batch_of in Hid as (m & Hm & Hidm & Hc).
    apply classify_warning in Hc as (Hbot & j & Hj & Hu & Hle & Hgt & Hnot).
    destruct (decide (now' - j > timedelta_days KICKED_AFTER)) as [Hover|Hunder].
    + apply elem_of_union_r, elem_of_batch_of. exists m.
      split; [done|]. split; [done|].
      apply classify_removal. split; [done|]. by exists j.
    + apply elem_of_union_l, elem_of_batch_of. exists m.
      split; [done|]. split; [done|].
      apply classify_warning. split; [done|]. exists j.
      repeat split; try done; lia.
Qed.

Lemma check_members_later_witness :
  timedelta_days 100 <= timedelta_days 130
  ∧ check_members_loop 1 2 (timedelta_days 100) (members sample_guild)
    = ({[ 11 ]}, {[ 10 ]})
  ∧ check_members_loop 1 2 (timedelta_days 130) (members sample_guild)
    = (∅, {[ 10; 11; 12 ]})
  ∧ snd (check_members_loop 1 2 (timedelta_days 100) (members sample_guild))
    ⊆ snd (check_members_loop 1 2 (timedelta_days 130) (members sample_guild))
  ∧ fst (check_members_loop 1 2 (timedelta_days 100) (members sample_guild))
    ⊆ fst (check_members_loop 1 2 (timedelta_days 130) (members sample_guild))
      ∪ snd (check_members_loop 1 2 (timedelta_days 130) (members sample_guild)).
Proof.
  assert (timedelta_days 100 <= timedelta_days 130) as Hlater by (vm_compute; discriminate).
  split; [exact Hlater|].
  split; [vm_compute; reflexivity|]. split; [vm_compute; reflexivity|].
  exact (check_members_later 1 2 _ _ (members sample_guild) Hlater).
Defined.

(** X3. The batches do not depend on the order in which the guild lists
    its members, and the batches of a snapshot in two parts are the unions
    of the batches of the parts. *)
Theorem check_members_order_free (unverified everyone : Snowflake) (now : datetime) :
  (∀ ms1 ms2,
     check_members_loop unverified everyone now (ms1 ++ ms2)
     = (fst (check_members_loop unverified everyone now ms1)
        ∪ fst (check_members_loop unverified everyone now ms2),
        snd (check_members_loop unverified everyone now ms1)
        ∪ snd (check_members_loop unverified everyone now ms2)))
  ∧ (∀ ms ms', ms ≡ₚ ms' →
       check_members_loop unverified everyone now ms
       = check_members_loop unverified everyone now ms').
Proof.
  set (p := cog_policy unverified everyone).
  assert (∀ a ms1 ms2,
            batch_of p now a (ms1 ++ ms2) = batch_of p now a ms1 ∪ batch_of p now a ms2)
    as Happ.
  { intros a ms1 ms2. unfold batch_of.
    by rewrite filter_app, fmap_app, list_to_set_app_L. }
  split.
  - intros ms1 ms2. rewrite !check_members_batches. simpl. fold p.
    by rewrite !Happ.
  - intros ms ms' Hperm. rewrite !check_members_batches. fold p.
    assert (∀ a, batch_of p now a ms = batch_of p now a ms') as Hsame.
    { intros a. apply set_eq. intros id. rewrite !elem_of_batch_of.
      split; intros (m & Hm & ?); exists m; (split; [|done]).
      - by rewrite <- Hperm.
      - by rewrite Hperm. }
    by rewrite !Hsame.
Qed.

Lemma check_members_order_free_witness :
  members sample_guild ≡ₚ reverse (members sample_guild)
  ∧ check_members_loop 1 2 (timedelta_days 100) (members sample_guild)
    = check_members_loop 1 2 (timedelta_days 100) (reverse (members sample_guild)).
Proof.
  assert (members sample_guild ≡ₚ reverse (members sample_guild)) as Hperm
    by (symmetry; apply reverse_Permutation).
  split; [exact Hperm|].
  exact (proj2 (check_members_order_free 1 2 (timedelta_days 100)) _ _ Hperm).
Defined.

(** ** The gate: what it leaves alone, and how it fails *)

(** X4. Whatever the environment answers, [_verify_kick] kicks nobody,
    gives no role, deletes no message, reports nothing and leaves the
    cache as it was; it posts at most one prompt, and waits at most once,
    always for 300 seconds. *)
Theorem verify_kick_frame (constants : Constants) (env : Env) (threshold : Q)
    (n : nat) (s : State) :
  let run := _verify_kick constants env threshold n s in
  let evs := events_of (_verify_kick constants env threshold n) s in
  reminder_cache run.2 = reminder_cache s
  ∧ trace run.2 = trace s ++ evs
  ∧ kicks evs = [] ∧ role_grants evs = [] ∧ deletions evs = []
  ∧ cache_writes evs = [] ∧ reports evs = []
  ∧ (length (sends evs) ≤ 1)%nat
  ∧ (waits evs = [] ∨ ∃ answer, waits evs = [(300, answer)]).
Proof.
  intros run evs.
  destruct (verify_kick_path constants env threshold n s) as (r & evs' & Hrun & Hpath).
  assert (evs = evs') as <- by (by eapply events_of_extend).
  subst run. rewrite Hrun. simpl. clear Hrun. clearbody evs.
  split; [done|]. split; [done|].
  destruct Hpath as [ | | | | |pct msg [[]|st] | |pct msg choice [[]|st] ];
    repeat split; simpl; try done; try lia; eauto.
Qed.

(** X5. [_verify_kick] never raises [asyncio.TimeoutError]: a wait that
    times out makes it return [False]. When it raises an
    [HTTPException], the failed call is the last thing it did. When
    clearing the reactions fails, it raises whatever the staff answered,
    an approval included, and the prompt is not edited. *)
Theorem verify_kick_errors (constants : Constants) (env : Env) (threshold : Q)
    (n : nat) (s : State) :
  let run := _verify_kick constants env threshold n s in
  let evs := events_of (_verify_kick constants env threshold n) s in
  run.1 ≠ Raise TimeoutError
  ∧ (∀ code, run.1 = Raise (HTTPException code) ↔
             last evs ≫= call_failed = Some code)
  ∧ (∀ msg code, EvClearReactions msg (Failed code) ∈ evs →
       run.1 = Raise (HTTPException code) ∧ edits evs = []).
Proof.
  intros run evs.
  destruct (verify_kick_path constants env threshold n s) as (r & evs' & Hrun & Hpath).
  assert (evs = evs') as <- by (by eapply events_of_extend).
  subst run. rewrite Hrun. simpl. clear Hrun. clearbody evs.
  destruct Hpath as [ | | | | |pct msg [[]|st] | |pct msg choice [[]|st] ];
    (split; [done|]); (split; [intros code; simpl; split; intros; by simplify_eq|]);
    intros msg' code Hin; unfold gate_entry, gate_prompt in Hin; simpl in Hin;
    repeat (apply elem_of_cons in Hin as [Hin|Hin]; [by simplify_eq|]);
    by apply elem_of_nil in Hin.
Qed.

Lemma verify_kick_errors_witness :
  let env :=
    {| env_guild := λ _, sample_guild;
       env_utcnow := λ _, timedelta_days 100;
       env_send := λ _ _ _, Done 700;
       env_add_reaction := λ _ _ _, Done ();
       env_clear_reactions := λ _ _, Failed 500;
       env_edit := λ _ _ _, Done ();
       env_reactions := λ _ _, [approval];
       env_kick := λ _ _, Done ();
       env_add_roles := λ _ _ _, Done ();
       env_delete_message := λ _ _ _, Done () |} in
  let gate := _verify_kick sample_constants env KICK_CONFIRMATION_THRESHOLD 1 in
  EvClearReactions 700 (Failed 500) ∈ events_of gate initial_state
  ∧ waits (events_of gate initial_state) = [(300, Some approval)]
  ∧ (gate initial_state).1 = Raise (HTTPException 500)
  ∧ edits (events_of gate initial_state) = [].
Proof.
  intros env gate.
  assert (EvClearReactions 700 (Failed 500) ∈ events_of gate initial_state) as Hin.
  { vm_compute. repeat (first [apply list_elem_of_here | apply list_elem_of_further]). }
  split; [exact Hin|]. split; [vm_compute; reflexivity|].
  destruct (verify_kick_errors sample_constants env KICK_CONFIRMATION_THRESHOLD 1
              initial_state) as (_ & _ & Hclear).
  exact (Hclear 700 500 Hin).
Defined.

(** ** The cycle: the warning batch, the report, the errors *)

Lemma role_phase_grants (constants : Constants) (env : Env) (s : State) :
  ∃ r evs,
    role_phase constants env s = (r, extend s evs)
    ∧ (role_grants evs).*1
      = (λ m, (m, Roles_unverified constants))
        <$> elements (fst (cycle_batches constants env s))
    ∧ deletions evs = [] ∧ cache_writes evs = [] ∧ sends evs = [].
Proof.
  unfold cycle_batches, role_phase, _check_members, extend. unfold_ops. tidy.
  destruct (check_members_loop _ _ _ _) as [for_role for_kick]. tidy.
  case_bool_decide as Hrole; tidy.
  - eexists _, _. split; [reflexivity|]. subst for_role.
    by rewrite elements_empty.
  - rewrite give_role_run. tidy.
    eexists _, _. split; [reflexivity|].
    set (answers := batch_answers _ _ _ _).
    assert (length answers = length (elements for_role)) as Hlen
      by apply batch_answers_length.
    unfold role_grants, deletions, cache_writes, sends.
    rewrite !omap_cons_event, !omap_app. simpl.
    fold (role_grants (zip_with (λ m, EvAddRoles m (Roles_unverified constants))
                         (elements for_role) answers)).
    rewrite role_grants_zip_with, !omap_zip_with_none by done.
    split; [|by case_bool_decide].
    rewrite fmap_app.
    assert (((λ p : Snowflake * http (), (p.1, Roles_unverified constants, p.2))
             <$> zip (elements for_role) answers).*1
            = (λ m, (m, Roles_unverified constants)) <$> elements for_role) as ->.
    { rewrite <- list_fmap_compose.
      rewrite <- (fst_zip (elements for_role) answers) at 2 by lia.
      by rewrite <- list_fmap_compose. }
    case_bool_decide; by rewrite app_nil_r.
Qed.

(** The second half of a cycle, after the events of the first. *)
Lemma cycle_tail (constants : Constants) (env : Env) (threshold : Q) (s : State) :
  let for_kick := snd (cycle_batches constants env s) in
  let s1 := (role_phase constants env s).2 in
  let gate := _verify_kick constants env threshold (size for_kick) in
  let cycle := update_unverified_members constants env threshold in
  ∃ rest,
    cycle s = ((cycle s).1, extend s (events_of (role_phase constants env) s ++ rest))
    ∧ role_grants rest = [] ∧ deletions rest = [] ∧ cache_writes rest = []
    ∧ match (cycle s).1 with
      | Ok _ => length (reports rest) = 1%nat
      | Raise e =>
        reports rest = [] ∧ kicks rest = []
        ∧ for_kick ≠ ∅ ∧ (gate s1).1 = Raise e
      end.
Proof.
  intros for_kick s1 gate cycle.
  destruct (cycle_run constants env threshold s)
    as (role_report & evs_role & Hs1 & _ & _ & _ & Hcycle).
  fold for_kick s1 gate cycle in Hs1, Hcycle.
  assert (events_of (role_phase constants env) s = evs_role) as ->.
  { apply events_of_app. fold s1. by rewrite Hs1. }
  case_decide as Hempty.
  { eexists. rewrite Hcycle. split; [reflexivity|]. done. }
  destruct Hcycle as (evs_gate & Hgate & _ & _ & _ & Hcycle).
  destruct (verify_kick_path constants env threshold (size for_kick) s1)
    as (r & evs' & Hrun & Hpath).
  fold gate in Hrun.
  assert (evs' = evs_gate) as ->.
  { rewrite Hrun in Hgate. simpl in Hgate. injection Hgate as Hgate.
    by apply app_inv_head in Hgate. }
  destruct (gate_path_quiet _ _ _ _ _ _ Hpath) as (Hkg & Hrg & Hrepg & _).
  assert (deletions evs_gate = [] ∧ cache_writes evs_gate = []) as [Hdg Hcg].
  { clear -Hpath.
    by destruct Hpath as [ | | | | |pct msg [[]|st] | |pct msg choice [[]|st] ]. }
  unfold role_grants, deletions, cache_writes, reports, kicks in *.
  destruct (gate s1).1 as [[]|e] eqn:Hres.
  - destruct Hcycle as (answers & Hlen & Hcycle).
    eexists. rewrite Hcycle. split; [reflexivity|]. simpl.
    rewrite !omap_app, !omap_cons_event, !omap_app. simpl.
    rewrite Hrg, Hdg, Hcg, Hrepg, !omap_zip_with_none by done.
    by case_bool_decide.
  - eexists. rewrite Hcycle. split; [reflexivity|]. simpl.
    rewrite !omap_app. simpl. by rewrite Hrg, Hdg, Hcg, Hrepg.
  - exists evs_gate. rewrite Hcycle. split; [reflexivity|]. simpl.
    by rewrite Hrg, Hdg, Hcg, Hrepg, Hkg.
Qed.

(** X6. In a cycle every member of the warning batch, and nobody else, is
    sent one [add_roles] with the Unverified role. All of that happens in
    the first half of the cycle, before the removal batch is looked at:
    it does not depend on what the gate does, or on whether it raises. *)
Theorem cycle_warning_batch (constants : Constants) (env : Env) (threshold : Q)
    (s : State) :
  let for_role := fst (cycle_batches constants env s) in
  let cycle := update_unverified_members constants env threshold in
  let evs := events_of cycle s in
  (role_grants evs).*1 = (λ m, (m, Roles_unverified constants)) <$> elements for_role
  ∧ ∃ rest, evs = events_of (role_phase constants env) s ++ rest
            ∧ role_grants rest = []
            ∧ gate_calls (events_of (role_phase constants env) s) = [].
Proof.
  intros for_role cycle evs.
  destruct (cycle_tail constants env threshold s) as (rest & Hcycle & Hrg & _).
  fold cycle in Hcycle.
  destruct (role_phase_grants constants env s) as (r & evs_role & Hrole & Hgrants & _).
  fold for_role in Hgrants.
  destruct (role_phase_run constants env s) as (rr & evs_role' & Hrole' & _ & Hgc & _).
  assert (events_of (role_phase constants env) s = evs_role) as Hevs_role
    by (by eapply events_of_extend).
  assert (evs_role' = evs_role) as ->.
  { rewrite Hrole in Hrole'. injection Hrole' as _ Htr. by apply app_inv_head in Htr. }
  rewrite Hevs_role in Hcycle |- *.
  assert (evs = evs_role ++ rest) as -> by (by eapply events_of_extend).
  split; [|by exists rest].
  unfold role_grants in *. by rewrite omap_app, Hrg, app_nil_r.
Qed.

(** X7. A cycle never touches the reminder cache and deletes no message.
    It returns normally exactly when it has sent its report, once. It
    raises only when the removal batch is not empty and [_verify_kick]
    raised, with that exception: then nothing is reported and nobody is
    kicked. The exception is never [asyncio.TimeoutError]. *)
Theorem cycle_report_or_error (constants : Constants) (env : Env) (threshold : Q)
    (s : State) :
  let for_kick := snd (cycle_batches constants env s) in
  let s1 := (role_phase constants env s).2 in
  let gate := _verify_kick constants env threshold (size for_kick) in
  let cycle := update_unverified_members constants env threshold in
  let evs := events_of cycle s in
  reminder_cache (cycle s).2 = reminder_cache s
  ∧ deletions evs = [] ∧ cache_writes evs = []
  ∧ ((cycle s).1 = Ok () ↔ length (reports evs) = 1%nat)
  ∧ (∀ e, (cycle s).1 = Raise e →
          reports evs = [] ∧ kicks evs = []
          ∧ for_kick ≠ ∅ ∧ (gate s1).1 = Raise e ∧ e ≠ TimeoutError).
Proof.
  intros for_kick s1 gate cycle evs.
  destruct (cycle_tail constants env threshold s)
    as (rest & Hcycle & _ & Hdel & Hcw & Hres).
  fold for_kick s1 gate cycle in Hcycle, Hres.
  destruct (role_phase_grants constants env s)
    as (r & evs_role & Hrole & _ & Hdel_r & Hcw_r & _).
  destruct (role_phase_run constants env s)
    as (rr & evs_role' & Hrole' & Hk_r & _ & Hrep_r).
  assert (events_of (role_phase constants env) s = evs_role) as Hevs_role
    by (by eapply events_of_extend).
  assert (evs_role' = evs_role) as ->.
  { rewrite Hrole in Hrole'. injection Hrole' as _ Htr. by apply app_inv_head in Htr. }
  rewrite Hevs_role in Hcycle.
  assert (evs = evs_role ++ rest) as -> by (by eapply events_of_extend).
  assert (reports (evs_role ++ rest) = reports rest) as Hrep
    by (unfold reports in *; by rewrite omap_app, Hrep_r).
  assert (kicks (evs_role ++ rest) = kicks rest) as Hk
    by (unfold kicks in *; by rewrite omap_app, Hk_r).
  split; [by rewrite Hcycle|].
  split; [unfold deletions in *; by rewrite omap_app, Hdel_r, Hdel|].
  split; [unfold cache_writes in *; by rewrite omap_app, Hcw_r, Hcw|].
  rewrite Hrep, Hk. clear Hcycle.
  destruct (cycle s).1 as [[]|e].
  - split; [done|]. by intros e.
  - destruct Hres as (Hrep' & Hk' & Hne & Hgate).
    split; [rewrite Hrep'; split; [done|discriminate]|].
    intros e' [= <-]. repeat split; try done.
    intros ->.
    destruct (verify_kick_path constants env threshold (size for_kick) s1)
      as (r' & evs' & Hrun & Hpath).
    fold gate in Hrun. rewrite Hrun in Hgate. simpl in Hgate. subst r'.
    by inversion Hpath as [ | | | | |? ? [[]|?] | |? ? ? [[]|?] ].
Qed.

Lemma cycle_report_or_error_witness :
  let env := with_send_failure 500 (sample_env [] []) in
  let cycle := update_unverified_members sample_constants env KICK_CONFIRMATION_THRESHOLD in
  (cycle initial_state).1 = Raise (HTTPException 500)
  ∧ role_grants (events_of cycle initial_state) = [(11, 1, Done ())]
  ∧ reports (events_of cycle initial_state) = []
  ∧ kicks (events_of cycle initial_state) = [].
Proof.
  intros env cycle.
  assert ((cycle initial_state).1 = Raise (HTTPException 500)) as Hraise
    by (vm_compute; reflexivity).
  split; [exact Hraise|]. split; [vm_compute; reflexivity|].
  destruct (cycle_report_or_error sample_constants env KICK_CONFIRMATION_THRESHOLD
              initial_state) as (_ & _ & _ & _ & Herr).
  destruct (Herr _ Hraise) as (Hrep & Hk & _). split; [exact Hrep|exact Hk].
Defined.

(** ** The reminder, fire after fire *)

Lemma ping_unverified_reads (constants : Constants) (env : Env) (s : State) :
  let ping := ping_unverified constants env in
  let verification := Channels_verification constants in
  deletions (events_of ping s)
  = match reminder_cache s !! "last_reminder" with
    | Some last_reminder => [(verification, last_reminder)]
    | None => []
    end
  ∧ match (ping s).1 with
    | Ok _ =>
      ∃ new_reminder,
        sends (events_of ping s) = [(verification, REMINDER_MESSAGE, Done new_reminder)]
        ∧ reminder_cache (ping s).2 = <["last_reminder" := new_reminder]> (reminder_cache s)
    | Raise e =>
      ∃ status,
        e = HTTPException status
        ∧ sends (events_of ping s) = [(verification, REMINDER_MESSAGE, Failed status)]
        ∧ reminder_cache (ping s).2 = reminder_cache s
    end.
Proof.
  intros ping verification.
  pose proof (ping_unverified_run constants env s) as Hrun. cbv zeta in Hrun.
  fold ping verification in Hrun.
  destruct (env_send env _ verification REMINDER_MESSAGE) as [new|status].
  - rewrite (events_of_app ping s _ ltac:(rewrite Hrun; reflexivity)), Hrun. simpl.
    destruct (reminder_cache s !! "last_reminder"); split; try done; by exists new.
  - rewrite (events_of_app ping s _ ltac:(rewrite Hrun; reflexivity)), Hrun. simpl.
    destruct (reminder_cache s !! "last_reminder"); split; try done; by exists status.
Qed.

(** X8. Two fires of [ping_unverified] in a row, the first having
    succeeded: the second asks for the deletion of exactly the notice the
    first sent. If the second succeeds, the cache holds the id of the
    second notice; if its send fails, the cache still holds the id of the
    first notice, whose deletion was asked for. With nothing in the
    cache, a fire asks for no deletion. *)
Theorem ping_twice (constants : Constants) (env : Env) (s : State) :
  let ping := ping_unverified constants env in
  let verification := Channels_verification constants in
  (reminder_cache s !! "last_reminder" = None → deletions (events_of ping s) = [])
  ∧ ((ping s).1 = Ok () →
     ∃ first_notice,
       sends (events_of ping s) = [(verification, REMINDER_MESSAGE, Done first_notice)]
       ∧ reminder_cache (ping s).2 !! "last_reminder" = Some first_notice
       ∧ deletions (events_of ping (ping s).2) = [(verification, first_notice)]
       ∧ match (ping (ping s).2).1 with
         | Ok _ =>
           ∃ second_notice,
             sends (events_of ping (ping s).2)
             = [(verification, REMINDER_MESSAGE, Done second_notice)]
             ∧ reminder_cache (ping (ping s).2).2 !! "last_reminder" = Some second_notice
         | Raise _ =>
           reminder_cache (ping (ping s).2).2 !! "last_reminder" = Some first_notice
         end).
Proof.
  intros ping verification.
  destruct (ping_unverified_reads constants env s) as [Hdel Hfirst].
  fold ping verification in Hdel, Hfirst.
  split; [intros Hnone; by rewrite Hdel, Hnone|].
  intros Hok. rewrite Hok in Hfirst. destruct Hfirst as (first_notice & Hsent & Hcache).
  exists first_notice. split; [done|].
  assert (reminder_cache (ping s).2 !! "last_reminder" = Some first_notice) as Hstored
    by (rewrite Hcache; apply lookup_insert_eq).
  split; [done|].
  destruct (ping_unverified_reads constants env (ping s).2) as [Hdel' Hsecond].
  fold ping verification in Hdel', Hsecond.
  split; [by rewrite Hdel', Hstored|].
  destruct (ping (ping s).2).1 as [[]|e].
  - destruct Hsecond as (second_notice & Hsent' & Hcache').
    exists second_notice. split; [done|]. rewrite Hcache'. apply lookup_insert_eq.
  - destruct Hsecond as (status & _ & _ & Hcache'). by rewrite Hcache'.
Qed.

Lemma ping_twice_witness :
  let ping := ping_unverified sample_constants (sample_env [] []) in
  (ping initial_state).1 = Ok ()
  ∧ ∃ first_notice,
      reminder_cache (ping initial_state).2 !! "last_reminder" = Some first_notice
      ∧ deletions (events_of ping (ping initial_state).2) = [(51, first_notice)].
Proof.
  intros ping.
  assert ((ping initial_state).1 = Ok ()) as Hok by (vm_compute; reflexivity).
  split; [exact Hok|].
  destruct (ping_twice sample_constants (sample_env [] []) initial_state) as [_ Htwice].
  destruct (Htwice Hok) as (first_notice & _ & Hstored & Hdel & _).
  exists first_notice. split; [exact Hstored|exact Hdel].
Defined.

Lemma total_seconds_le (a b : timedelta) :
  a <= b → (total_seconds a <= total_seconds b)%Q.
Proof.
  intros Hle. unfold total_seconds, Qdiv, Qmult, Qinv, inject_Z, Qle; simpl. lia.
Qed.

Lemma total_seconds_zero (a : timedelta) :
  (total_seconds a == 0)%Q ↔ a = 0.
Proof.
  unfold total_seconds, Qdiv, Qmult, Qinv, inject_Z, Qeq; simpl.
  split; intros; lia.
Qed.

Lemma before_first_ping_slept (env : Env) (s : State) :
  (slept (events_of (_before_first_ping env) s)
   == total_seconds
        (computeInitialDelay (reminder_cache s !! "last_reminder")
           (timedelta_hours REMINDER_FREQUENCY) (env_utcnow env (trace s))))%Q.
Proof.
  pose proof (before_first_ping_run env s) as Hrun.
  destruct (reminder_cache s !! "last_reminder") as [id|]; cbv zeta in Hrun.
  - rewrite (events_of_app _ s _ ltac:(rewrite Hrun; reflexivity)).
    unfold slept. simpl. rewrite Qplus_0_r. apply py_max0_total_seconds.
  - rewrite (events_of_app (_before_first_ping env) s [EvLog TRACE ReminderNotCached])
      by (by rewrite Hrun).
    reflexivity.
Qed.

(** X9. The time [_before_first_ping] sleeps is never negative, and is at
    most 28 hours (100800 seconds) unless the stored id is newer than the
    clock. It does not sleep at all exactly when no id is stored or the
    stored id is at least 28 hours old. *)
Theorem first_ping_sleep_bounds (env : Env) (s : State) :
  let last := reminder_cache s !! "last_reminder" in
  let now := env_utcnow env (trace s) in
  let asleep := slept (events_of (_before_first_ping env) s) in
  (0 <= asleep)%Q
  ∧ (∀ id, last = Some id → snowflake_time id <= now → (asleep <= 100800)%Q)
  ∧ ((asleep == 0)%Q ↔
     last = None
     ∨ ∃ id, last = Some id
             ∧ now - snowflake_time id >= timedelta_hours REMINDER_FREQUENCY).
Proof.
  intros last now asleep.
  pose proof (before_first_ping_slept env s) as Hslept.
  fold last now asleep in Hslept.
  split; [|split].
  - rewrite Hslept. apply Qle_trans with (total_seconds 0).
    + vm_compute. discriminate.
    + apply total_seconds_le. destruct last; simpl; lia.
  - intros id Hid Hpast. rewrite Hslept, Hid. simpl.
    apply Qle_trans with (total_seconds (timedelta_hours REMINDER_FREQUENCY)).
    + apply total_seconds_le. unfold timedelta_hours, REMINDER_FREQUENCY in *. lia.
    + vm_compute. discriminate.
  - rewrite Hslept, total_seconds_zero.
    destruct last as [id|]; simpl.
    + split.
      * intros Hzero. right. exists id. split; [done|]. lia.
      * intros [?|(id' & [= <-] & Hold)]; [done|]. lia.
    + split; [by left|done].
Qed.

Lemma first_ping_sleep_bounds_witness :
  let id := Z.shiftl 1000 22 in
  let env := with_clock 1420167601000000 (sample_env [] []) in
  reminder_cache (reminded id) !! "last_reminder" = Some id
  ∧ snowflake_time id <= env_utcnow env (trace (reminded id))
  ∧ (slept (events_of (_before_first_ping env) (reminded id)) <= 100800)%Q.
Proof.
  intros id env.
  assert (reminder_cache (reminded id) !! "last_reminder" = Some id) as Hid
    by (vm_compute; reflexivity).
  assert (snowflake_time id <= env_utcnow env (trace (reminded id))) as Hpast
    by (vm_compute; discriminate).
  split; [exact Hid|]. split; [exact Hpast|].
  destruct (first_ping_sleep_bounds env (reminded id)) as (_ & Hmost & _).
  exact (Hmost id Hid Hpast).
Defined.

(** X10. A restart after a fire that succeeded: [_before_first_ping] finds
    the id that fire stored and sleeps once, for what is left of the 28
    hours since the notice just sent was created. *)
Theorem restart_after_ping (constants : Constants) (env : Env) (s : State) :
  let fired := ping_unverified constants env s in
  let restart := _before_first_ping env in
  fired.1 = Ok () →
  ∃ notice,
    sends (events_of (ping_unverified constants env) s)
    = [(Channels_verification constants, REMINDER_MESSAGE, Done notice)]
    ∧ (restart fired.2).1 = Ok ()
    ∧ sleeps (events_of restart fired.2)
      = [py_max0 (total_seconds
                    (timedelta_hours REMINDER_FREQUENCY
                     - (env_utcnow env (trace fired.2) - snowflake_time notice)))].
Proof.
  intros fired restart Hok.
  destruct (ping_unverified_reads constants env s) as [_ Hfired].
  fold fired in Hfired. rewrite Hok in Hfired.
  destruct Hfired as (notice & Hsent & Hcache).
  exists notice. split; [done|].
  pose proof (before_first_ping_run env fired.2) as Hrun. fold restart in Hrun.
  rewrite Hcache, lookup_insert_eq in Hrun. cbv zeta in Hrun.
  rewrite (events_of_app restart _ _ ltac:(rewrite Hrun; reflexivity)).
  by rewrite Hrun.
Qed.

Lemma restart_after_ping_witness :
  let ping := ping_unverified sample_constants (sample_env [] []) in
  (ping initial_state).1 = Ok ()
  ∧ ∃ notice,
      sends (events_of ping initial_state) = [(51, REMINDER_MESSAGE, Done notice)]
      ∧ length (sleeps (events_of (_before_first_ping (sample_env [] []))
                          (ping initial_state).2)) = 1%nat.
Proof.
  intros ping.
  assert ((ping initial_state).1 = Ok ()) as Hok by (vm_compute; reflexivity).
  split; [exact Hok|].
  destruct (restart_after_ping sample_constants (sample_env [] []) initial_state Hok)
    as (notice & Hsent & _ & Hsleep).
  exists notice. split; [exact Hsent|]. subst ping.
  exact (f_equal length Hsleep).
Defined.

(** ** The gate and the size of the batch *)

(** X11. In a guild of a given size, a batch no larger than one that is
    approved at once is approved at once. *)
Theorem verify_kick_smaller_batch (constants : Constants) (env : Env) (threshold : Q)
    (n m : nat) (s : State) :
  let gate := _verify_kick constants env threshold in
  (m ≤ n)%nat →
  guild_size env s m = guild_size env s n →
  decision_of (gate n s).1 (events_of (gate n) s) = Some AutoApproved →
  decision_of (gate m s).1 (events_of (gate m) s) = Some AutoApproved.
Proof.
  intros gate Hle Hsize Hauto.
  destruct (verify_kick_path constants env threshold n s) as (r & evs & Hrun & Hpath).
  destruct (verify_kick_path constants env threshold m s) as (r' & evs' & Hrun' & Hpath').
  subst gate.
  rewrite (events_of_extend _ _ _ _ Hrun), Hrun in Hauto. simpl in Hauto.
  rewrite (events_of_extend _ _ _ _ Hrun'), Hrun'. simpl.
  apply (gate_path_auto _ _ _ _ _ _ Hpath) in Hauto as [HN Hlt].
  apply (gate_path_auto _ _ _ _ _ _ Hpath'). rewrite Hsize.
  split; [done|].
  eapply Qle_lt_trans; [|exact Hlt].
  apply Qmult_le_compat_r.
  - rewrite <- Zle_Qle. lia.
  - apply Qinv_le_0_compat. change 0%Q with (inject_Z 0). rewrite <- Zle_Qle. lia.
Qed.

Lemma verify_kick_smaller_batch_witness :
  let env := with_guild crowd (sample_env [] []) in
  let gate := _verify_kick sample_constants env (1 # 10) in
  (5 ≤ 50)%nat
  ∧ guild_size env initial_state 5%nat = guild_size env initial_state 50%nat
  ∧ decision_of (gate 50%nat initial_state).1 (events_of (gate 50%nat) initial_state)
    = Some AutoApproved
  ∧ decision_of (gate 5%nat initial_state).1 (events_of (gate 5%nat) initial_state)
    = Some AutoApproved.
Proof.
  intros env gate.
  assert (5 ≤ 50)%nat as Hle by lia.
  assert (guild_size env initial_state 5%nat = guild_size env initial_state 50%nat) as Hsize
    by (vm_compute; reflexivity).
  assert (decision_of (gate 50%nat initial_state).1 (events_of (gate 50%nat) initial_state)
          = Some AutoApproved) as Hauto by (vm_compute; reflexivity).
  split; [exact Hle|]. split; [exact Hsize|]. split; [exact Hauto|].
  exact (verify_kick_smaller_batch sample_constants env (1 # 10) 50%nat 5%nat initial_state
           Hle Hsize Hauto).
Defined.

(** ** Listeners and commands *)

Ltac unfold_commands :=
  unfold note, member_send, ctx_send, message_delete, message_delete_later,
    add_roles, remove_roles, send_mod_alert, mod_log_ignore, bot_get_context,
    suppress, try_except, finally, request, effect,
    mbind, L_bind, mret, L_ret in *.

Lemma effects_of_app {A} (m : L A) (tr fx : list Effect) :
  (m tr).2 = tr ++ fx → effects_of m tr = fx.
Proof. intros H. unfold effects_of. rewrite H. by rewrite drop_app_length. Qed.

Lemma find_role_spec (wanted : Snowflake) (roles : list Snowflake) :
  find_role wanted roles false = bool_decide (wanted ∈ roles).
Proof.
  induction roles as [|role rest IH]; cbn [find_role].
  - symmetry. apply bool_decide_eq_false_2. by intros ?%elem_of_nil.
  - destruct (decide (role = wanted)) as [->|Hne].
    + rewrite bool_decide_eq_true_2 by done.
      symmetry. apply bool_decide_eq_true_2. by left.
    + rewrite bool_decide_eq_false_2, IH by done.
      apply bool_decide_ext. rewrite elem_of_cons. naive_solver.
Qed.

(** X12. [on_member_join] does nothing for a member of another guild. For
    a member of the guild it sends the welcome message once; the listener
    returns normally when the message is delivered or refused with 403
    (direct messages closed), and raises on any other failure. *)
Theorem on_member_join_welcome (more : CommandConstants) (discord : Discord)
    (guild : Snowflake) (member : Member) (tr : list Effect) :
  let run := on_member_join more discord guild member tr in
  let fx := effects_of (on_member_join more discord guild member) tr in
  (guild ≠ Guild_id more → run = (Ok (), tr))
  ∧ (guild = Guild_id more →
       ∃ answer,
         fx = [FxLog TRACE (SendingOnJoin (member_id member));
               FxDirectMessage (member_id member) ON_JOIN_MESSAGE answer]
         ∧ run.1 = match answer with
                   | Done _ => Ok ()
                   | Failed status =>
                     if decide (status = 403) then Ok ()
                     else Raise (HTTPException status)
                   end).
Proof.
  intros run fx. subst run fx. unfold on_member_join. split.
  - intros Hother. by rewrite bool_decide_eq_true_2.
  - intros Hours. rewrite bool_decide_eq_false_2 by (by intros ?).
    unfold_commands. unfold Forbidden.
    destruct (answer_dm discord _ _ _) as [[]|status] eqn:Hdm; simpl.
    + exists (Done ()). split; [|done].
      apply effects_of_app. unfold_commands. rewrite Hdm. simpl.
      by rewrite <- app_assoc.
    + exists (Failed status). split.
      * apply effects_of_app. unfold_commands. rewrite Hdm. simpl.
        unfold Forbidden. case_bool_decide; simpl; by rewrite <- app_assoc.
      * case_bool_decide; by case_decide.
Qed.

Lemma on_member_join_welcome_witness :
  let newcomer := sample_member 20 100 [2] in
  (on_member_join sample_more (sample_discord 403 None) 9 newcomer []).1 = Ok ()
  ∧ (on_member_join sample_more (sample_discord 500 None) 9 newcomer []).1
    = Raise (HTTPException 500)
  ∧ on_member_join sample_more (sample_discord 500 None) 8 newcomer [] = (Ok (), []).
Proof.
  intros newcomer.
  destruct (on_member_join_welcome sample_more (sample_discord 403 None) 9 newcomer [])
    as [_ Hours].
  destruct (on_member_join_welcome sample_more (sample_discord 500 None) 8 newcomer [])
    as [Hother _].
  split; [vm_compute; reflexivity|]. split; [vm_compute; reflexivity|].
  apply Hother. vm_compute. discriminate.
Defined.

Section OnMessage.
Variables (constants : Constants) (more : CommandConstants) (discord : Discord).
Variables (message : Message) (tr : list Effect).

Let author := message_author message.
Let listener := on_message constants more discord message.

(** A message the listener does not look at. *)
Lemma on_message_skipped :
  message_channel message ≠ Channels_verification constants
  ∨ message_content message = REMINDER_MESSAGE_stripped more →
  listener tr = (Ok (), tr).
Proof.
  subst listener. unfold on_message. intros [Hch|Htext].
  - by rewrite bool_decide_eq_true_2.
  - case_bool_decide; [done|]. by rewrite bool_decide_eq_true_2.
Qed.

(** A message of a bot. *)
Lemma on_message_of_bot :
  message_channel message = Channels_verification constants →
  message_content message ≠ REMINDER_MESSAGE_stripped more →
  member_bot author = true →
  listener tr = (Ok (), tr ++ [FxDeleteLater (message_id message) BOT_MESSAGE_DELETE_DELAY]).
Proof.
  subst listener author. unfold on_message. intros Hch Htext Hbot.
  rewrite bool_decide_eq_false_2 by (by intros ?).
  rewrite bool_decide_eq_false_2 by done.
  by rewrite Hbot.
Qed.

(** A message of a human, by cases. *)
Lemma on_message_of_human :
  message_channel message = Channels_verification constants →
  message_content message ≠ REMINDER_MESSAGE_stripped more →
  member_bot author = false →
  let command := get_context discord (tr ++ mention_alert message) message in
  ∃ fx,
    listener tr = ((listener tr).1, tr ++ mention_alert message ++ fx)
    ∧ if decide (command = Some "accept") then
        (listener tr).1 = Ok () ∧ fx = []
      else if decide (Roles_verified more ∈ member_roles author) then
        (listener tr).1 = Ok ()
        ∧ fx = [FxLog INFO (AlreadyVerified (member_id author) (message_content message))]
      else
        ∃ reply,
          match reply with
          | Failed status =>
            (listener tr).1 = Raise (HTTPException status)
            ∧ fx = instructions message reply None
          | Done _ =>
            ∃ deleted,
              fx = instructions message reply (Some deleted)
              ∧ (listener tr).1 = match deleted with
                                  | Done _ => Ok ()
                                  | Failed status =>
                                    if decide (status = 404) then Ok ()
                                    else Raise (HTTPException status)
                                  end
          end.
Proof.
  subst listener author. intros Hch Htext Hbot command. subst command.
  unfold on_message, mention_alert, instructions.
  rewrite bool_decide_eq_false_2 by (by intros ?).
  rewrite bool_decide_eq_false_2 by done.
  rewrite Hbot. unfold ctx_author, ctx_channel. unfold_commands. unfold NotFound.
  assert (existsb (λ r, bool_decide (r = Roles_verified more))
            (member_roles (message_author message))
          = bool_decide (Roles_verified more ∈ member_roles (message_author message)))
    as Hany.
  { destruct (decide (Roles_verified more ∈ member_roles (message_author message)))
      as [Hver|Hver].
    - rewrite (bool_decide_eq_true_2 _ Hver).
      apply existsb_exists. exists (Roles_verified more).
      split; [by apply list_elem_of_In|by apply bool_decide_eq_true_2].
    - rewrite (bool_decide_eq_false_2 _ Hver).
      apply not_true_is_false. intros (r & Hin & Heq)%existsb_exists.
      apply bool_decide_eq_true in Heq as ->. by apply Hver, list_elem_of_In. }
  destruct (bool_decide (message_mentions message ≠ [] ∨ _)); simpl;
    rewrite <- ?app_assoc, ?app_nil_r; simpl; rewrite Hany.
  all: match goal with |- context [get_context discord ?t message] =>
         set (command := get_context discord t message) end.
  all: destruct (decide (command = Some "accept")) as [Hacc|Hacc];
    [ rewrite (bool_decide_eq_true_2 _ Hacc); exists []; simpl;
      by rewrite ?app_nil_r
    | rewrite (bool_decide_eq_false_2 _ Hacc) ].
  all: destruct (decide (Roles_verified more ∈ member_roles (message_author message)))
      as [Hver|Hver];
    [ rewrite (bool_decide_eq_true_2 _ Hver); simpl; eexists;
      rewrite <- ?app_assoc; simpl; split; [reflexivity|done]
    | rewrite (bool_decide_eq_false_2 _ Hver); simpl ].
  all: destruct (answer_reply discord _ _ _) as [[]|status]; simpl;
    [ | eexists; rewrite <- ?app_assoc; simpl; split; [reflexivity|];
        by exists (Failed status) ].
  all: destruct (answer_delete discord _ _) as [[]|status]; simpl.
  all: try (eexists; rewrite <- ?app_assoc; simpl; split; [reflexivity|];
            exists (Done ()); by exists (Done ())).
  all: destruct (decide (status = 404)) as [H404|H404];
    [ rewrite (bool_decide_eq_true_2 _ H404)
    | rewrite (bool_decide_eq_false_2 _ H404) ];
    simpl; eexists; rewrite <- ?app_assoc; simpl; (split; [reflexivity|]);
    exists (Done ()); exists (Failed status); (split; [reflexivity|]).
  all: by (rewrite decide_True by done) || by (rewrite decide_False by done).
Qed.
End OnMessage.

(** X13. [on_message] does nothing at all with a message outside the
    verification channel, or with the text of the bot's own reminder. A
    message of a bot in that channel is only handed over for deletion
    after 10 seconds: nothing is sent, no alert is raised, whatever the
    message mentions. *)
Theorem on_message_guards (constants : Constants) (more : CommandConstants)
    (discord : Discord) (message : Message) (tr : list Effect) :
  let run := on_message constants more discord message tr in
  (message_channel message ≠ Channels_verification constants
   ∨ message_content message = REMINDER_MESSAGE_stripped more →
   run = (Ok (), tr))
  ∧ (message_channel message = Channels_verification constants →
     message_content message ≠ REMINDER_MESSAGE_stripped more →
     member_bot (message_author message) = true →
     run = (Ok (), tr ++ [FxDeleteLater (message_id message) 10])).
Proof.
  intros run. split.
  - apply on_message_skipped.
  - apply on_message_of_bot.
Qed.

Lemma on_message_guards_witness :
  let spam :=
    {| message_id := 801; message_channel := 51; message_content := "hello @everyone";
       message_author := {| member_id := 30; member_bot := true;
                            joined_at := None; member_roles := [2] |};
       message_mentions := [10; 11]; message_role_mentions := [2] |} in
  on_message sample_constants sample_more (sample_discord 403 None) spam []
  = (Ok (), [FxDeleteLater 801 10])
  ∧ on_message sample_constants sample_more (sample_discord 403 None)
      (sample_message 51 "reminder" (sample_member 20 100 [2])) []
    = (Ok (), []).
Proof.
  intros spam.
  destruct (on_message_guards sample_constants sample_more (sample_discord 403 None)
              spam []) as [_ Hbot].
  destruct (on_message_guards sample_constants sample_more (sample_discord 403 None)
              (sample_message 51 "reminder" (sample_member 20 100 [2])) [])
    as [Hskip _].
  split.
  - apply Hbot; [reflexivity|vm_compute; discriminate|reflexivity].
  - apply Hskip. right. reflexivity.
Defined.

(** What [on_message] does, all cases together. *)
Lemma on_message_cases (constants : Constants) (more : CommandConstants)
    (discord : Discord) (message : Message) (tr : list Effect) :
  let listener := on_message constants more discord message in
  let looked_at :=
    message_channel message = Channels_verification constants
    ∧ message_content message ≠ REMINDER_MESSAGE_stripped more in
  let command := get_context discord (tr ++ mention_alert message) message in
  (¬ looked_at ∧ listener tr = (Ok (), tr) ∧ effects_of listener tr = [])
  ∨ (looked_at ∧ member_bot (message_author message) = true
     ∧ (listener tr).1 = Ok ()
     ∧ effects_of listener tr = [FxDeleteLater (message_id message) 10])
  ∨ (looked_at ∧ member_bot (message_author message) = false
     ∧ ∃ fx,
         effects_of listener tr = mention_alert message ++ fx
         ∧ ((command = Some "accept" ∧ (listener tr).1 = Ok () ∧ fx = [])
            ∨ (command ≠ Some "accept"
               ∧ Roles_verified more ∈ member_roles (message_author message)
               ∧ (listener tr).1 = Ok ()
               ∧ fx = [FxLog INFO (AlreadyVerified (member_id (message_author message))
                                     (message_content message))])
            ∨ (command ≠ Some "accept"
               ∧ (Roles_verified more ∉ member_roles (message_author message))
               ∧ ((∃ status,
                     (listener tr).1 = Raise (HTTPException status)
                     ∧ fx = instructions message (Failed status) None)
                  ∨ (∃ deleted,
                       fx = instructions message (Done ()) (Some deleted)
                       ∧ (listener tr).1
                         = match deleted with
                           | Done _ => Ok ()
                           | Failed status =>
                             if decide (status = 404) then Ok ()
                             else Raise (HTTPException status)
                           end))))).
Proof.
  intros listener looked_at command.
  destruct (decide (message_channel message = Channels_verification constants))
    as [Hch|Hch];
    [|left; pose proof (on_message_skipped constants more discord message tr
                          (or_introl Hch)) as Hrun; fold listener in Hrun;
      split; [by intros [? _]|]; split; [done|];
      apply effects_of_app; by rewrite Hrun, app_nil_r].
  destruct (decide (message_content message = REMINDER_MESSAGE_stripped more))
    as [Htext|Htext];
    [left; pose proof (on_message_skipped constants more discord message tr
                         (or_intror Htext)) as Hrun; fold listener in Hrun;
     split; [by intros [_ ?]|]; split; [done|];
     apply effects_of_app; by rewrite Hrun, app_nil_r|].
  destruct (member_bot (message_author message)) eqn:Hbot.
  - right; left.
    pose proof (on_message_of_bot constants more discord message tr Hch Htext Hbot)
      as Hrun. fold listener in Hrun.
    split; [done|]. split; [done|]. split; [by rewrite Hrun|].
    apply effects_of_app. by rewrite Hrun.
  - right; right. split; [done|]. split; [done|].
    destruct (on_message_of_human constants more discord message tr Hch Htext Hbot)
      as (fx & Hrun & Hcases).
    fold listener command in Hrun, Hcases.
    exists fx. split; [apply effects_of_app; by rewrite Hrun|].
    case_decide as Hacc; [left; by split|].
    right.
    case_decide as Hver; [left; destruct Hcases; by repeat split|].
    right. split; [done|]. split; [done|].
    destruct Hcases as [[[]|status] Hreply].
    + right. destruct Hreply as (deleted & -> & Hres). by exists deleted.
    + left. destruct Hreply as [Hres ->]. by exists status.
Qed.

Lemma mod_alerts_mention_alert (message : Message) :
  mod_alerts (mention_alert message)
  = if decide (message_mentions message ≠ [] ∨ message_role_mentions message ≠ [])
    then [(member_id (message_author message), message_channel message,
           message_content message)]
    else [].
Proof. unfold mention_alert. case_bool_decide; by case_decide. Qed.

Lemma mention_alert_quiet (message : Message) :
  replies (mention_alert message) = [] ∧ deletes (mention_alert message) = [].
Proof. unfold mention_alert. by case_bool_decide. Qed.

(** X14. [on_message] alerts the moderators exactly for the messages of
    humans in the verification channel, other than the reminder text,
    that mention a user or a role, once per message; whether the author
    is verified, and whether the message is the accept command, plays no
    part. *)
Theorem on_message_alert (constants : Constants) (more : CommandConstants)
    (discord : Discord) (message : Message) (tr : list Effect) :
  let fx := effects_of (on_message constants more discord message) tr in
  mod_alerts fx
  = if decide (message_channel message = Channels_verification constants
               ∧ message_content message ≠ REMINDER_MESSAGE_stripped more
               ∧ member_bot (message_author message) = false
               ∧ (message_mentions message ≠ [] ∨ message_role_mentions message ≠ []))
    then [(member_id (message_author message), message_channel message,
           message_content message)]
    else [].
Proof.
  intros fx. subst fx.
  destruct (on_message_cases constants more discord message tr)
    as [(Hnot & _ & ->)|[(Hlook & Hbot & _ & ->)|(Hlook & Hbot & fx & -> & Hfx)]].
  - rewrite decide_False; [done|]. intros (? & ? & _). by apply Hnot.
  - rewrite decide_False; [done|]. intros (_ & _ & ? & _). congruence.
  - assert (mod_alerts fx = []) as Hquiet.
    { destruct Hfx as [(_ & _ & ->)|[(_ & _ & _ & ->)|(_ & _ & Hsent)]]; try done.
      destruct Hsent as [(status & _ & ->)|(deleted & -> & _)]; done. }
    unfold mod_alerts in *. rewrite omap_app, Hquiet, app_nil_r.
    fold (mod_alerts (mention_alert message)). rewrite mod_alerts_mention_alert.
    destruct Hlook as [? ?]. repeat case_decide; try done; tauto.
Qed.

(** X15. [on_message] sends the instructions, once, exactly to a human in
    the verification channel who is not verified and whose message is
    neither the reminder text nor the accept command. The message is
    deleted only after the instructions were delivered; a deletion
    refused with 404 (the message is gone already) is not an error, any
    other failure of the reply or of the deletion is raised. In every
    other case nothing is sent or deleted at once and the listener
    returns normally. *)
Theorem on_message_instructions (constants : Constants) (more : CommandConstants)
    (discord : Discord) (message : Message) (tr : list Effect) :
  let listener := on_message constants more discord message in
  let fx := effects_of listener tr in
  let author := message_author message in
  let command := get_context discord (tr ++ mention_alert message) message in
  let eligible :=
    message_channel message = Channels_verification constants
    ∧ message_content message ≠ REMINDER_MESSAGE_stripped more
    ∧ member_bot author = false
    ∧ command ≠ Some "accept"
    ∧ (Roles_verified more ∉ member_roles author) in
  (¬ eligible → replies fx = [] ∧ deletes fx = [] ∧ (listener tr).1 = Ok ())
  ∧ (eligible →
     ∃ reply,
       replies fx = [(message_channel message, PleaseAccept (member_id author), reply)]
       ∧ match reply with
         | Failed status =>
           deletes fx = [] ∧ (listener tr).1 = Raise (HTTPException status)
         | Done _ =>
           ∃ deleted,
             deletes fx = [(message_id message, deleted)]
             ∧ (listener tr).1 = match deleted with
                                 | Done _ => Ok ()
                                 | Failed status =>
                                   if decide (status = 404) then Ok ()
                                   else Raise (HTTPException status)
                                 end
         end).
Proof.
  cbv zeta.
  destruct (mention_alert_quiet message) as [Hr Hd].
  destruct (on_message_cases constants more discord message tr)
    as [(Hnot & Hrun & Hfx)|[(Hlook & Hbot & Hres & Hfx)|(Hlook & Hbot & fx & Hfx & Hcases)]];
    rewrite Hfx.
  - split; [intros _; by rewrite Hrun|].
    intros (? & ? & _). exfalso. by apply Hnot.
  - split; [done|]. intros (_ & _ & ? & _). congruence.
  - unfold replies, deletes in *. rewrite !omap_app, Hr, Hd. simpl.
    destruct Hcases as [(Hacc & Hres & ->)|[(Hacc & Hver & Hres & ->)|(Hacc & Hver & Hsent)]].
    + split; [done|]. intros (_ & _ & _ & ? & _). done.
    + split; [done|]. intros (_ & _ & _ & _ & ?). done.
    + split; [intros Hne; exfalso; apply Hne; by destruct Hlook|].
      intros _.
      destruct Hsent as [(status & Hres & ->)|(deleted & -> & Hres)].
      * by exists (Failed status).
      * exists (Done ()). split; [done|]. by exists deleted.
Qed.

Lemma on_message_instructions_witness :
  let newcomer := sample_member 20 100 [2] in
  let question := sample_message 51 "how do I get in?" newcomer in
  let listener := on_message sample_constants sample_more (sample_discord 403 None) question in
  (listener []).1 = Ok ()
  ∧ ∃ reply, replies (effects_of listener []) = [(51, PleaseAccept 20, reply)].
Proof.
  intros newcomer question listener.
  split; [vm_compute; reflexivity|].
  destruct (on_message_instructions sample_constants sample_more (sample_discord 403 None)
              question []) as [_ Heligible].
  destruct Heligible as (reply & Hreply & _).
  - repeat split; try reflexivity; try (vm_compute; discriminate).
    apply (bool_decide_unpack _). vm_compute. exact I.
  - exists reply. exact Hreply.
Defined.

Ltac step_command discord :=
  first
    [ case_answer (answer_add_roles discord) ipattern:([[]|?status])
    | case_answer (answer_remove_roles discord) ipattern:([[]|?status])
    | case_answer (answer_dm discord) ipattern:([[]|?status])
    | case_answer (answer_reply discord) ipattern:([[]|?status])
    | case_answer (answer_delete discord) ipattern:([[]|?status])
    | case_bool_decide ];
  simpl.

(** Every run of [accept_command]: the role updates, then the welcome
    message and the deletion of the command's message. *)
Lemma accept_command_run (constants : Constants) (more : CommandConstants)
    (discord : Discord) (ctx : Context) (tr : list Effect) :
  let author := ctx_author ctx in
  let id := member_id author in
  let run := accept_command constants more discord ctx tr in
  let held := Roles_unverified constants ∈ member_roles author in
  (∃ status,
     run = (Raise (HTTPException status),
            tr ++ [FxLog DEBUG (CalledAccept id);
                   FxAddRoles id (Roles_verified more) (Failed status)]))
  ∨ (∃ status,
       held
       ∧ run = (Raise (HTTPException status),
                tr ++ [FxLog DEBUG (CalledAccept id);
                       FxAddRoles id (Roles_verified more) (Done ());
                       FxLog DEBUG (RemovingUnverified id);
                       FxRemoveRoles id (Roles_unverified constants) (Failed status)]))
  ∨ (∃ sent deleted,
       run = (match deleted with
              | Failed status =>
                if decide (status = 404)
                then match sent with
                     | Failed code =>
                       if decide (code = 403) then Ok () else Raise (HTTPException code)
                     | Done _ => Ok ()
                     end
                else Raise (HTTPException status)
              | Done _ =>
                match sent with
                | Failed code =>
                  if decide (code = 403) then Ok () else Raise (HTTPException code)
                | Done _ => Ok ()
                end
              end,
              tr ++ [FxLog DEBUG (CalledAccept id);
                     FxAddRoles id (Roles_verified more) (Done ())]
                 ++ (if decide held
                     then [FxLog DEBUG (RemovingUnverified id);
                           FxRemoveRoles id (Roles_unverified constants) (Done ())]
                     else [])
                 ++ [FxDirectMessage id VERIFIED_MESSAGE sent]
                 ++ (match sent with
                     | Failed code =>
                       if decide (code = 403) then [FxLog INFO (WelcomeFailed id)] else []
                     | Done _ => []
                     end)
                 ++ [FxLog TRACE (DeletingAccept id);
                     FxIgnoreDelete (message_id (ctx_message ctx));
                     FxDelete (message_id (ctx_message ctx)) deleted])).
Proof.
  intros author id run held. subst run held id author.
  unfold accept_command. unfold_commands. unfold Forbidden, NotFound.
  repeat step_command discord;
    first
      [ solve [left; eexists; by rewrite <- ?app_assoc]
      | solve [right; left; eexists; split; [done|]; by rewrite <- ?app_assoc]
      | right; right;
        match goal with
        | Hsent : answer_dm discord _ _ _ = ?sent,
          Hdeleted : answer_delete discord _ _ = ?deleted |- _ =>
          exists sent, deleted
        end;
        repeat case_decide; try done; by rewrite <- ?app_assoc ].
Qed.

(** X16. [accept_command] asks for the Verified role first and for the
    removal of Unverified only from an author who holds it. When one of
    these role updates fails, the command raises that failure and does
    nothing more: no welcome message, no deletion. Once the roles are
    updated, the welcome message is sent once and, whatever its answer,
    the command's message is deleted, the deletion being announced to the
    moderation log just before. A welcome message refused with 403 and a
    deletion refused with 404 are not errors; any other failure is raised,
    that of the deletion taking precedence. *)
Theorem accept_command_cleanup (constants : Constants) (more : CommandConstants)
    (discord : Discord) (ctx : Context) (tr : list Effect) :
  let author := ctx_author ctx in
  let id := member_id author in
  let posted := message_id (ctx_message ctx) in
  let run := accept_command constants more discord ctx tr in
  let fx := effects_of (accept_command constants more discord ctx) tr in
  let held := Roles_unverified constants ∈ member_roles author in
  let halted status :=
    run.1 = Raise (HTTPException status)
    ∧ direct_messages fx = [] ∧ deletes fx = [] ∧ (FxIgnoreDelete posted ∉ fx) in
  let welcome sent :=
    match sent with
    | Failed code => if decide (code = 403) then Ok () else Raise (HTTPException code)
    | Done _ => Ok ()
    end in
  (∃ status,
     role_changes fx = [(true, id, Roles_verified more, Failed status)] ∧ halted status)
  ∨ (∃ status,
       held
       ∧ role_changes fx = [(true, id, Roles_verified more, Done ());
                            (false, id, Roles_unverified constants, Failed status)]
       ∧ halted status)
  ∨ (∃ sent deleted,
       role_changes fx
       = (true, id, Roles_verified more, Done ())
         :: (if decide held then [(false, id, Roles_unverified constants, Done ())] else [])
       ∧ direct_messages fx = [(id, VERIFIED_MESSAGE, sent)]
       ∧ (∃ before,
            fx = before ++ [FxIgnoreDelete posted; FxDelete posted deleted]
            ∧ deletes before = [])
       ∧ run.1 = match deleted with
                 | Failed status =>
                   if decide (status = 404) then welcome sent
                   else Raise (HTTPException status)
                 | Done _ => welcome sent
                 end).
Proof.
  cbv zeta.
  destruct (accept_command_run constants more discord ctx tr)
    as [(status & Hrun)|[(status & Hheld & Hrun)|(sent & deleted & Hrun)]].
  - left. exists status.
    rewrite (effects_of_app _ tr _ ltac:(by rewrite Hrun)), Hrun.
    repeat split; try done.
    intros Hin. repeat (apply elem_of_cons in Hin as [Hin|Hin]; [discriminate|]).
    by apply elem_of_nil in Hin.
  - right. left. exists status.
    rewrite (effects_of_app _ tr _ ltac:(by rewrite Hrun)), Hrun.
    repeat split; try done.
    intros Hin. repeat (apply elem_of_cons in Hin as [Hin|Hin]; [discriminate|]).
    by apply elem_of_nil in Hin.
  - right. right. exists sent, deleted.
    rewrite (effects_of_app _ tr _ ltac:(by rewrite Hrun)), Hrun.
    split; [|split; [|split]].
    + case_decide; destruct sent as [[]|code]; try case_decide; done.
    + case_decide; destruct sent as [[]|code]; try case_decide; done.
    + exists ([FxLog DEBUG (CalledAccept (member_id (ctx_author ctx)));
               FxAddRoles (member_id (ctx_author ctx)) (Roles_verified more) (Done ())]
              ++ (if decide (Roles_unverified constants ∈ member_roles (ctx_author ctx))
                  then [FxLog DEBUG (RemovingUnverified (member_id (ctx_author ctx)));
                        FxRemoveRoles (member_id (ctx_author ctx))
                          (Roles_unverified constants) (Done ())]
                  else [])
              ++ [FxDirectMessage (member_id (ctx_author ctx)) VERIFIED_MESSAGE sent]
              ++ (match sent with
                  | Failed code =>
                    if decide (code = 403)
                    then [FxLog INFO (WelcomeFailed (member_id (ctx_author ctx)))]
                    else []
                  | Done _ => []
                  end)
              ++ [FxLog TRACE (DeletingAccept (member_id (ctx_author ctx)))]).
      split.
      * by rewrite <- !app_assoc.
      * case_decide; destruct sent as [[]|code]; try case_decide; done.
    + simpl. destruct deleted as [[]|status]; [done|]. by case_decide.
Qed.

(** Every run of [subscribe_command]. *)
Lemma subscribe_command_run (more : CommandConstants) (discord : Discord)
    (ctx : Context) (tr : list Effect) :
  let id := member_id (ctx_author ctx) in
  let run := subscribe_command more discord ctx tr in
  let outcome (answer : http unit) :=
    match answer with Done _ => Ok () | Failed status => Raise (HTTPException status) end in
  if decide (Roles_announcements more ∈ member_roles (ctx_author ctx))
  then ∃ answer,
         run = (outcome answer,
                tr ++ [FxReply (ctx_channel ctx) (AlreadySubscribed id) None answer])
  else (∃ status,
          run = (Raise (HTTPException status),
                 tr ++ [FxLog DEBUG (CalledSubscribe id);
                        FxAddRoles id (Roles_announcements more) (Failed status)]))
       ∨ (∃ answer,
            run = (outcome answer,
                   tr ++ [FxLog DEBUG (CalledSubscribe id);
                          FxAddRoles id (Roles_announcements more) (Done ());
                          FxLog TRACE (DeletingPosted id);
                          FxReply (ctx_channel ctx) (SubscribedNotice id) None answer])).
Proof.
  cbv zeta. unfold subscribe_command. rewrite find_role_spec.
  case_decide as Hsub.
  - rewrite bool_decide_eq_true_2 by done. unfold_commands.
    step_command discord; [by exists (Done ())|by exists (Failed status)].
  - rewrite bool_decide_eq_false_2 by done. unfold_commands.
    step_command discord; [|left; exists status; by rewrite <- ?app_assoc].
    right. step_command discord;
      [exists (Done ())|exists (Failed status)]; by rewrite <- ?app_assoc.
Qed.

(** Every run of [unsubscribe_command]. *)
Lemma unsubscribe_command_run (more : CommandConstants) (discord : Discord)
    (ctx : Context) (tr : list Effect) :
  let id := member_id (ctx_author ctx) in
  let run := unsubscribe_command more discord ctx tr in
  let outcome (answer : http unit) :=
    match answer with Done _ => Ok () | Failed status => Raise (HTTPException status) end in
  if decide (Roles_announcements more ∈ member_roles (ctx_author ctx))
  then (∃ status,
          run = (Raise (HTTPException status),
                 tr ++ [FxLog DEBUG (CalledUnsubscribe id);
                        FxRemoveRoles id (Roles_announcements more) (Failed status)]))
       ∨ (∃ answer,
            run = (outcome answer,
                   tr ++ [FxLog DEBUG (CalledUnsubscribe id);
                          FxRemoveRoles id (Roles_announcements more) (Done ());
                          FxLog TRACE (DeletingPosted id);
                          FxReply (ctx_channel ctx) (UnsubscribedNotice id) None answer]))
  else ∃ answer,
         run = (outcome answer,
                tr ++ [FxReply (ctx_channel ctx) (AlreadyUnsubscribed id) None answer]).
Proof.
  cbv zeta. unfold unsubscribe_command. rewrite find_role_spec.
  case_decide as Hsub.
  - rewrite bool_decide_eq_true_2 by done. unfold_commands. simpl.
    step_command discord; [|left; exists status; by rewrite <- ?app_assoc].
    right. step_command discord;
      [exists (Done ())|exists (Failed status)]; by rewrite <- ?app_assoc.
  - rewrite bool_decide_eq_false_2 by done. unfold_commands. simpl.
    step_command discord; [by exists (Done ())|by exists (Failed status)].
Qed.

(** X17. For every author exactly one of [subscribe_command] and
    [unsubscribe_command] asks Discord for a role change, and that change
    is of the Announcements role of the author: a subscribed author gets
    the already-subscribed reply from the first and the removal from the
    second, any other author the already-unsubscribed reply from the
    second and the grant from the first. The loop with [break] over the
    author's roles decides this as membership does. *)
Theorem subscription_toggle (more : CommandConstants) (discord : Discord)
    (ctx : Context) (tr tr' : list Effect) :
  let id := member_id (ctx_author ctx) in
  let role := Roles_announcements more in
  let sub := effects_of (subscribe_command more discord ctx) tr in
  let unsub := effects_of (unsubscribe_command more discord ctx) tr' in
  if decide (role ∈ member_roles (ctx_author ctx))
  then role_changes sub = []
       ∧ (∃ answer, replies sub = [(ctx_channel ctx, AlreadySubscribed id, answer)])
       ∧ (∃ answer, role_changes unsub = [(false, id, role, answer)])
  else role_changes unsub = []
       ∧ (∃ answer, replies unsub = [(ctx_channel ctx, AlreadyUnsubscribed id, answer)])
       ∧ (∃ answer, role_changes sub = [(true, id, role, answer)]).
Proof.
  cbv zeta.
  pose proof (subscribe_command_run more discord ctx tr) as Hsub.
  pose proof (unsubscribe_command_run more discord ctx tr') as Hunsub.
  cbv zeta in Hsub, Hunsub.
  case_decide as Hheld.
  - destruct Hsub as (answer & Hsub).
    rewrite (effects_of_app _ tr _ ltac:(by rewrite Hsub)).
    split; [done|]. split; [by exists answer|].
    destruct Hunsub as [(status & Hunsub)|(answer' & Hunsub)];
      rewrite (effects_of_app _ tr' _ ltac:(by rewrite Hunsub)).
    + by exists (Failed status).
    + by exists (Done ()).
  - destruct Hunsub as (answer & Hunsub).
    rewrite (effects_of_app _ tr' _ ltac:(by rewrite Hunsub)).
    split; [done|]. split; [by exists answer|].
    destruct Hsub as [(status & Hsub)|(answer' & Hsub)];
      rewrite (effects_of_app _ tr _ ltac:(by rewrite Hsub)).
    + by exists (Failed status).
    + by exists (Done ()).
Qed.

(** X18. [subscribe_command] and [unsubscribe_command] send at most one
    reply, and return normally exactly when it was delivered. The notice
    of a subscription or of its end is sent only after Discord accepted
    the role change: when the change fails the command raises that
    failure and sends nothing. *)
Theorem subscription_notice (more : CommandConstants) (discord : Discord)
    (ctx : Context) (tr : list Effect) :
  let id := member_id (ctx_author ctx) in
  let role := Roles_announcements more in
  let confirmed (command : L unit) (grant : bool) (notice : Text) :=
    let fx := effects_of command tr in
    (length (replies fx) ≤ 1)%nat
    ∧ ((command tr).1 = Ok () ↔ ∃ text, replies fx = [(ctx_channel ctx, text, Done ())])
    ∧ (∀ answer, (ctx_channel ctx, notice, answer) ∈ replies fx →
         role_changes fx = [(grant, id, role, Done ())])
    ∧ (∀ status, (grant, id, role, Failed status) ∈ role_changes fx →
         replies fx = [] ∧ (command tr).1 = Raise (HTTPException status)) in
  confirmed (subscribe_command more discord ctx) true (SubscribedNotice id)
  ∧ confirmed (unsubscribe_command more discord ctx) false (UnsubscribedNotice id).
Proof.
  cbv zeta.
  pose proof (subscribe_command_run more discord ctx tr) as Hsub.
  pose proof (unsubscribe_command_run more discord ctx tr) as Hunsub.
  cbv zeta in Hsub, Hunsub.
  assert (∀ (x y : Snowflake * Text * http unit), x ∈ [y] → x = y) as Hone.
  { intros x y [->|Hin]%elem_of_cons; [done|]. by apply elem_of_nil in Hin. }
  assert (∀ (x y : bool * Snowflake * Snowflake * http unit), x ∈ [y] → x = y) as Hone'.
  { intros x y [->|Hin]%elem_of_cons; [done|]. by apply elem_of_nil in Hin. }
  split.
  - case_decide as Hheld.
    + destruct Hsub as (answer & Hsub).
      rewrite (effects_of_app _ tr _ ltac:(by rewrite Hsub)), Hsub. simpl.
      split; [lia|]. split; [|split].
      * destruct answer as [[]|status]; split; try done.
        -- intros _. by eexists.
        -- intros (text & Heq). by simplify_eq.
      * intros answer' Hin%Hone. by simplify_eq.
      * intros status Hin. by apply elem_of_nil in Hin.
    + destruct Hsub as [(status & Hsub)|(answer & Hsub)];
        rewrite (effects_of_app _ tr _ ltac:(by rewrite Hsub)), Hsub; simpl.
      * split; [lia|]. split; [|split].
        -- split; [done|]. intros (text & Heq). by simplify_eq.
        -- intros answer' Hin. by apply elem_of_nil in Hin.
        -- intros status' Hin%Hone'. by simplify_eq.
      * split; [lia|]. split; [|split].
        -- destruct answer as [[]|status]; split; try done.
           ++ intros _. by eexists.
           ++ intros (text & Heq). by simplify_eq.
        -- done.
        -- intros status' Hin%Hone'. by simplify_eq.
  - case_decide as Hheld.
    + destruct Hunsub as [(status & Hunsub)|(answer & Hunsub)];
        rewrite (effects_of_app _ tr _ ltac:(by rewrite Hunsub)), Hunsub; simpl.
      * split; [lia|]. split; [|split].
        -- split; [done|]. intros (text & Heq). by simplify_eq.
        -- intros answer' Hin. by apply elem_of_nil in Hin.
        -- intros status' Hin%Hone'. by simplify_eq.
      * split; [lia|]. split; [|split].
        -- destruct answer as [[]|status]; split; try done.
           ++ intros _. by eexists.
           ++ intros (text & Heq). by simplify_eq.
        -- done.
        -- intros status' Hin%Hone'. by simplify_eq.
    + destruct Hunsub as (answer & Hunsub).
      rewrite (effects_of_app _ tr _ ltac:(by rewrite Hunsub)), Hunsub. simpl.
      split; [lia|]. split; [|split].
      * destruct answer as [[]|status]; split; try done.
        -- intros _. by eexists.
        -- intros (text & Heq). by simplify_eq.
      * intros answer' Hin%Hone. by simplify_eq.
      * intros status Hin. by apply elem_of_nil in Hin.
Qed.

(** ** Two cycles in a row *)





